(** * Bonding-curve quoting and on-chain trade verification

    A shallow embedding of the pricing engine
    ([server/raydium-launchlab.ts]), the trade verifier
    ([server/launchlab.ts]) and the two confirmation handlers
    ([server/routes.ts]) of the token-launch application, with the
    properties of its specification stated and settled against them;
    and of the code around them: the display metrics, the other routes
    of the launch ledger, the verification of a token creation, the
    cached pool state and the price helpers of the shared schema.

    The program computes with JavaScript numbers.  Every function below is
    written once, over an interface [Number] of the operations the source
    uses, and read in two ways:

    - [float] : IEEE 754 binary64, which is what the program runs on;
      concrete runs are evaluated in it;
    - [xreal] : real numbers extended with the two infinities and NaN,
      without rounding, which is what the specification's "real" prices
      and amounts mean; laws quantified over all amounts are proved in it. *)

From Stdlib Require Import ZArith QArith Reals Lra Lia Bool List.
From Stdlib Require Import PrimFloat FloatOps SpecFloat.
From stdpp Require Import base option gmap strings.
Import ListNotations.

(** ** JavaScript numbers *)

Declare Scope js_scope.
Delimit Scope js_scope with js.

(** The operations on [number] that the source uses.  A decimal literal of
    the source is [lit q] for the rational [q] it denotes. *)
Class Number (num : Type) : Type := {
  ofQ : Q -> num;
  nadd : num -> num -> num;
  nsub : num -> num -> num;
  nmul : num -> num -> num;
  ndiv : num -> num -> num;
  nneg : num -> num;
  nltb : num -> num -> bool;      (* a < b *)
  nleb : num -> num -> bool;      (* a <= b *)
  neqb : num -> num -> bool;      (* a === b *)
  isNaN : num -> bool;
  isFinite : num -> bool;         (* Number.isFinite *)
  Math_abs : num -> num;
  Math_min : num -> num -> num;
  Math_max : num -> num -> num;
  Math_floor : num -> num;
}.

(** [Math.pow] and [Math.log], which only the curve functions call. *)
Class Transcendental (num : Type) : Type := {
  Math_pow : num -> num -> num;
  Math_log : num -> num;
}.

Definition lit {num} `{Number num} (q : Q) : num := ofQ q.
Arguments lit {num _} q%_Q.

Infix "+" := nadd : js_scope.
Infix "-" := nsub : js_scope.
Infix "*" := nmul : js_scope.
Infix "/" := ndiv : js_scope.
Notation "- x" := (nneg x) : js_scope.
Infix "<?" := nltb : js_scope.
Infix "<=?" := nleb : js_scope.
Notation "a >? b" := (nltb b a) (only parsing) : js_scope.
Notation "a >=? b" := (nleb b a) (only parsing) : js_scope.

(** Truthiness of a number: [0], [-0] and [NaN] are falsy. *)
Definition truthy {num} `{Number num} (x : num) : bool :=
  negb (neqb x (lit 0) || isNaN x).

(** [x || y] on numbers. *)
Definition orElse {num} `{Number num} (x y : num) : num :=
  if truthy x then x else y.

(** [o || y] where [o] may be [undefined]. *)
Definition orDefault {num} `{Number num} (o : option num) (y : num) : num :=
  match o with
  | Some x => orElse x y
  | None => y
  end.

(** *** binary64 *)

Module Binary64.

Definition ofZ (z : Z) : float := SF2Prim (binary_normalize prec emax z 0 false).

(** A literal [n/d] whose numerator and denominator are exact in binary64
    is the correctly rounded quotient, as the literal is in the source. *)
Definition ofQ (q : Q) : float :=
  PrimFloat.div (ofZ (Qnum q)) (ofZ (Z.pos (Qden q))).

Definition min (a b : float) : float :=
  if PrimFloat.is_nan a || PrimFloat.is_nan b then nan
  else if PrimFloat.ltb a b then a
  else if PrimFloat.ltb b a then b
  else if PrimFloat.get_sign a then a else b.

Definition max (a b : float) : float :=
  if PrimFloat.is_nan a || PrimFloat.is_nan b then nan
  else if PrimFloat.ltb a b then b
  else if PrimFloat.ltb b a then a
  else if PrimFloat.get_sign a then b else a.

(** [Math.floor]: the greatest integer not above [x]; zeros, infinities
    and NaN are returned unchanged. *)
Definition floor (x : float) : float :=
  match Prim2SF x with
  | S754_finite s m e =>
      if (0 <=? e)%Z then x
      else
        let d := Z.shiftl 1 (- e) in
        let q := (Z.pos m / d)%Z in
        let r := (Z.pos m mod d)%Z in
        if s then
          (if (r =? 0)%Z then PrimFloat.opp (ofZ q) else PrimFloat.opp (ofZ (q + 1)))
        else
          (if (q =? 0)%Z then PrimFloat.zero else ofZ q)
  | _ => x
  end.

End Binary64.

#[export] Instance float_Number : Number float := {|
  ofQ := Binary64.ofQ;
  nadd := PrimFloat.add;
  nsub := PrimFloat.sub;
  nmul := PrimFloat.mul;
  ndiv := PrimFloat.div;
  nneg := PrimFloat.opp;
  nltb := PrimFloat.ltb;
  nleb := PrimFloat.leb;
  neqb := PrimFloat.eqb;
  isNaN := PrimFloat.is_nan;
  isFinite := PrimFloat.is_finite;
  Math_abs := PrimFloat.abs;
  Math_min := Binary64.min;
  Math_max := Binary64.max;
  Math_floor := Binary64.floor;
|}.

(** *** Extended reals

    Exact arithmetic on the reals with [Infinity], [-Infinity] and [NaN],
    following the rules of IEEE 754 for the special values.  There is no
    rounding and no overflow, and the sign of a zero is not tracked (a zero
    divisor counts as [+0]). *)

Inductive xreal : Type :=
| XFin (r : R)
| XPInf
| XNInf
| XNaN.

Module XReal.
Local Open Scope R_scope.

Definition cmp (a b : R) : comparison :=
  match total_order_T a b with
  | inleft (left _) => Lt
  | inleft (right _) => Eq
  | inright _ => Gt
  end.

(** The infinity with the sign of [a], NaN for zero. *)
Definition signedInf (a : R) : xreal :=
  match cmp a 0 with Gt => XPInf | Lt => XNInf | Eq => XNaN end.

Definition neg (x : xreal) : xreal :=
  match x with
  | XFin a => XFin (- a)
  | XPInf => XNInf
  | XNInf => XPInf
  | XNaN => XNaN
  end.

Definition add (x y : xreal) : xreal :=
  match x, y with
  | XNaN, _ | _, XNaN => XNaN
  | XFin a, XFin b => XFin (a + b)
  | XPInf, XNInf | XNInf, XPInf => XNaN
  | XPInf, _ | _, XPInf => XPInf
  | XNInf, _ | _, XNInf => XNInf
  end.

Definition sub (x y : xreal) : xreal := add x (neg y).

Definition mul (x y : xreal) : xreal :=
  match x, y with
  | XNaN, _ | _, XNaN => XNaN
  | XFin a, XFin b => XFin (a * b)
  | XFin a, XPInf | XPInf, XFin a => signedInf a
  | XFin a, XNInf | XNInf, XFin a => signedInf (- a)
  | XPInf, XPInf | XNInf, XNInf => XPInf
  | XPInf, XNInf | XNInf, XPInf => XNInf
  end.

Definition div (x y : xreal) : xreal :=
  match x, y with
  | XNaN, _ | _, XNaN => XNaN
  | XFin a, XFin b =>
      match cmp b 0 with
      | Eq => signedInf a
      | _ => XFin (a / b)
      end
  | XFin _, _ => XFin 0
  | XPInf, XFin b => match cmp b 0 with Lt => XNInf | _ => XPInf end
  | XNInf, XFin b => match cmp b 0 with Lt => XPInf | _ => XNInf end
  | _, _ => XNaN
  end.

Definition ltb (x y : xreal) : bool :=
  match x, y with
  | XNaN, _ | _, XNaN => false
  | XFin a, XFin b => match cmp a b with Lt => true | _ => false end
  | _, XNInf => false
  | XNInf, _ => true
  | XPInf, _ => false
  | _, XPInf => true
  end.

Definition eqb (x y : xreal) : bool :=
  match x, y with
  | XFin a, XFin b => match cmp a b with Eq => true | _ => false end
  | XPInf, XPInf | XNInf, XNInf => true
  | _, _ => false
  end.

Definition leb (x y : xreal) : bool := ltb x y || eqb x y.

Definition isNaN (x : xreal) : bool :=
  match x with XNaN => true | _ => false end.

Definition isFinite (x : xreal) : bool :=
  match x with XFin _ => true | _ => false end.

Definition abs (x : xreal) : xreal :=
  match x with
  | XFin a => XFin (Rabs a)
  | XPInf | XNInf => XPInf
  | XNaN => XNaN
  end.

Definition min (x y : xreal) : xreal :=
  match x, y with
  | XNaN, _ | _, XNaN => XNaN
  | XFin a, XFin b => XFin (Rmin a b)
  | XNInf, _ | _, XNInf => XNInf
  | XPInf, z | z, XPInf => z
  end.

Definition max (x y : xreal) : xreal :=
  match x, y with
  | XNaN, _ | _, XNaN => XNaN
  | XFin a, XFin b => XFin (Rmax a b)
  | XPInf, _ | _, XPInf => XPInf
  | XNInf, z | z, XNInf => z
  end.

Definition floor (x : xreal) : xreal :=
  match x with
  | XFin a => XFin (IZR (Int_part a))
  | _ => x
  end.

(** [Math.log]: NaN below zero, [-Infinity] at zero. *)
Definition log (x : xreal) : xreal :=
  match x with
  | XFin a =>
      match cmp a 0 with
      | Lt => XNaN
      | Eq => XNInf
      | Gt => XFin (ln a)
      end
  | XPInf => XPInf
  | XNInf | XNaN => XNaN
  end.

Definition isInteger (a : R) : bool :=
  match cmp (IZR (Int_part a)) a with Eq => true | _ => false end.

Definition isOddInteger (a : R) : bool :=
  isInteger a && Z.odd (Int_part a).

(** [Math.pow] (Number::exponentiate of ECMAScript). *)
Definition pow (x y : xreal) : xreal :=
  match y with
  | XNaN => XNaN
  | XFin b =>
      match cmp b 0 with
      | Eq => XFin 1
      | sb =>
          match x with
          | XNaN => XNaN
          | XPInf => match sb with Gt => XPInf | _ => XFin 0 end
          | XNInf =>
              match sb with
              | Gt => if isOddInteger b then XNInf else XPInf
              | _ => XFin 0
              end
          | XFin a =>
              match cmp a 0 with
              | Gt => XFin (Rpower a b)
              | Eq => match sb with Gt => XFin 0 | _ => XPInf end
              | Lt =>
                  if isInteger b then
                    (if Z.odd (Int_part b) then XFin (- Rpower (- a) b)
                     else XFin (Rpower (- a) b))
                  else XNaN
              end
          end
      end
  | XPInf =>
      match x with
      | XNaN => XNaN
      | XPInf | XNInf => XPInf
      | XFin a =>
          match cmp (Rabs a) 1 with
          | Gt => XPInf
          | Eq => XNaN
          | Lt => XFin 0
          end
      end
  | XNInf =>
      match x with
      | XNaN => XNaN
      | XPInf | XNInf => XFin 0
      | XFin a =>
          match cmp (Rabs a) 1 with
          | Gt => XFin 0
          | Eq => XNaN
          | Lt => XPInf
          end
      end
  end.

Definition ofQ (q : Q) : xreal := XFin (Q2R q).

End XReal.

#[export] Instance xreal_Number : Number xreal := {|
  ofQ := XReal.ofQ;
  nadd := XReal.add;
  nsub := XReal.sub;
  nmul := XReal.mul;
  ndiv := XReal.div;
  nneg := XReal.neg;
  nltb := XReal.ltb;
  nleb := XReal.leb;
  neqb := XReal.eqb;
  isNaN := XReal.isNaN;
  isFinite := XReal.isFinite;
  Math_abs := XReal.abs;
  Math_min := XReal.min;
  Math_max := XReal.max;
  Math_floor := XReal.floor;
|}.

#[export] Instance xreal_Transcendental : Transcendental xreal := {|
  Math_pow := XReal.pow;
  Math_log := XReal.log;
|}.

(** ** The pricing engine ([server/raydium-launchlab.ts]) *)

Record BuyPrice (num : Type) : Type := {
  tokensOut : num;
  buy_priceImpact : num;
  buy_fee : num;
}.
Arguments tokensOut {num}.
Arguments buy_priceImpact {num}.
Arguments buy_fee {num}.

Record SellPrice (num : Type) : Type := {
  solOut : num;
  sell_priceImpact : num;
  sell_fee : num;
}.
Arguments solOut {num}.
Arguments sell_priceImpact {num}.
Arguments sell_fee {num}.

Record QuoteResult (num : Type) : Type := {
  amountIn : num;
  amountOut : num;
  fee : num;
  priceImpact : num;
  currentPrice : num;
  newPrice : num;
}.
Arguments amountIn {num}.
Arguments amountOut {num}.
Arguments fee {num}.
Arguments priceImpact {num}.
Arguments currentPrice {num}.
Arguments newPrice {num}.

Section Curve.
Context {num : Type} `{Number num} `{Transcendental num}.
Local Open Scope string_scope.
Local Open Scope js_scope.

Definition PLATFORM_FEE_RATE : num := lit 0.0025.
Definition DEFAULT_FUNDRAISING_TARGET : num := lit 85.

(** The callers in [routes.ts] pass [totalSupply] and [targetRaised]; the
    defaults of the source (1_000_000_000 and 85) are for calls without
    them. *)
Definition calculateBuyPrice
    (currentRaised solAmount : num) (curveType : string)
    (totalSupply targetRaised : num) : BuyPrice num :=
  let fee := solAmount * PLATFORM_FEE_RATE in
  let netSolAmount := solAmount - fee in
  let progress := currentRaised / targetRaised in
  let tokensAvailable := totalSupply * lit 0.8 in
  let tokensSold := tokensAvailable * progress in
  let tokensRemaining := tokensAvailable - tokensSold in
  let initialPrice := targetRaised / tokensAvailable in
  let '(tokensOut, priceImpact) :=
    if String.eqb curveType "linear" then
      let slope := initialPrice * lit 0.5 in
      let currentPrice := initialPrice + slope * progress in
      let endProgress := (currentRaised + netSolAmount) / targetRaised in
      let endPrice := initialPrice + slope * endProgress in
      let avgPrice := (currentPrice + endPrice) / lit 2 in
      (netSolAmount / avgPrice,
       ((endPrice - currentPrice) / currentPrice) * lit 100)
    else if String.eqb curveType "exponential" then
      let rate := lit 2 in
      let currentPrice := initialPrice * Math_pow (lit 1 + rate) progress in
      let endProgress := (currentRaised + netSolAmount) / targetRaised in
      let endPrice := initialPrice * Math_pow (lit 1 + rate) endProgress in
      (netSolAmount / ((currentPrice + endPrice) / lit 2),
       ((endPrice - currentPrice) / currentPrice) * lit 100)
    else if String.eqb curveType "logarithmic" then
      let multiplier := lit 10 in
      let currentPrice :=
        initialPrice * (lit 1 + multiplier * Math_log (lit 1 + progress)) in
      let endProgress := (currentRaised + netSolAmount) / targetRaised in
      let endPrice :=
        initialPrice * (lit 1 + multiplier * Math_log (lit 1 + endProgress)) in
      (netSolAmount / ((currentPrice + endPrice) / lit 2),
       ((endPrice - currentPrice) / currentPrice) * lit 100)
    else
      (netSolAmount / initialPrice, lit 0) in
  let tokensOut := Math_min tokensOut tokensRemaining in
  {| tokensOut := Math_floor tokensOut;
     buy_priceImpact := Math_min priceImpact (lit 100);
     buy_fee := fee |}.

Definition calculateSellPrice
    (currentRaised tokenAmount : num) (curveType : string)
    (totalSupply targetRaised : num) : SellPrice num :=
  let progress := currentRaised / targetRaised in
  let tokensAvailable := totalSupply * lit 0.8 in
  let tokensSold := tokensAvailable * progress in
  let initialPrice := targetRaised / tokensAvailable in
  let '(grossSolOut, priceImpact) :=
    if String.eqb curveType "linear" then
      let slope := initialPrice * lit 0.5 in
      let currentPrice := initialPrice + slope * progress in
      let tokensSoldAfter := tokensSold - tokenAmount in
      let endProgress := tokensSoldAfter / tokensAvailable in
      let endPrice := initialPrice + slope * endProgress in
      let avgPrice := (currentPrice + endPrice) / lit 2 in
      (tokenAmount * avgPrice,
       ((currentPrice - endPrice) / currentPrice) * lit 100)
    else if String.eqb curveType "exponential" then
      let rate := lit 2 in
      let currentPrice := initialPrice * Math_pow (lit 1 + rate) progress in
      let tokensSoldAfter := tokensSold - tokenAmount in
      let endProgress := tokensSoldAfter / tokensAvailable in
      let endPrice := initialPrice * Math_pow (lit 1 + rate) endProgress in
      (tokenAmount * ((currentPrice + endPrice) / lit 2),
       ((currentPrice - endPrice) / currentPrice) * lit 100)
    else if String.eqb curveType "logarithmic" then
      let multiplier := lit 10 in
      let currentPrice :=
        initialPrice * (lit 1 + multiplier * Math_log (lit 1 + progress)) in
      let tokensSoldAfter := tokensSold - tokenAmount in
      let endProgress := tokensSoldAfter / tokensAvailable in
      let endPrice :=
        initialPrice * (lit 1 + multiplier * Math_log (lit 1 + endProgress)) in
      (tokenAmount * ((currentPrice + endPrice) / lit 2),
       ((currentPrice - endPrice) / currentPrice) * lit 100)
    else
      (tokenAmount * initialPrice, lit 0) in
  let grossSolOut := Math_min grossSolOut currentRaised in
  let fee := grossSolOut * PLATFORM_FEE_RATE in
  let solOut := grossSolOut - fee in
  {| solOut := Math_max solOut (lit 0);
     sell_priceImpact := Math_min (Math_abs priceImpact) (lit 100);
     sell_fee := fee |}.

Definition getCurrentPrice
    (currentRaised : num) (curveType : string)
    (totalSupply targetRaised : num) : num :=
  let progress := currentRaised / targetRaised in
  let tokensAvailable := totalSupply * lit 0.8 in
  let initialPrice := targetRaised / tokensAvailable in
  if String.eqb curveType "linear" then
    let slope := initialPrice * lit 0.5 in
    initialPrice + slope * progress
  else if String.eqb curveType "exponential" then
    let rate := lit 2 in
    initialPrice * Math_pow (lit 1 + rate) progress
  else if String.eqb curveType "logarithmic" then
    let multiplier := lit 10 in
    initialPrice * (lit 1 + multiplier * Math_log (lit 1 + progress))
  else
    initialPrice.

Definition getBuyQuote
    (solAmount currentRaised : num) (curveType : string)
    (totalSupply targetRaised : num) : QuoteResult num :=
  let result :=
    calculateBuyPrice currentRaised solAmount curveType totalSupply targetRaised in
  let currentPrice := getCurrentPrice currentRaised curveType totalSupply targetRaised in
  let newRaised := currentRaised + solAmount - buy_fee result in
  let newPrice := getCurrentPrice newRaised curveType totalSupply targetRaised in
  {| amountIn := solAmount;
     amountOut := tokensOut result;
     fee := buy_fee result;
     priceImpact := buy_priceImpact result;
     currentPrice := currentPrice;
     newPrice := newPrice |}.

Definition getSellQuote
    (tokenAmount currentRaised : num) (curveType : string)
    (totalSupply targetRaised : num) : QuoteResult num :=
  let result :=
    calculateSellPrice currentRaised tokenAmount curveType totalSupply targetRaised in
  let currentPrice := getCurrentPrice currentRaised curveType totalSupply targetRaised in
  let newRaised := currentRaised - solOut result - sell_fee result in
  let newPrice :=
    getCurrentPrice (Math_max (lit 0) newRaised) curveType totalSupply targetRaised in
  {| amountIn := tokenAmount;
     amountOut := solOut result;
     fee := sell_fee result;
     priceImpact := sell_priceImpact result;
     currentPrice := currentPrice;
     newPrice := newPrice |}.

End Curve.

(** ** The trade verifier ([server/launchlab.ts]) *)

(** A call into a library that may throw. *)
Inductive Completion (A : Type) : Type :=
| Threw
| Returned (a : A).
Arguments Threw {A}.
Arguments Returned {A}.

(** *** The parsed transaction, as the RPC node returns it *)

Record AccountKey : Type := {
  pubkey : string;
  signer : bool;
}.

Record InstructionInfo : Type := {
  mint : option string;
  source : option string;
  destination : option string;
  account : option string;
}.

Record ParsedData : Type := {
  type : string;
  info : option InstructionInfo;
}.

Record Instruction : Type := {
  program : option string;
  parsed : option ParsedData;
}.

(** [uiAmount] is [None] when [uiTokenAmount] or its [uiAmount] is absent
    or null. *)
Record TokenBalance (num : Type) : Type := {
  accountIndex : nat;
  uiAmount : option num;
}.
Arguments accountIndex {num}.
Arguments uiAmount {num}.

(** [err] is the truthiness of [meta.err]; a list that is absent is empty,
    as the source reads each of them with [|| []]. *)
Record TransactionMeta (num : Type) : Type := {
  err : bool;
  innerInstructions : list (list Instruction);
  preTokenBalances : list (TokenBalance num);
  postTokenBalances : list (TokenBalance num);
  preBalances : list num;
  postBalances : list num;
}.
Arguments err {num}.
Arguments innerInstructions {num}.
Arguments preTokenBalances {num}.
Arguments postTokenBalances {num}.
Arguments preBalances {num}.
Arguments postBalances {num}.

Record ParsedTransaction (num : Type) : Type := {
  meta : option (TransactionMeta num);
  accountKeys : list AccountKey;
  instructions : list Instruction;
}.
Arguments meta {num}.
Arguments accountKeys {num}.
Arguments instructions {num}.

Record VerifyTradeParams (num : Type) : Type := {
  signature : string;
  expectedWallet : string;
  expectedMint : string;
  expectedSolAmount : num;
  isBuy : bool;
}.
Arguments signature {num}.
Arguments expectedWallet {num}.
Arguments expectedMint {num}.
Arguments expectedSolAmount {num}.
Arguments isBuy {num}.

(** The [error] strings of the source, one constructor each:
    - [TransactionNotFound]      'Transaction not found'
    - [TransactionFailed]        'Transaction failed on-chain'
    - [WalletNotSigner]          'Wallet is not a signer of the transaction'
    - [NoTokenTransfer]          'No token transfer found in transaction'
    - [MintNotInvolved]          'Token transfer does not involve the expected mint'
    - [ExpectedIncreaseForBuy]   'Expected token balance increase for buy, but got decrease or no change'
    - [ExpectedDecreaseForSell]  'Expected token balance decrease for sell, but got increase or no change'
    - [WalletNotInAccounts]      'Wallet not found in transaction accounts'
    - [SolAmountMismatch e a]    'SOL amount mismatch: expected e, actual a'
    - [Exception]                [String(error)] of the [catch] clause. *)
Inductive TradeError (num : Type) : Type :=
| TransactionNotFound
| TransactionFailed
| WalletNotSigner
| NoTokenTransfer
| MintNotInvolved
| ExpectedIncreaseForBuy
| ExpectedDecreaseForSell
| WalletNotInAccounts
| SolAmountMismatch (expected actual : num)
| Exception.
Arguments TransactionNotFound {num}.
Arguments TransactionFailed {num}.
Arguments WalletNotSigner {num}.
Arguments NoTokenTransfer {num}.
Arguments MintNotInvolved {num}.
Arguments ExpectedIncreaseForBuy {num}.
Arguments ExpectedDecreaseForSell {num}.
Arguments WalletNotInAccounts {num}.
Arguments SolAmountMismatch {num}.
Arguments Exception {num}.

Module TradeVerification.
Record t (num : Type) : Type := mk {
  valid : bool;
  solAmount : option num;
  tokenAmount : option num;
  walletAddress : option string;
  mintAddress : option string;
  error : option (TradeError num);
}.
Arguments mk {num}.
Arguments valid {num}.
Arguments solAmount {num}.
Arguments tokenAmount {num}.
Arguments walletAddress {num}.
Arguments mintAddress {num}.
Arguments error {num}.

(** [{ valid: false, error }] *)
Definition invalid {num} (e : TradeError num) : t num :=
  mk false None None None None (Some e).
End TradeVerification.

(** *** Early returns

    A step of the verifier either returns the [{ valid: false, error }]
    result at once or passes a value on. *)

Inductive Check (E A : Type) : Type :=
| Fail (e : E)
| Pass (a : A).
Arguments Fail {E A}.
Arguments Pass {E A}.

#[export] Instance Check_ret {E} : MRet (Check E) := fun A a => Pass a.
#[export] Instance Check_bind {E} : MBind (Check E) := fun A B k c =>
  match c with
  | Fail e => Fail e
  | Pass a => k a
  end.

(** [if (!b) return { valid: false, error: e }] *)
Definition require {E} (b : bool) (e : E) : Check E unit :=
  if b then Pass tt else Fail e.

Section Verifier.
Context {num : Type} `{Number num}.
Local Open Scope string_scope.
Local Open Scope js_scope.

(** [connection.getParsedTransaction(signature, ...)]: the transaction,
    [None] when the node has none, or a thrown RPC error. *)
Variable getParsedTransaction :
  string -> Completion (option (ParsedTransaction num)).

(** [getAssociatedTokenAddressSync(new PublicKey(mint), new PublicKey(owner))
    .toBase58()] of @solana/spl-token; it throws on a malformed key or an
    owner off the curve. *)
Variable getAssociatedTokenAddressSync : string -> string -> Completion string.

Definition LAMPORTS_PER_SOL : num := lit 1000000000.

(** A throw inside the [try] block is caught and reported as an error. *)
Definition caught {A} (c : Completion A) : Check (TradeError num) A :=
  match c with
  | Threw => Fail Exception
  | Returned a => Pass a
  end.

(** [o === s] for a field that may be undefined. *)
Definition strictEq (o : option string) (s : string) : bool :=
  match o with
  | Some x => String.eqb x s
  | None => false
  end.

(** [arr.findIndex(p)], [None] for [-1]. *)
Fixpoint findIndex {A} (p : A -> bool) (l : list A) : option nat :=
  match l with
  | [] => None
  | x :: l' => if p x then Some O else option_map S (findIndex p l')
  end.

Definition walletIsSigner (keys : list AccountKey) (expectedWallet : string) : bool :=
  existsb (fun k => String.eqb (pubkey k) expectedWallet && signer k) keys.

Definition metaErr (tx : ParsedTransaction num) : bool :=
  match meta tx with
  | Some m => err m
  | None => false
  end.

Definition metaList {A} (f : TransactionMeta num -> list A)
    (tx : ParsedTransaction num) : list A :=
  match meta tx with
  | Some m => f m
  | None => []
  end.

(** The top-level instructions followed by the inner ones. *)
Definition allInstructions (tx : ParsedTransaction num) : list Instruction :=
  instructions tx ++ concat (metaList innerInstructions tx).

Definition tokenInstructionTypes : list string :=
  ["transfer"; "transferChecked"; "mintTo"; "burn"; "burnChecked"].

(** The loop over [allInstructions], with its [break]s.  The result is
    [(mintVerified, tokenTransferFound)]. *)
Fixpoint scanInstructions (expectedWallet expectedMint : string)
    (ixs : list Instruction) (tokenTransferFound : bool)
    : Check (TradeError num) (bool * bool) :=
  match ixs with
  | [] => Pass (false, tokenTransferFound)
  | ix :: rest =>
      match parsed ix with
      | Some p =>
          if strictEq (program ix) "spl-token"
             && existsb (String.eqb (type p)) tokenInstructionTypes
          then
            if strictEq (info p ≫= mint) expectedMint then Pass (true, true)
            else
              match caught (getAssociatedTokenAddressSync expectedMint expectedWallet) with
              | Fail e => Fail e
              | Pass expectedAta =>
                  if strictEq (info p ≫= source) expectedAta
                     || strictEq (info p ≫= destination) expectedAta
                     || strictEq (info p ≫= account) expectedAta
                  then Pass (true, true)
                  else scanInstructions expectedWallet expectedMint rest true
              end
          else scanInstructions expectedWallet expectedMint rest tokenTransferFound
      | None => scanInstructions expectedWallet expectedMint rest tokenTransferFound
      end
  end.

(** Steps 1 to 3: the transaction is there and succeeded, the wallet
    signed it, and a token instruction refers to the expected mint. *)
Definition fetchAndCheckMint (params : VerifyTradeParams num)
    : Check (TradeError num) (ParsedTransaction num) :=
  found ← caught (getParsedTransaction (signature params));
  tx ← match found with
       | None => Fail TransactionNotFound
       | Some tx => Pass tx
       end;
  _ ← require (negb (metaErr tx)) TransactionFailed;
  _ ← require (walletIsSigner (accountKeys tx) (expectedWallet params))
        WalletNotSigner;
  '(mintVerified, tokenTransferFound) ←
     scanInstructions (expectedWallet params) (expectedMint params)
       (allInstructions tx) false;
  _ ← require tokenTransferFound NoTokenTransfer;
  _ ← require mintVerified MintNotInvolved;
  Pass tx.

(** [parseFloat(balance?.uiTokenAmount?.uiAmount?.toString() || '0')] for
    the entry of account [ataIndex]: a number printed and parsed back is
    the same number, and a missing entry or amount reads as 0. *)
Definition uiBalance (balances : list (TokenBalance num)) (ataIndex : nat) : num :=
  match find (fun b => Nat.eqb (accountIndex b) ataIndex) balances ≫= uiAmount with
  | Some a => a
  | None => lit 0
  end.

Definition tokenChange (tx : ParsedTransaction num) (ataIndex : nat) : num :=
  let preBal := uiBalance (metaList preTokenBalances tx) ataIndex in
  let postBal := uiBalance (metaList postTokenBalances tx) ataIndex in
  postBal - preBal.

(** Step 4: the token balance of the wallet's associated token account
    moved in the direction of the trade. *)
Definition checkDirection (params : VerifyTradeParams num)
    (tx : ParsedTransaction num) : Check (TradeError num) unit :=
  expectedAta ←
    caught (getAssociatedTokenAddressSync (expectedMint params) (expectedWallet params));
  match findIndex (fun k => String.eqb (pubkey k) expectedAta) (accountKeys tx) with
  | Some ataIndex =>
      let tokenChange := tokenChange tx ataIndex in
      if isBuy params && (tokenChange <=? lit 0) then Fail ExpectedIncreaseForBuy
      else if negb (isBuy params) && (tokenChange >=? lit 0)
      then Fail ExpectedDecreaseForSell
      else Pass tt
  | None => Pass tt
  end.

(** Step 5, first half: the SOL the wallet paid (buy) or received (sell),
    from its balance before and after. *)
Definition actualSolAmount (params : VerifyTradeParams num)
    (tx : ParsedTransaction num) : Check (TradeError num) num :=
  match findIndex (fun k => String.eqb (pubkey k) (expectedWallet params))
          (accountKeys tx) with
  | None => Fail WalletNotInAccounts
  | Some walletIndex =>
      let preBal := orDefault (metaList preBalances tx !! walletIndex) (lit 0) in
      let postBal := orDefault (metaList postBalances tx !! walletIndex) (lit 0) in
      let balanceChange := (postBal - preBal) / LAMPORTS_PER_SOL in
      Pass (if isBuy params then - balanceChange else balanceChange)
  end.

(** Everything [verifyTradeTransaction] does before it compares amounts. *)
Definition checksBeforeAmount (params : VerifyTradeParams num)
    : Check (TradeError num) num :=
  tx ← fetchAndCheckMint params;
  _ ← checkDirection params tx;
  actualSolAmount params tx.

Definition verifyTradeTransaction (params : VerifyTradeParams num)
    : TradeVerification.t num :=
  match checksBeforeAmount params with
  | Fail e => TradeVerification.invalid e
  | Pass actualSolAmount =>
      let tolerance := expectedSolAmount params * lit 0.05 + lit 0.001 in
      let amountDiff := Math_abs (actualSolAmount - expectedSolAmount params) in
      if amountDiff >? tolerance then
        TradeVerification.invalid
          (SolAmountMismatch (expectedSolAmount params) actualSolAmount)
      else
        {| TradeVerification.valid := true;
           TradeVerification.solAmount := Some actualSolAmount;
           TradeVerification.tokenAmount := None;
           TradeVerification.walletAddress := Some (expectedWallet params);
           TradeVerification.mintAddress := Some (expectedMint params);
           TradeVerification.error := None |}
  end.

End Verifier.

(** ** The launch ledger ([shared/schema.ts], [server/storage.ts]) *)

(** A row of [token_launches].  The columns [total_supply],
    [fundraising_target] and [current_raised] hold a number as text; the
    handlers write them with [toString] and read them with [parseFloat],
    and a field here is the number so read.

    The columns [holders] and [volume_24h] are declared [integer].  The
    handlers compute both as numbers, and the database takes such a number
    only if it is whole and fits 32 bits; for any other it fails the
    [UPDATE], which the handler answers with status 500.  A loss of the
    connection and the like are outside this model. *)
Module TokenLaunch.
Record t (num : Type) : Type := mk {
  id : string;
  mintAddress : string;
  poolId : option string;
  name : string;
  symbol : string;
  description : option string;
  imageUrl : option string;
  metadataUri : option string;
  website : option string;
  twitter : option string;
  telegram : option string;
  curveType : string;
  totalSupply : num;
  fundraisingTarget : num;
  currentRaised : num;
  creatorAddress : string;
  status : string;
  txSignature : option string;
  platformId : option string;
  holders : option num;
  volume24h : option num;
  createdAt : option Z;
}.
Arguments mk {num}.
Arguments id {num}.
Arguments mintAddress {num}.
Arguments poolId {num}.
Arguments name {num}.
Arguments symbol {num}.
Arguments description {num}.
Arguments imageUrl {num}.
Arguments metadataUri {num}.
Arguments website {num}.
Arguments twitter {num}.
Arguments telegram {num}.
Arguments curveType {num}.
Arguments totalSupply {num}.
Arguments fundraisingTarget {num}.
Arguments currentRaised {num}.
Arguments creatorAddress {num}.
Arguments status {num}.
Arguments txSignature {num}.
Arguments platformId {num}.
Arguments holders {num}.
Arguments volume24h {num}.
Arguments createdAt {num}.
End TokenLaunch.

(** The [Partial<TokenLaunch>] that the two handlers pass to
    [updateLaunch]: the columns they set, [None] for a column left out. *)
Record LaunchUpdates (num : Type) : Type := {
  set_currentRaised : option num;
  set_status : option string;
  set_holders : option num;
  set_volume24h : option num;
}.
Arguments set_currentRaised {num}.
Arguments set_status {num}.
Arguments set_holders {num}.
Arguments set_volume24h {num}.

(** Whether an update names a column. *)
Definition isSet {A} (column : option A) : bool :=
  match column with
  | Some _ => true
  | None => false
  end.

Section Storage.
Context {num : Type} `{Number num}.
Local Open Scope js_scope.

(** What an [integer] column takes: a whole number from -2147483648 to
    2147483647.  The driver sends a number as its decimal text, which the
    database reads as an [integer] or refuses. *)
Definition isInt4 (x : num) : bool :=
  isFinite x && neqb (Math_floor x) x
  && (lit (-2147483648) <=? x) && (x <=? lit 2147483647).

(** What a row holds in an [integer] column: nothing, or a number the
    column takes. *)
Definition integerColumn (column : option num) : bool :=
  from_option isInt4 true column.

(** The [UPDATE] sets a column, and each integer column it sets gets a
    value the column takes.  The query builder refuses an update with no
    column to set ("No values to set"). *)
Definition accepted (updates : LaunchUpdates num) : bool :=
  (isSet (set_currentRaised updates) || isSet (set_status updates)
   || isSet (set_holders updates) || isSet (set_volume24h updates))
  && from_option isInt4 true (set_holders updates)
  && from_option isInt4 true (set_volume24h updates).

(** [UPDATE token_launches SET ... ] on one row. *)
Definition applyUpdates (updates : LaunchUpdates num) (launch : TokenLaunch.t num)
    : TokenLaunch.t num :=
  {| TokenLaunch.id := TokenLaunch.id launch;
     TokenLaunch.mintAddress := TokenLaunch.mintAddress launch;
     TokenLaunch.poolId := TokenLaunch.poolId launch;
     TokenLaunch.name := TokenLaunch.name launch;
     TokenLaunch.symbol := TokenLaunch.symbol launch;
     TokenLaunch.description := TokenLaunch.description launch;
     TokenLaunch.imageUrl := TokenLaunch.imageUrl launch;
     TokenLaunch.metadataUri := TokenLaunch.metadataUri launch;
     TokenLaunch.website := TokenLaunch.website launch;
     TokenLaunch.twitter := TokenLaunch.twitter launch;
     TokenLaunch.telegram := TokenLaunch.telegram launch;
     TokenLaunch.curveType := TokenLaunch.curveType launch;
     TokenLaunch.totalSupply := TokenLaunch.totalSupply launch;
     TokenLaunch.fundraisingTarget := TokenLaunch.fundraisingTarget launch;
     TokenLaunch.currentRaised :=
       default (TokenLaunch.currentRaised launch) (set_currentRaised updates);
     TokenLaunch.creatorAddress := TokenLaunch.creatorAddress launch;
     TokenLaunch.status := default (TokenLaunch.status launch) (set_status updates);
     TokenLaunch.txSignature := TokenLaunch.txSignature launch;
     TokenLaunch.platformId := TokenLaunch.platformId launch;
     TokenLaunch.holders :=
       match set_holders updates with
       | Some h => Some h
       | None => TokenLaunch.holders launch
       end;
     TokenLaunch.volume24h :=
       match set_volume24h updates with
       | Some v => Some v
       | None => TokenLaunch.volume24h launch
       end;
     TokenLaunch.createdAt := TokenLaunch.createdAt launch |}.

(** [storage.getLaunchById]: the table, keyed by [id]. *)
Definition getLaunchById (id : string) (db : gmap string (TokenLaunch.t num))
    : option (TokenLaunch.t num) :=
  db !! id.

(** [storage.updateLaunch]: the row after the update, if there is one,
    and the table after it; or the error thrown for an update that is not
    [accepted], which is thrown whether or not there is a row of this
    [id]. *)
Definition updateLaunch (id : string) (updates : LaunchUpdates num)
    (db : gmap string (TokenLaunch.t num))
    : Completion (option (TokenLaunch.t num) * gmap string (TokenLaunch.t num)) :=
  if accepted updates then
    let db' := alter (applyUpdates updates) id db in
    Returned (db' !! id, db')
  else Threw.

End Storage.

(** ** The confirmation handlers ([server/routes.ts]) *)

(** What a handler sends: an error status with its [error] text and, for a
    failed verification, its [details]; or the success body.  Status 500
    is the answer of the [catch] clause of a handler, here to an [UPDATE]
    that the database refused.  The [launch]
    of a success body is the updated row (the source adds display metrics
    to it). *)
Inductive Response (num : Type) : Type :=
| Failure (statusCode : Z) (error : string) (details : option (TradeError num))
| BuyConfirmed (graduated : bool) (txSignature : string)
    (solAmount tokensReceived : num) (launch : option (TokenLaunch.t num))
| SellConfirmed (txSignature : string)
    (solReceived tokenAmount : num) (launch : option (TokenLaunch.t num)).
Arguments Failure {num}.
Arguments BuyConfirmed {num}.
Arguments SellConfirmed {num}.

Section Routes.
Context {num : Type} `{Number num}.
Local Open Scope string_scope.
Local Open Scope js_scope.

Variable getParsedTransaction :
  string -> Completion (option (ParsedTransaction num)).
Variable getAssociatedTokenAddressSync : string -> string -> Completion string.

(** [raydium.isValidSolanaAddress]: whether [new PublicKey(address)]
    succeeds. *)
Variable isValidSolanaAddress : string -> bool.

(** POST /api/launches/:id/confirm-buy.  [txSignature] is [None] when the
    body has none or it is not a string; [solAmount] and [tokensReceived]
    are the body's values after [Number(...)]. *)
Definition confirmBuy (db : gmap string (TokenLaunch.t num)) (id : string)
    (txSignature : option string) (walletAddress : string)
    (solAmount tokensReceived : num)
    : Response num * gmap string (TokenLaunch.t num) :=
  match txSignature with
  | None => (Failure 400 "Valid transaction signature required" None, db)
  | Some txSignature =>
  if String.eqb txSignature "" then
    (Failure 400 "Valid transaction signature required" None, db)
  else if negb (isValidSolanaAddress walletAddress) then
    (Failure 400 "Invalid wallet address" None, db)
  else
  let solAmountNum := solAmount in
  if negb (isFinite solAmountNum) || (solAmountNum <=? lit 0) then
    (Failure 400 "Invalid SOL amount: must be a positive number" None, db)
  else
  let tokensReceivedNum := tokensReceived in
  if negb (isFinite tokensReceivedNum) || (tokensReceivedNum <=? lit 0) then
    (Failure 400 "Invalid tokens received: must be a positive number" None, db)
  else
  match getLaunchById id db with
  | None => (Failure 404 "Launch not found" None, db)
  | Some launch =>
  if negb (String.eqb (TokenLaunch.status launch) "active") then
    (Failure 400 "Token has graduated or is not active" None, db)
  else
  let verification :=
    verifyTradeTransaction getParsedTransaction getAssociatedTokenAddressSync
      {| signature := txSignature;
         expectedWallet := walletAddress;
         expectedMint := TokenLaunch.mintAddress launch;
         expectedSolAmount := solAmountNum;
         isBuy := true |} in
  if negb (TradeVerification.valid verification) then
    (Failure 400 "Transaction verification failed"
       (TradeVerification.error verification), db)
  else
  let currentRaised := TokenLaunch.currentRaised launch in
  let verifiedSolAmount :=
    orDefault (TradeVerification.solAmount verification) solAmountNum in
  let newRaised := currentRaised + verifiedSolAmount in
  let fundraisingTarget := TokenLaunch.fundraisingTarget launch in
  let newStatus :=
    if newRaised >=? fundraisingTarget then "graduated" else "active" in
  let holders := orDefault (TokenLaunch.holders launch) (lit 0) + lit 1 in
  let volume24h :=
    orDefault (TokenLaunch.volume24h launch) (lit 0)
    + verifiedSolAmount * lit 150 in
  match
    updateLaunch id
      {| set_currentRaised := Some newRaised;
         set_status := Some newStatus;
         set_holders := Some holders;
         set_volume24h := Some volume24h |} db
  with
  | Threw => (Failure 500 "Failed to confirm buy transaction" None, db)
  | Returned (updated, db') =>
      (BuyConfirmed (String.eqb newStatus "graduated") txSignature
         verifiedSolAmount tokensReceivedNum updated, db')
  end
  end
  end.

(** POST /api/launches/:id/confirm-sell. *)
Definition confirmSell (db : gmap string (TokenLaunch.t num)) (id : string)
    (txSignature : option string) (walletAddress : string)
    (tokenAmount solReceived : num)
    : Response num * gmap string (TokenLaunch.t num) :=
  match txSignature with
  | None => (Failure 400 "Valid transaction signature required" None, db)
  | Some txSignature =>
  if String.eqb txSignature "" then
    (Failure 400 "Valid transaction signature required" None, db)
  else if negb (isValidSolanaAddress walletAddress) then
    (Failure 400 "Invalid wallet address" None, db)
  else
  let tokenAmountNum := tokenAmount in
  if negb (isFinite tokenAmountNum) || (tokenAmountNum <=? lit 0) then
    (Failure 400 "Invalid token amount: must be a positive number" None, db)
  else
  let solReceivedNum := solReceived in
  if negb (isFinite solReceivedNum) || (solReceivedNum <=? lit 0) then
    (Failure 400 "Invalid SOL received: must be a positive number" None, db)
  else
  match getLaunchById id db with
  | None => (Failure 404 "Launch not found" None, db)
  | Some launch =>
  let verification :=
    verifyTradeTransaction getParsedTransaction getAssociatedTokenAddressSync
      {| signature := txSignature;
         expectedWallet := walletAddress;
         expectedMint := TokenLaunch.mintAddress launch;
         expectedSolAmount := solReceivedNum;
         isBuy := false |} in
  if negb (TradeVerification.valid verification) then
    (Failure 400 "Transaction verification failed"
       (TradeVerification.error verification), db)
  else
  let verifiedSolReceived :=
    orDefault (TradeVerification.solAmount verification) solReceivedNum in
  let volume24h :=
    orDefault (TokenLaunch.volume24h launch) (lit 0)
    + verifiedSolReceived * lit 150 in
  match
    updateLaunch id
      {| set_currentRaised := None;
         set_status := None;
         set_holders := None;
         set_volume24h := Some volume24h |} db
  with
  | Threw => (Failure 500 "Failed to confirm sell transaction" None, db)
  | Returned (updated, db') =>
      (SellConfirmed txSignature verifiedSolReceived tokenAmountNum updated, db')
  end
  end
  end.

End Routes.

(** ** Requests and rows, for the statements below *)

(** A buy confirmation as it arrives: the launch and the body. *)
Record BuyRequest (num : Type) : Type := {
  req_id : string;
  req_txSignature : option string;
  req_walletAddress : string;
  req_solAmount : num;
  req_tokensReceived : num;
}.
Arguments req_id {num}.
Arguments req_txSignature {num}.
Arguments req_walletAddress {num}.
Arguments req_solAmount {num}.
Arguments req_tokensReceived {num}.

Section Requests.
Context {num : Type} `{Number num}.
Variable getParsedTransaction :
  string -> Completion (option (ParsedTransaction num)).
Variable getAssociatedTokenAddressSync : string -> string -> Completion string.
Variable isValidSolanaAddress : string -> bool.

(** The request passed the validation of its fields. *)
Definition wellFormed (txSignature walletAddress : string) (a b : num) : Prop :=
  String.eqb txSignature "" = false
  /\ isValidSolanaAddress walletAddress = true
  /\ isFinite a = true /\ (a <=? lit 0)%js = false
  /\ isFinite b = true /\ (b <=? lit 0)%js = false.

(** The table after a series of buy confirmations, handled one by one. *)
Fixpoint confirmBuys (requests : list (BuyRequest num))
    (db : gmap string (TokenLaunch.t num)) : gmap string (TokenLaunch.t num) :=
  match requests with
  | [] => db
  | r :: rest =>
      confirmBuys rest
        (snd (confirmBuy getParsedTransaction getAssociatedTokenAddressSync
                isValidSolanaAddress db (req_id r) (req_txSignature r)
                (req_walletAddress r) (req_solAmount r) (req_tokensReceived r)))
  end.

End Requests.

(** Two rows that agree on every column except [volume24h]. *)
Definition sameExceptVolume24h {num} (before after : TokenLaunch.t num) : Prop :=
  TokenLaunch.id after = TokenLaunch.id before
  /\ TokenLaunch.mintAddress after = TokenLaunch.mintAddress before
  /\ TokenLaunch.poolId after = TokenLaunch.poolId before
  /\ TokenLaunch.name after = TokenLaunch.name before
  /\ TokenLaunch.symbol after = TokenLaunch.symbol before
  /\ TokenLaunch.description after = TokenLaunch.description before
  /\ TokenLaunch.imageUrl after = TokenLaunch.imageUrl before
  /\ TokenLaunch.metadataUri after = TokenLaunch.metadataUri before
  /\ TokenLaunch.website after = TokenLaunch.website before
  /\ TokenLaunch.twitter after = TokenLaunch.twitter before
  /\ TokenLaunch.telegram after = TokenLaunch.telegram before
  /\ TokenLaunch.curveType after = TokenLaunch.curveType before
  /\ TokenLaunch.totalSupply after = TokenLaunch.totalSupply before
  /\ TokenLaunch.fundraisingTarget after = TokenLaunch.fundraisingTarget before
  /\ TokenLaunch.currentRaised after = TokenLaunch.currentRaised before
  /\ TokenLaunch.creatorAddress after = TokenLaunch.creatorAddress before
  /\ TokenLaunch.status after = TokenLaunch.status before
  /\ TokenLaunch.txSignature after = TokenLaunch.txSignature before
  /\ TokenLaunch.platformId after = TokenLaunch.platformId before
  /\ TokenLaunch.holders after = TokenLaunch.holders before
  /\ TokenLaunch.createdAt after = TokenLaunch.createdAt before.

(** ** Sample transactions and launches

    Concrete data in binary64 on which the functions above are run: one
    wallet buying one mint, the transaction the node reports for it, and
    the launch row it is confirmed against. *)

Module Sample.
Local Open Scope string_scope.

Definition wallet : string := "7xKXtg2CW87d97TXJSDpbD5jBkheTqA83TZRuJosgAsU".
Definition tokenMint : string := "9n4nbM75f5Ui33ZbPYXn59EwSgE8CGsHtAeTH5YFeJ9E".
Definition walletTokenAccount : string := "4fYNw3dojWmQ4dXtSGE9epjRGy9pFSx62YypT7avPYvA".
Definition poolVault : string := "5Q544fKrFoe6tsEbD7S8EmxGTJYAKtTVhAW5Q5pge4j1".
Definition otherTokenAccount : string := "HLmqeL62xR1QoZ1HKKbXRrdN1p3phKpxRMb2VVopvBBz".

(** The address derivation, on the one pair it is asked about. *)
Definition tokenAccountOf (mintAddress owner : string) : Completion string :=
  if String.eqb mintAddress tokenMint && String.eqb owner wallet
  then Returned walletTokenAccount
  else Threw.

Definition anyAddress (address : string) : bool := true.

(** A [transferChecked] of the mint from the pool's vault. *)
Definition transferTo (recipient : string) : Instruction :=
  {| program := Some "spl-token";
     parsed :=
       Some {| type := "transferChecked";
               info := Some {| mint := Some tokenMint;
                               source := Some poolVault;
                               destination := Some recipient;
                               account := None |} |} |}.

(** The wallet signs; its lamports go from [pre] to [post] and the tokens
    of its token account from [preTokens] to [postTokens]. *)
Definition trade (pre post preTokens postTokens : float) : ParsedTransaction float :=
  {| meta :=
       Some {| err := false;
               innerInstructions := [];
               preTokenBalances :=
                 [ {| accountIndex := 1%nat; uiAmount := Some preTokens |};
                   {| accountIndex := 2%nat; uiAmount := Some (lit 800000000) |} ];
               postTokenBalances :=
                 [ {| accountIndex := 1%nat; uiAmount := Some postTokens |};
                   {| accountIndex := 2%nat; uiAmount := Some (lit 800000000) |} ];
               preBalances := [pre; lit 2039280; lit 2039280];
               postBalances := [post; lit 2039280; lit 2039280] |};
     accountKeys :=
       [ {| pubkey := wallet; signer := true |};
         {| pubkey := walletTokenAccount; signer := false |};
         {| pubkey := poolVault; signer := false |} ];
     instructions := [transferTo walletTokenAccount] |}.

(** The wallet signs and pays [pre - post] lamports, and the only token
    instruction moves nothing between two accounts of other owners: the
    wallet's token account is not part of the transaction. *)
Definition paymentWithoutTokens (pre post : float) : ParsedTransaction float :=
  {| meta :=
       Some {| err := false;
               innerInstructions := [];
               preTokenBalances :=
                 [ {| accountIndex := 1%nat; uiAmount := Some (lit 500) |};
                   {| accountIndex := 2%nat; uiAmount := Some (lit 800000000) |} ];
               postTokenBalances :=
                 [ {| accountIndex := 1%nat; uiAmount := Some (lit 500) |};
                   {| accountIndex := 2%nat; uiAmount := Some (lit 800000000) |} ];
               preBalances := [pre; lit 2039280; lit 2039280];
               postBalances := [post; lit 2039280; lit 2039280] |};
     accountKeys :=
       [ {| pubkey := wallet; signer := true |};
         {| pubkey := otherTokenAccount; signer := false |};
         {| pubkey := poolVault; signer := false |} ];
     instructions := [transferTo otherTokenAccount] |}.

(** A node that knows one transaction, under the signature "5VERv8". *)
Definition node (tx : ParsedTransaction float) (signature : string)
    : Completion (option (ParsedTransaction float)) :=
  if String.eqb signature "5VERv8" then Returned (Some tx) else Returned None.

Definition launch (status : string) (raised : float) : TokenLaunch.t float :=
  {| TokenLaunch.id := "launch-1";
     TokenLaunch.mintAddress := tokenMint;
     TokenLaunch.poolId := None;
     TokenLaunch.name := "Sample";
     TokenLaunch.symbol := "SMPL";
     TokenLaunch.description := None;
     TokenLaunch.imageUrl := None;
     TokenLaunch.metadataUri := None;
     TokenLaunch.website := None;
     TokenLaunch.twitter := None;
     TokenLaunch.telegram := None;
     TokenLaunch.curveType := "linear";
     TokenLaunch.totalSupply := lit 1000000000;
     TokenLaunch.fundraisingTarget := lit 85;
     TokenLaunch.currentRaised := raised;
     TokenLaunch.creatorAddress := wallet;
     TokenLaunch.status := status;
     TokenLaunch.txSignature := None;
     TokenLaunch.platformId := None;
     TokenLaunch.holders := Some (lit 0);
     TokenLaunch.volume24h := Some (lit 0);
     TokenLaunch.createdAt := None |}.

Definition table (status : string) (raised : float)
    : gmap string (TokenLaunch.t float) :=
  {[ "launch-1" := launch status raised ]}.

(** The launch after one trade of 1 SOL was recorded on it: one holder and
    a volume of 150. *)
Definition tradedLaunch (status : string) (raised : float) : TokenLaunch.t float :=
  applyUpdates
    {| set_currentRaised := None; set_status := None;
       set_holders := Some (lit 1); set_volume24h := Some (lit 150) |}
    (launch status raised).

Definition tradedTable (status : string) (raised : float)
    : gmap string (TokenLaunch.t float) :=
  {[ "launch-1" := tradedLaunch status raised ]}.

Definition params (expected : float) (buy : bool) : VerifyTradeParams float :=
  {| signature := "5VERv8";
     expectedWallet := wallet;
     expectedMint := tokenMint;
     expectedSolAmount := expected;
     isBuy := buy |}.

End Sample.

(** ** Display metrics ([server/raydium.ts], [server/routes.ts]) *)

Section Metrics.
Context {num : Type} `{Number num} `{Transcendental num}.
Local Open Scope string_scope.
Local Open Scope js_scope.

Definition DEFAULT_INITIAL_PRICE : num := lit 0.0000000292.
Definition DEFAULT_CURVE_SLOPE : num := lit 0.

Definition calculateBondingCurvePrice (supply : num) (curveType : string)
    (initialPrice slope : num) : num :=
  if String.eqb curveType "linear" then
    initialPrice + slope * supply
  else if String.eqb curveType "exponential" then
    initialPrice * Math_pow (lit 1 + slope * lit 1000000000) (supply / lit 1000000000)
  else if String.eqb curveType "logarithmic" then
    initialPrice * (lit 1 + Math_log (lit 1 + supply / lit 100000000))
  else
    initialPrice.

Definition calculateProgress (currentRaised fundraisingTarget : num) : num :=
  if fundraisingTarget <=? lit 0 then lit 0
  else Math_min (lit 100) (currentRaised / fundraisingTarget * lit 100).

End Metrics.

(** The [age] text of the metrics: "[n]m ago", "[n]h ago" or "[n]d ago". *)
Inductive Age : Type :=
| MinutesAgo (minutes : Z)
| HoursAgo (hours : Z)
| DaysAgo (days : Z).

Module TokenMetrics.
Record t (num : Type) : Type := mk {
  id : string;
  mintAddress : string;
  poolId : option string;
  name : string;
  symbol : string;
  description : string;
  imageUrl : option string;
  curveType : string;
  totalSupply : num;
  fundraisingTarget : num;
  currentRaised : num;
  progress : num;
  currentPrice : num;
  marketCap : num;
  holders : num;
  volume24h : num;
  creatorAddress : string;
  age : Age;
  status : string;
  txSignature : option string;
}.
Arguments mk {num}.
Arguments id {num}.
Arguments mintAddress {num}.
Arguments poolId {num}.
Arguments name {num}.
Arguments symbol {num}.
Arguments description {num}.
Arguments imageUrl {num}.
Arguments curveType {num}.
Arguments totalSupply {num}.
Arguments fundraisingTarget {num}.
Arguments currentRaised {num}.
Arguments progress {num}.
Arguments currentPrice {num}.
Arguments marketCap {num}.
Arguments holders {num}.
Arguments volume24h {num}.
Arguments creatorAddress {num}.
Arguments age {num}.
Arguments status {num}.
Arguments txSignature {num}.
End TokenMetrics.

Section TokenMetricsOf.
Context {num : Type} `{Number num} `{Transcendental num}.
Local Open Scope string_scope.
Local Open Scope js_scope.

(** [s || null] on a string that may be null: the empty string is falsy. *)
Definition orNull (s : option string) : option string :=
  match s with
  | Some x => if String.eqb x "" then None else Some x
  | None => None
  end.

(** The age of a launch created at [createdAt] and read at [now], both in
    milliseconds, which are whole numbers. *)
Definition ageOf (createdAt now : Z) : Age :=
  let diff := (now - createdAt)%Z in
  let minutes := (diff / 60000)%Z in
  let hours := (minutes / 60)%Z in
  let days := (hours / 24)%Z in
  if (0 <? days)%Z then DaysAgo days
  else if (0 <? hours)%Z then HoursAgo hours
  else MinutesAgo minutes.

(** [calculateTokenMetrics].  [Date.now()] is read twice: [nowAtStart]
    stands in for [createdAt] when the row has none, [now] is the time the
    age is measured at.  The price is [calculateBondingCurvePrice] with its
    default initial price and slope. *)
Definition calculateTokenMetrics (nowAtStart now : Z) (launch : TokenLaunch.t num)
    : TokenMetrics.t num :=
  let currentRaised := TokenLaunch.currentRaised launch in
  let fundraisingTarget := TokenLaunch.fundraisingTarget launch in
  let totalSupply := TokenLaunch.totalSupply launch in
  let progress := calculateProgress currentRaised fundraisingTarget in
  let supply := totalSupply * (progress / lit 100) in
  let curveType := TokenLaunch.curveType launch in
  let currentPrice :=
    calculateBondingCurvePrice supply curveType
      DEFAULT_INITIAL_PRICE DEFAULT_CURVE_SLOPE in
  let marketCap := currentPrice * totalSupply in
  let holders := orDefault (TokenLaunch.holders launch) (lit 0) in
  let volume24h := orDefault (TokenLaunch.volume24h launch) (lit 0) in
  let createdAt :=
    match TokenLaunch.createdAt launch with
    | Some t => t
    | None => nowAtStart
    end in
  {| TokenMetrics.id := TokenLaunch.id launch;
     TokenMetrics.mintAddress := TokenLaunch.mintAddress launch;
     TokenMetrics.poolId := orNull (TokenLaunch.poolId launch);
     TokenMetrics.name := TokenLaunch.name launch;
     TokenMetrics.symbol := TokenLaunch.symbol launch;
     TokenMetrics.description := default "" (TokenLaunch.description launch);
     TokenMetrics.imageUrl := orNull (TokenLaunch.imageUrl launch);
     TokenMetrics.curveType := curveType;
     TokenMetrics.totalSupply := totalSupply;
     TokenMetrics.fundraisingTarget := fundraisingTarget;
     TokenMetrics.currentRaised := currentRaised;
     TokenMetrics.progress := progress;
     TokenMetrics.currentPrice := currentPrice;
     TokenMetrics.marketCap := marketCap;
     TokenMetrics.holders := holders;
     TokenMetrics.volume24h := volume24h;
     TokenMetrics.creatorAddress := TokenLaunch.creatorAddress launch;
     TokenMetrics.age := ageOf createdAt now;
     TokenMetrics.status := TokenLaunch.status launch;
     TokenMetrics.txSignature := orNull (TokenLaunch.txSignature launch) |}.

End TokenMetricsOf.

(** ** The other routes of the launch ledger ([server/routes.ts])

    A body field that holds an amount is a JSON number, or [None] when the
    body has no such field; a signature is a string or [None].  The routes
    do not check the types of these fields, and a body that holds a value
    of another type there (a string for an amount, say) is outside this
    model.  Where the source answers with the metrics of a row, so does
    the model; [nowAtStart] and [now] are the two readings of the clock
    that [calculateTokenMetrics] takes. *)

(** What a route sends: an error status with its [error] text, or the body
    of a success. *)
Inductive Reply (A : Type) : Type :=
| Rejected (statusCode : Z) (error : string)
| Sent (body : A).
Arguments Rejected {A}.
Arguments Sent {A}.

Module BuyQuote.
Record t (num : Type) : Type := mk {
  quote : QuoteResult num;
  willGraduate : bool;
  tokenSymbol : string;
  feeRecipient : string;
  feeRate : num;
}.
Arguments mk {num}.
Arguments quote {num}.
Arguments willGraduate {num}.
Arguments tokenSymbol {num}.
Arguments feeRecipient {num}.
Arguments feeRate {num}.
End BuyQuote.

Module SellQuote.
Record t (num : Type) : Type := mk {
  quote : QuoteResult num;
  tokenSymbol : string;
  feeRecipient : string;
  feeRate : num;
}.
Arguments mk {num}.
Arguments quote {num}.
Arguments tokenSymbol {num}.
Arguments feeRecipient {num}.
Arguments feeRate {num}.
End SellQuote.

Module PriceInfo.
Record t (num : Type) : Type := mk {
  currentPrice : num;
  currentRaised : num;
  targetRaised : num;
  progress : num;
  curveType : string;
  status : string;
}.
Arguments mk {num}.
Arguments currentPrice {num}.
Arguments currentRaised {num}.
Arguments targetRaised {num}.
Arguments progress {num}.
Arguments curveType {num}.
Arguments status {num}.
End PriceInfo.

Module BuyRecord.
Record t (num : Type) : Type := mk {
  graduated : bool;
  txSignature : option string;
  launch : option (TokenMetrics.t num);
}.
Arguments mk {num}.
Arguments graduated {num}.
Arguments txSignature {num}.
Arguments launch {num}.
End BuyRecord.

Module SellRecord.
Record t (num : Type) : Type := mk {
  txSignature : option string;
  launch : option (TokenMetrics.t num);
}.
Arguments mk {num}.
Arguments txSignature {num}.
Arguments launch {num}.
End SellRecord.

Module Stats.
Record t (num : Type) : Type := mk {
  activeLaunches : nat;
  graduatedLaunches : nat;
  totalLaunches : nat;
  totalRaised : num;
}.
Arguments mk {num}.
Arguments activeLaunches {num}.
Arguments graduatedLaunches {num}.
Arguments totalLaunches {num}.
Arguments totalRaised {num}.
End Stats.

Section LedgerRoutes.
Context {num : Type} `{Number num} `{Transcendental num}.
Local Open Scope string_scope.
Local Open Scope js_scope.

Variable isValidSolanaAddress : string -> bool.

(** [PLATFORM_TREASURY.toBase58()] *)
Definition PLATFORM_TREASURY : string :=
  "8kt95geX4dXzVzeEdBBYzxM1XD27dSgaXUD85fEss2Di".

(** [!amount || amount <= 0] on a number. *)
Definition notPositive (amount : num) : bool :=
  negb (truthy amount) || (amount <=? lit 0).

(** A row with its [tx_signature] column set. *)
Definition withTxSignature (txSignature : option string)
    (launch : TokenLaunch.t num) : TokenLaunch.t num :=
  {| TokenLaunch.id := TokenLaunch.id launch;
     TokenLaunch.mintAddress := TokenLaunch.mintAddress launch;
     TokenLaunch.poolId := TokenLaunch.poolId launch;
     TokenLaunch.name := TokenLaunch.name launch;
     TokenLaunch.symbol := TokenLaunch.symbol launch;
     TokenLaunch.description := TokenLaunch.description launch;
     TokenLaunch.imageUrl := TokenLaunch.imageUrl launch;
     TokenLaunch.metadataUri := TokenLaunch.metadataUri launch;
     TokenLaunch.website := TokenLaunch.website launch;
     TokenLaunch.twitter := TokenLaunch.twitter launch;
     TokenLaunch.telegram := TokenLaunch.telegram launch;
     TokenLaunch.curveType := TokenLaunch.curveType launch;
     TokenLaunch.totalSupply := TokenLaunch.totalSupply launch;
     TokenLaunch.fundraisingTarget := TokenLaunch.fundraisingTarget launch;
     TokenLaunch.currentRaised := TokenLaunch.currentRaised launch;
     TokenLaunch.creatorAddress := TokenLaunch.creatorAddress launch;
     TokenLaunch.status := TokenLaunch.status launch;
     TokenLaunch.txSignature := txSignature;
     TokenLaunch.platformId := TokenLaunch.platformId launch;
     TokenLaunch.holders := TokenLaunch.holders launch;
     TokenLaunch.volume24h := TokenLaunch.volume24h launch;
     TokenLaunch.createdAt := TokenLaunch.createdAt launch |}.

(** [storage.updateLaunch] with the four columns of [updates] and
    [txSignature] in one [UPDATE], which the database takes or refuses as
    a whole. *)
Definition updateLaunchAndSignature (id : string) (updates : LaunchUpdates num)
    (txSignature : option string) (db : gmap string (TokenLaunch.t num))
    : Completion (option (TokenLaunch.t num) * gmap string (TokenLaunch.t num)) :=
  if accepted updates then
    let db' :=
      alter (fun launch => withTxSignature txSignature (applyUpdates updates launch))
        id db in
    Returned (db' !! id, db')
  else Threw.

(** GET /api/launches/:id *)
Definition getLaunch (nowAtStart now : Z) (db : gmap string (TokenLaunch.t num))
    (id : string) : Reply (TokenMetrics.t num) :=
  match getLaunchById id db with
  | None => Rejected 404 "Launch not found"
  | Some launch => Sent (calculateTokenMetrics nowAtStart now launch)
  end.

(** PATCH /api/launches/:id.  The body goes to [storage.updateLaunch] as it
    is, unchecked; here it sets any of the columns of [LaunchUpdates], a
    number for [holders] and for [volume24h].  A body that sets none of
    them (the empty body) or gives an integer column a number it does not
    take makes [updateLaunch] throw.  A body that names other columns is
    outside this model. *)
Definition patchLaunch (nowAtStart now : Z) (db : gmap string (TokenLaunch.t num))
    (id : string) (body : LaunchUpdates num)
    : Reply (TokenMetrics.t num) * gmap string (TokenLaunch.t num) :=
  match updateLaunch id body db with
  | Threw => (Rejected 500 "Failed to update launch", db)
  | Returned (None, db') => (Rejected 404 "Launch not found", db')
  | Returned (Some launch, db') =>
      (Sent (calculateTokenMetrics nowAtStart now launch), db')
  end.

(** POST /api/launches/:id/buy: records a buy without looking at the
    chain. *)
Definition recordBuy (nowAtStart now : Z) (db : gmap string (TokenLaunch.t num))
    (id : string) (solAmount : option num) (walletAddress : string)
    (txSignature : option string)
    : Reply (BuyRecord.t num) * gmap string (TokenLaunch.t num) :=
  match solAmount with
  | None => (Rejected 400 "Invalid SOL amount", db)
  | Some solAmount =>
  if notPositive solAmount then (Rejected 400 "Invalid SOL amount", db)
  else if negb (isValidSolanaAddress walletAddress) then
    (Rejected 400 "Invalid wallet address", db)
  else
  match getLaunchById id db with
  | None => (Rejected 404 "Launch not found", db)
  | Some launch =>
  if negb (String.eqb (TokenLaunch.status launch) "active") then
    (Rejected 400 "Token has graduated or failed", db)
  else
  let currentRaised := TokenLaunch.currentRaised launch in
  let newRaised := currentRaised + solAmount in
  let fundraisingTarget := TokenLaunch.fundraisingTarget launch in
  let newStatus :=
    if newRaised >=? fundraisingTarget then "graduated" else "active" in
  let holders := orDefault (TokenLaunch.holders launch) (lit 0) + lit 1 in
  let volume24h :=
    orDefault (TokenLaunch.volume24h launch) (lit 0) + solAmount * lit 150 in
  match
    updateLaunchAndSignature id
      {| set_currentRaised := Some newRaised;
         set_status := Some newStatus;
         set_holders := Some holders;
         set_volume24h := Some volume24h |}
      (match orNull txSignature with
       | Some s => Some s
       | None => TokenLaunch.txSignature launch
       end) db
  with
  | Threw => (Rejected 500 "Failed to process buy", db)
  | Returned (updated, db') =>
      (Sent {| BuyRecord.graduated := String.eqb newStatus "graduated";
               BuyRecord.txSignature := txSignature;
               BuyRecord.launch :=
                 option_map (calculateTokenMetrics nowAtStart now) updated |}, db')
  end
  end
  end.

(** POST /api/launches/:id/sell *)
Definition recordSell (nowAtStart now : Z) (db : gmap string (TokenLaunch.t num))
    (id : string) (tokenAmount : option num) (walletAddress : string)
    (txSignature : option string) (solReceived : option num)
    : Reply (SellRecord.t num) * gmap string (TokenLaunch.t num) :=
  match tokenAmount with
  | None => (Rejected 400 "Invalid token amount", db)
  | Some tokenAmount =>
  if notPositive tokenAmount then (Rejected 400 "Invalid token amount", db)
  else if negb (isValidSolanaAddress walletAddress) then
    (Rejected 400 "Invalid wallet address", db)
  else
  match getLaunchById id db with
  | None => (Rejected 404 "Launch not found", db)
  | Some launch =>
  let volume24h :=
    orDefault (TokenLaunch.volume24h launch) (lit 0)
    + orDefault solReceived (lit 0) * lit 150 in
  match
    updateLaunch id
      {| set_currentRaised := None;
         set_status := None;
         set_holders := None;
         set_volume24h := Some volume24h |} db
  with
  | Threw => (Rejected 500 "Failed to process sell", db)
  | Returned (updated, db') =>
      (Sent {| SellRecord.txSignature := txSignature;
               SellRecord.launch :=
                 option_map (calculateTokenMetrics nowAtStart now) updated |}, db')
  end
  end
  end.

(** GET /api/stats, on the rows that [storage.getAllLaunches] returned. *)
Definition stats (launches : list (TokenLaunch.t num)) : Stats.t num :=
  {| Stats.activeLaunches :=
       length (List.filter (fun l => String.eqb (TokenLaunch.status l) "active") launches);
     Stats.graduatedLaunches :=
       length (List.filter (fun l => String.eqb (TokenLaunch.status l) "graduated") launches);
     Stats.totalLaunches := length launches;
     Stats.totalRaised :=
       fold_left (fun acc l => acc + TokenLaunch.currentRaised l) launches (lit 0) |}.

(** POST /api/launches/:id/quote/buy *)
Definition quoteBuy (db : gmap string (TokenLaunch.t num)) (id : string)
    (solAmount : option num) : Reply (BuyQuote.t num) :=
  match solAmount with
  | None => Rejected 400 "Invalid SOL amount"
  | Some solAmount =>
  if notPositive solAmount then Rejected 400 "Invalid SOL amount"
  else
  match getLaunchById id db with
  | None => Rejected 404 "Launch not found"
  | Some launch =>
  if negb (String.eqb (TokenLaunch.status launch) "active") then
    Rejected 400 "Token has graduated or is not active"
  else
  let currentRaised := TokenLaunch.currentRaised launch in
  let totalSupply := TokenLaunch.totalSupply launch in
  let targetRaised := TokenLaunch.fundraisingTarget launch in
  let curveType := TokenLaunch.curveType launch in
  let quote := getBuyQuote solAmount currentRaised curveType totalSupply targetRaised in
  Sent {| BuyQuote.quote := quote;
          BuyQuote.willGraduate :=
            (currentRaised + solAmount - fee quote) >=? targetRaised;
          BuyQuote.tokenSymbol := TokenLaunch.symbol launch;
          BuyQuote.feeRecipient := PLATFORM_TREASURY;
          BuyQuote.feeRate := PLATFORM_FEE_RATE |}
  end
  end.

(** POST /api/launches/:id/quote/sell *)
Definition quoteSell (db : gmap string (TokenLaunch.t num)) (id : string)
    (tokenAmount : option num) : Reply (SellQuote.t num) :=
  match tokenAmount with
  | None => Rejected 400 "Invalid token amount"
  | Some tokenAmount =>
  if notPositive tokenAmount then Rejected 400 "Invalid token amount"
  else
  match getLaunchById id db with
  | None => Rejected 404 "Launch not found"
  | Some launch =>
  if negb (String.eqb (TokenLaunch.status launch) "active") then
    Rejected 400 "Token has graduated or is not active"
  else
  let currentRaised := TokenLaunch.currentRaised launch in
  let totalSupply := TokenLaunch.totalSupply launch in
  let targetRaised := TokenLaunch.fundraisingTarget launch in
  let curveType := TokenLaunch.curveType launch in
  let quote := getSellQuote tokenAmount currentRaised curveType totalSupply targetRaised in
  Sent {| SellQuote.quote := quote;
          SellQuote.tokenSymbol := TokenLaunch.symbol launch;
          SellQuote.feeRecipient := PLATFORM_TREASURY;
          SellQuote.feeRate := PLATFORM_FEE_RATE |}
  end
  end.

(** GET /api/launches/:id/price *)
Definition getPrice (db : gmap string (TokenLaunch.t num)) (id : string)
    : Reply (PriceInfo.t num) :=
  match getLaunchById id db with
  | None => Rejected 404 "Launch not found"
  | Some launch =>
  let currentRaised := TokenLaunch.currentRaised launch in
  let totalSupply := TokenLaunch.totalSupply launch in
  let targetRaised := TokenLaunch.fundraisingTarget launch in
  let curveType := TokenLaunch.curveType launch in
  let currentPrice := getCurrentPrice currentRaised curveType totalSupply targetRaised in
  Sent {| PriceInfo.currentPrice := currentPrice;
          PriceInfo.currentRaised := currentRaised;
          PriceInfo.targetRaised := targetRaised;
          PriceInfo.progress := currentRaised / targetRaised * lit 100;
          PriceInfo.curveType := curveType;
          PriceInfo.status := TokenLaunch.status launch |}
  end.

End LedgerRoutes.

(** ** Verification of a token creation ([server/launchlab.ts]) *)

(** [status.value] of [connection.getSignatureStatus]: [err] is the JSON
    text of the error, [None] for [null]. *)
Module SignatureStatus.
Record t : Type := mk {
  err : option string;
  confirmationStatus : option string;
  slot : Z;
}.
End SignatureStatus.

(** The mint account that [getMint] decodes. *)
Module Mint.
Record t : Type := mk {
  mintAuthority : option string;
  decimals : N;
  supply : N;
}.
End Mint.

(** The token account that [getAccount] decodes. *)
Module TokenAccount.
Record t : Type := mk {
  amount : N;
  mint : string;
}.
End TokenAccount.

(** [expectedTotalSupply] is the decimal text of a whole number, which is
    what [new BN(text)] reads; [expectedDecimals] is [None] when the caller
    leaves it out. *)
Module VerifyTokenCreationParams.
Record t : Type := mk {
  signature : string;
  expectedMint : string;
  expectedCreator : string;
  expectedTotalSupply : Z;
  expectedDecimals : option N;
}.
End VerifyTokenCreationParams.

(** The [error] strings of [verifyTokenCreation], one constructor each:
    - [CreationNotFound]          'Transaction not found'
    - [CreationFailed]            'Transaction failed on-chain'
    - [CreationNotConfirmed]      'Transaction not yet confirmed'
    - [MintAccountNotFound]       'Mint account not found on-chain after transaction'
    - [MintAuthorityMismatch]     'On-chain mint authority does not match creator'
    - [DecimalsMismatch e g]      'On-chain decimals mismatch: expected e, got g'
    - [SupplyTooLow e g]          'On-chain supply too low: expected e, got g'
    - [CreatorAccountNotFound]    'Creator token account not found on-chain'
    - [CreatorZeroBalance]        'Creator token account has zero balance'
    - [CreatorMintMismatch]       'Creator ATA mint mismatch'
    - [CreationException]         [String(error)] of the [catch] clause. *)
Inductive TokenCreationError : Type :=
| CreationNotFound
| CreationFailed
| CreationNotConfirmed
| MintAccountNotFound
| MintAuthorityMismatch
| DecimalsMismatch (expected got : N)
| SupplyTooLow (expected : Z) (got : N)
| CreatorAccountNotFound
| CreatorZeroBalance
| CreatorMintMismatch
| CreationException.

Module TransactionVerification.
Record t : Type := mk {
  valid : bool;
  mintAddress : option string;
  creatorAddress : option string;
  error : option TokenCreationError;
}.

(** [{ valid: false, error }] *)
Definition invalid (e : TokenCreationError) : t := mk false None None (Some e).
End TransactionVerification.

(** The result of [getTransactionStatus]; [error] is the text of the
    error of the transaction or of the exception caught. *)
Module TransactionStatus.
Record t : Type := mk {
  confirmed : bool;
  slot : option Z;
  error : option string;
}.
End TransactionStatus.

Section TokenCreation.
Local Open Scope string_scope.

(** [connection.getSignatureStatus(signature)]: its [value], [None] for
    [null], or a thrown RPC error with its text. *)
Variable getSignatureStatus : string -> string + option SignatureStatus.t.

(** [getMint(connection, new PublicKey(address), 'confirmed')] and
    [getAccount(connection, address, 'confirmed')] of @solana/spl-token. *)
Variable getMint : string -> Completion Mint.t.
Variable getAccount : string -> Completion TokenAccount.t.
Variable getAssociatedTokenAddressSync : string -> string -> Completion string.

(** [confirmationStatus === 'confirmed' || confirmationStatus === 'finalized'] *)
Definition isConfirmed (confirmationStatus : option string) : bool :=
  strictEq confirmationStatus "confirmed" || strictEq confirmationStatus "finalized".

Definition getTransactionStatus (signature : string) : TransactionStatus.t :=
  match getSignatureStatus signature with
  | inl error => TransactionStatus.mk false None (Some error)
  | inr value =>
      match value ≫= SignatureStatus.err with
      | Some e => TransactionStatus.mk false None (Some e)
      | None =>
          TransactionStatus.mk
            (isConfirmed (value ≫= SignatureStatus.confirmationStatus))
            (SignatureStatus.slot <$> value) None
      end
  end.

(** The checks of [verifyTokenCreation], in the order of the source. *)
Definition creationChecks (params : VerifyTokenCreationParams.t)
    : Check TokenCreationError unit :=
  let expectedMint := VerifyTokenCreationParams.expectedMint params in
  let expectedCreator := VerifyTokenCreationParams.expectedCreator params in
  let expectedDecimals :=
    default 9%N (VerifyTokenCreationParams.expectedDecimals params) in
  value ← match getSignatureStatus (VerifyTokenCreationParams.signature params) with
          | inl _ => Fail CreationException
          | inr value => Pass value
          end;
  status ← match value with
           | None => Fail CreationNotFound
           | Some status => Pass status
           end;
  _ ← require (negb (bool_decide (is_Some (SignatureStatus.err status)))) CreationFailed;
  _ ← require (isConfirmed (SignatureStatus.confirmationStatus status))
        CreationNotConfirmed;
  let expectedSupply :=
    (VerifyTokenCreationParams.expectedTotalSupply params
     * 10 ^ Z.of_N expectedDecimals)%Z in
  mintData ← match getMint expectedMint with
             | Threw => Fail MintAccountNotFound
             | Returned mintData => Pass mintData
             end;
  _ ← require (strictEq (Mint.mintAuthority mintData) expectedCreator)
        MintAuthorityMismatch;
  _ ← require (Mint.decimals mintData =? expectedDecimals)%N
        (DecimalsMismatch expectedDecimals (Mint.decimals mintData));
  _ ← require (negb (Z.of_N (Mint.supply mintData) <? expectedSupply)%Z)
        (SupplyTooLow expectedSupply (Mint.supply mintData));
  expectedCreatorAta ←
    match getAssociatedTokenAddressSync expectedMint expectedCreator with
    | Threw => Fail CreationException
    | Returned ata => Pass ata
    end;
  ataAccount ← match getAccount expectedCreatorAta with
               | Threw => Fail CreatorAccountNotFound
               | Returned ataAccount => Pass ataAccount
               end;
  _ ← require (negb (TokenAccount.amount ataAccount =? 0)%N) CreatorZeroBalance;
  require (String.eqb (TokenAccount.mint ataAccount) expectedMint)
    CreatorMintMismatch.

Definition verifyTokenCreation (params : VerifyTokenCreationParams.t)
    : TransactionVerification.t :=
  match creationChecks params with
  | Fail e => TransactionVerification.invalid e
  | Pass _ =>
      {| TransactionVerification.valid := true;
         TransactionVerification.mintAddress :=
           Some (VerifyTokenCreationParams.expectedMint params);
         TransactionVerification.creatorAddress :=
           Some (VerifyTokenCreationParams.expectedCreator params);
         TransactionVerification.error := None |}
  end.

End TokenCreation.

(** ** The on-chain pool state ([server/raydium-launchlab.ts])

    A reserve is a whole number; the source holds it as its decimal
    text. *)

Inductive PoolStatus : Type :=
| Trading
| Graduated
| Unknown.

Module OnChainPoolState.
Record t : Type := mk {
  exists_ : bool;
  poolId : string;
  realTokenReserves : N;
  realSolReserves : N;
  virtualTokenReserves : N;
  virtualSolReserves : N;
  curveType : N;
  status : PoolStatus;
}.
End OnChainPoolState.

(** An entry of [onChainPoolCache]. *)
Module CacheEntry.
Record t : Type := mk {
  data : option OnChainPoolState.t;
  timestamp : Z;
}.
End CacheEntry.

Module LaunchpadPoolInfo.
Record t (num : Type) : Type := mk {
  poolId : string;
  mintA : string;
  mintB : string;
  virtualA : N;
  virtualB : N;
  realA : N;
  realB : N;
  configInfo_curveType : N;
  configInfo_tradeFeeRate : Z;
  platformId : string;
  status : PoolStatus;
  currentRaised : num;
  targetRaised : num;
}.
Arguments mk {num}.
Arguments poolId {num}.
Arguments mintA {num}.
Arguments mintB {num}.
Arguments virtualA {num}.
Arguments virtualB {num}.
Arguments realA {num}.
Arguments realB {num}.
Arguments configInfo_curveType {num}.
Arguments configInfo_tradeFeeRate {num}.
Arguments platformId {num}.
Arguments status {num}.
Arguments currentRaised {num}.
Arguments targetRaised {num}.
End LaunchpadPoolInfo.

Section PoolState.
Local Open Scope string_scope.

(** [new PublicKey(mintAddress)] and [getPdaLaunchpadPoolId(LAUNCHPAD_PROGRAM,
    mintA, NATIVE_MINT).publicKey.toBase58()]; the constructor throws on a
    malformed address. *)
Variable poolIdOf : string -> Completion string.

(** [connection.getAccountInfo(poolId)]: the [data] of the account, [None]
    when there is no account, or a thrown RPC error. *)
Variable getAccountInfo : string -> Completion (option (list Byte.byte)).

Definition CACHE_TTL_MS : Z := 10000.
Definition PLATFORM_FEE_BPS : Z := 25.

(** [NATIVE_MINT.toBase58()] *)
Definition NATIVE_MINT : string := "So11111111111111111111111111111111111111112".

(** [data.slice(first, last)] for [first <= last]. *)
Definition slice {A} (first last : nat) (data : list A) : list A :=
  firstn (last - first) (skipn first data).

(** [new BN(bytes, 'le')] *)
Definition littleEndian (bytes : list Byte.byte) : N :=
  fold_right (fun b acc => Byte.to_N b + 256 * acc)%N 0%N bytes.

(** [data[i]]; the source reads it where [data] has at least 200 bytes. *)
Definition byteAt (data : list Byte.byte) (i : nat) : N :=
  match nth_error data i with
  | Some b => Byte.to_N b
  | None => 0%N
  end.

(** The state read from the [data] of a pool account. *)
Definition decodePool (poolId : string) (data : list Byte.byte) : OnChainPoolState.t :=
  if (200 <=? length data)%nat then
    {| OnChainPoolState.exists_ := true;
       OnChainPoolState.poolId := poolId;
       OnChainPoolState.realTokenReserves := littleEndian (slice 72 80 data);
       OnChainPoolState.realSolReserves := littleEndian (slice 64 72 data);
       OnChainPoolState.virtualTokenReserves := littleEndian (slice 88 96 data);
       OnChainPoolState.virtualSolReserves := littleEndian (slice 80 88 data);
       OnChainPoolState.curveType := byteAt data 9;
       OnChainPoolState.status :=
         if (byteAt data 8 =? 2)%N then Graduated else Trading |}
  else
    {| OnChainPoolState.exists_ := true;
       OnChainPoolState.poolId := poolId;
       OnChainPoolState.realTokenReserves := 0;
       OnChainPoolState.realSolReserves := 0;
       OnChainPoolState.virtualTokenReserves := 0;
       OnChainPoolState.virtualSolReserves := 0;
       OnChainPoolState.curveType := 0;
       OnChainPoolState.status := Trading |}.

(** The state when [getAccountInfo] finds no account. *)
Definition missingPool (poolId : string) : OnChainPoolState.t :=
  {| OnChainPoolState.exists_ := false;
     OnChainPoolState.poolId := poolId;
     OnChainPoolState.realTokenReserves := 0;
     OnChainPoolState.realSolReserves := 0;
     OnChainPoolState.virtualTokenReserves := 0;
     OnChainPoolState.virtualSolReserves := 0;
     OnChainPoolState.curveType := 0;
     OnChainPoolState.status := Unknown |}.

(** [fetchOnChainPoolState].  [now] is [Date.now()] where the cache is
    looked up, [later] is [Date.now()] where the result is stored; every
    path that asks the node stores what it returns, [None] for a failure. *)
Definition fetchOnChainPoolState (now later : Z) (mintAddress : string)
    (cache : gmap string CacheEntry.t)
    : option OnChainPoolState.t * gmap string CacheEntry.t :=
  let cacheKey := mintAddress in
  let fetched : option OnChainPoolState.t :=
    match poolIdOf mintAddress with
    | Threw => None
    | Returned poolId =>
        match getAccountInfo poolId with
        | Threw => None
        | Returned None => Some (missingPool poolId)
        | Returned (Some data) => Some (decodePool poolId data)
        end
    end in
  let stored := (fetched, <[cacheKey := CacheEntry.mk fetched later]> cache) in
  match cache !! cacheKey with
  | Some cached =>
      if (now - CacheEntry.timestamp cached <? CACHE_TTL_MS)%Z
      then (CacheEntry.data cached, cache)
      else stored
  | None => stored
  end.

End PoolState.

Section PoolInfo.
Context {num : Type} `{Number num}.

Variable poolIdOf : string -> Completion string.
Variable getAccountInfo : string -> Completion (option (list Byte.byte)).

(** [getPoolInfo].  [parseFloat] of the decimal text of a whole number is
    that number as a [number]. *)
Definition getPoolInfo (now later : Z) (mintAddress : string)
    (cache : gmap string CacheEntry.t)
    : option (LaunchpadPoolInfo.t num) * gmap string CacheEntry.t :=
  let '(onChainState, cache') :=
    fetchOnChainPoolState poolIdOf getAccountInfo now later mintAddress cache in
  match onChainState with
  | None => (None, cache')
  | Some onChainState =>
      let currentRaised :=
        if OnChainPoolState.exists_ onChainState
        then (lit (inject_Z (Z.of_N (OnChainPoolState.realSolReserves onChainState)))
              / LAMPORTS_PER_SOL)%js
        else lit 0 in
      let targetRaised := DEFAULT_FUNDRAISING_TARGET in
      (Some {| LaunchpadPoolInfo.poolId := OnChainPoolState.poolId onChainState;
               LaunchpadPoolInfo.mintA := mintAddress;
               LaunchpadPoolInfo.mintB := NATIVE_MINT;
               LaunchpadPoolInfo.virtualA := OnChainPoolState.virtualTokenReserves onChainState;
               LaunchpadPoolInfo.virtualB := OnChainPoolState.virtualSolReserves onChainState;
               LaunchpadPoolInfo.realA := OnChainPoolState.realTokenReserves onChainState;
               LaunchpadPoolInfo.realB := OnChainPoolState.realSolReserves onChainState;
               LaunchpadPoolInfo.configInfo_curveType := OnChainPoolState.curveType onChainState;
               LaunchpadPoolInfo.configInfo_tradeFeeRate := (PLATFORM_FEE_BPS * 100)%Z;
               LaunchpadPoolInfo.platformId := PLATFORM_TREASURY;
               LaunchpadPoolInfo.status :=
                 match OnChainPoolState.status onChainState with
                 | Graduated => Graduated
                 | _ => Trading
                 end;
               LaunchpadPoolInfo.currentRaised := currentRaised;
               LaunchpadPoolInfo.targetRaised := targetRaised |}, cache')
  end.

End PoolInfo.

(** ** Price helpers of the shared schema ([shared/schema.ts]) *)

Section SchemaPrices.
Context {num : Type} `{Number num} `{Transcendental num}.
Local Open Scope string_scope.
Local Open Scope js_scope.

Definition calculateLinearPrice (supply k initialPrice : num) : num :=
  initialPrice + k * supply.

Definition calculateExponentialPrice (supply k initialPrice : num) : num :=
  initialPrice * Math_pow (lit 1 + k) (supply / lit 1000000000).

Definition calculateLogarithmicPrice (supply k initialPrice : num) : num :=
  initialPrice + k * Math_log (lit 1 + supply / lit 1000000000).

Definition calculatePrice (supply : num) (curveType : string) (k initialPrice : num)
    : num :=
  if String.eqb curveType "linear" then calculateLinearPrice supply k initialPrice
  else if String.eqb curveType "exponential" then
    calculateExponentialPrice supply k initialPrice
  else if String.eqb curveType "logarithmic" then
    calculateLogarithmicPrice supply k initialPrice
  else initialPrice.

End SchemaPrices.

(** ** Sample rows, in either model of the numbers *)

Module Rows.
Local Open Scope string_scope.

(** A launch of 1,000,000,000 tokens with a target of 85 SOL, created at
    the time [1700000000000] (in milliseconds). *)
Definition row {num} `{Number num} (curveType status : string) (raised : num)
    : TokenLaunch.t num :=
  {| TokenLaunch.id := "launch-1";
     TokenLaunch.mintAddress := Sample.tokenMint;
     TokenLaunch.poolId := None;
     TokenLaunch.name := "Sample";
     TokenLaunch.symbol := "SMPL";
     TokenLaunch.description := None;
     TokenLaunch.imageUrl := None;
     TokenLaunch.metadataUri := None;
     TokenLaunch.website := None;
     TokenLaunch.twitter := None;
     TokenLaunch.telegram := None;
     TokenLaunch.curveType := curveType;
     TokenLaunch.totalSupply := lit 1000000000;
     TokenLaunch.fundraisingTarget := lit 85;
     TokenLaunch.currentRaised := raised;
     TokenLaunch.creatorAddress := Sample.wallet;
     TokenLaunch.status := status;
     TokenLaunch.txSignature := None;
     TokenLaunch.platformId := None;
     TokenLaunch.holders := Some (lit 0);
     TokenLaunch.volume24h := Some (lit 0);
     TokenLaunch.createdAt := Some 1700000000000%Z |}.

Definition table {num} `{Number num} (curveType status : string) (raised : num)
    : gmap string (TokenLaunch.t num) :=
  {[ "launch-1" := row curveType status raised ]}.

(** The transaction of [Sample.trade]: the wallet signs, its lamports go
    from [pre] to [post] and the tokens of its token account from
    [preTokens] to [postTokens]. *)
Definition trade {num} `{Number num} (pre post preTokens postTokens : num)
    : ParsedTransaction num :=
  {| meta :=
       Some {| err := false;
               innerInstructions := [];
               preTokenBalances :=
                 [ {| accountIndex := 1%nat; uiAmount := Some preTokens |};
                   {| accountIndex := 2%nat; uiAmount := Some (lit 800000000) |} ];
               postTokenBalances :=
                 [ {| accountIndex := 1%nat; uiAmount := Some postTokens |};
                   {| accountIndex := 2%nat; uiAmount := Some (lit 800000000) |} ];
               preBalances := [pre; lit 2039280; lit 2039280];
               postBalances := [post; lit 2039280; lit 2039280] |};
     accountKeys :=
       [ {| pubkey := Sample.wallet; signer := true |};
         {| pubkey := Sample.walletTokenAccount; signer := false |};
         {| pubkey := Sample.poolVault; signer := false |} ];
     instructions := [Sample.transferTo Sample.walletTokenAccount] |}.

(** A node that knows one transaction, under the signature "5VERv8". *)
Definition node {num} (tx : ParsedTransaction num) (signature : string)
    : Completion (option (ParsedTransaction num)) :=
  if String.eqb signature "5VERv8" then Returned (Some tx) else Returned None.

(** A node on which the creation of [Sample.tokenMint] by [Sample.wallet]
    is finalized under the signature "3CREATE": a supply of 10^18 base
    units at 9 decimals, all of it in the creator's token account. *)
Definition signatureStatus (signature : string) : string + option SignatureStatus.t :=
  if String.eqb signature "3CREATE"
  then inr (Some (SignatureStatus.mk None (Some "finalized") 250000000))
  else inr None.

Definition mintOf (address : string) : Completion Mint.t :=
  if String.eqb address Sample.tokenMint
  then Returned (Mint.mk (Some Sample.wallet) 9 1000000000000000000)
  else Threw.

Definition accountOf (address : string) : Completion TokenAccount.t :=
  if String.eqb address Sample.walletTokenAccount
  then Returned (TokenAccount.mk 1000000000000000000 Sample.tokenMint)
  else Threw.

Definition creation : VerifyTokenCreationParams.t :=
  {| VerifyTokenCreationParams.signature := "3CREATE";
     VerifyTokenCreationParams.expectedMint := Sample.tokenMint;
     VerifyTokenCreationParams.expectedCreator := Sample.wallet;
     VerifyTokenCreationParams.expectedTotalSupply := 1000000000;
     VerifyTokenCreationParams.expectedDecimals := Some 9%N |}.

(** The data of a pool account of 200 bytes: status byte 2, curve type
    byte 1, and from offset 64 the four reserves 85000000000,
    793100000000000, 30000000000 and 1073000000000000, eight bytes each,
    lowest byte first. *)
Definition poolData : list Byte.byte :=
  let x := Byte.x00 in
  repeat x 8 ++ [Byte.x02; Byte.x01] ++ repeat x 54
  ++ [x; Byte.x12; Byte.x65; Byte.xca; Byte.x13; x; x; x]
  ++ [x; Byte.x78; Byte.xc5; Byte.xfb; Byte.x51; Byte.xd1; Byte.x02; x]
  ++ [x; Byte.xac; Byte.x23; Byte.xfc; Byte.x06; x; x; x]
  ++ [x; Byte.x10; Byte.xd8; Byte.x47; Byte.xe3; Byte.xcf; Byte.x03; x]
  ++ repeat x 104.

Definition poolOf (mintAddress : string) : Completion string :=
  if String.eqb mintAddress Sample.tokenMint then Returned Sample.poolVault else Threw.

Definition accountInfo (poolId : string) : Completion (option (list Byte.byte)) :=
  if String.eqb poolId Sample.poolVault then Returned (Some poolData)
  else Returned None.

(** A node that fails on every request. *)
Definition unreachable (poolId : string) : Completion (option (list Byte.byte)) :=
  Threw.

End Rows.

(** * Properties *)

(** ** binary64 *)

Example floor_samples :
  Binary64.floor 2.5%float = 2%float /\
  Binary64.floor (-2.5)%float = (-3)%float /\
  Binary64.floor 0.25%float = 0%float /\
  Binary64.floor (-0.25)%float = (-1)%float /\
  Binary64.floor 9360770.75%float = 9360770%float /\
  Binary64.floor (-4)%float = (-4)%float /\
  Binary64.floor infinity = infinity.
Proof. repeat split; reflexivity. Qed.

Example literal_samples :
  Binary64.ofQ 0.0025 = 0x1.47ae147ae147bp-9%float /\
  Binary64.ofQ 0.8 = 0x1.999999999999ap-1%float /\
  Binary64.ofQ 1000000000 = 1000000000%float.
Proof. repeat split; reflexivity. Qed.

(** ** The verifier *)

Section VerifierFacts.
Context {num : Type} `{Number num}.
Variable getParsedTransaction :
  string -> Completion (option (ParsedTransaction num)).
Variable getAssociatedTokenAddressSync : string -> string -> Completion string.

Abbreviation checks := (checksBeforeAmount getParsedTransaction getAssociatedTokenAddressSync).
Abbreviation verify := (verifyTradeTransaction getParsedTransaction getAssociatedTokenAddressSync).

(** An early return of a step is the result of the whole verification. *)
Lemma verify_early_return params e :
  checks params = Fail e -> verify params = TradeVerification.invalid e.
Proof. intros Hc. unfold verifyTradeTransaction. now rewrite Hc. Qed.

(** Past the earlier steps, the result is decided by the comparison of
    the amounts alone. *)
Lemma verify_amount_step params actual :
  checks params = Pass actual ->
  verify params =
    if (Math_abs (actual - expectedSolAmount params)
        >? expectedSolAmount params * lit 0.05 + lit 0.001)%js
    then TradeVerification.invalid
           (SolAmountMismatch (expectedSolAmount params) actual)
    else TradeVerification.mk true (Some actual) None
           (Some (expectedWallet params)) (Some (expectedMint params)) None.
Proof. intros Hc. unfold verifyTradeTransaction. now rewrite Hc. Qed.

(** A verification that is valid carries an amount, and no error. *)
Lemma verify_valid_inv params :
  TradeVerification.valid (verify params) = true ->
  exists actual,
    checks params = Pass actual /\
    verify params =
      TradeVerification.mk true (Some actual) None
        (Some (expectedWallet params)) (Some (expectedMint params)) None.
Proof.
  intros Hv. destruct (checks params) as [e | actual] eqn:Hc.
  - rewrite (verify_early_return _ _ Hc) in Hv. discriminate.
  - exists actual. split; [reflexivity |].
    rewrite (verify_amount_step _ _ Hc) in Hv |- *.
    destruct (_ >? _)%js; [discriminate | reflexivity].
Qed.

(** A transaction that passed steps 1 to 3 and failed the direction check
    is rejected with the error of that check. *)
Lemma verify_direction_step params tx e :
  fetchAndCheckMint getParsedTransaction getAssociatedTokenAddressSync params = Pass tx ->
  checkDirection getAssociatedTokenAddressSync params tx = Fail e ->
  verify params = TradeVerification.invalid e.
Proof.
  intros Hf Hd. apply verify_early_return.
  unfold checksBeforeAmount. rewrite Hf. cbn. now rewrite Hd.
Qed.

End VerifierFacts.

(** A wallet that signed is among the account keys. *)
Lemma signer_is_listed (keys : list AccountKey) (expectedWallet : string) :
  walletIsSigner keys expectedWallet = true ->
  exists walletIndex key,
    findIndex (fun k => String.eqb (pubkey k) expectedWallet) keys = Some walletIndex
    /\ keys !! walletIndex = Some key
    /\ pubkey key = expectedWallet.
Proof.
  unfold walletIsSigner. induction keys as [| k rest IH]; [discriminate |].
  cbn [existsb findIndex].
  destruct (String.eqb_spec (pubkey k) expectedWallet) as [E | _].
  - intros _. exists 0%nat, k. repeat split. exact E.
  - cbn [andb orb]. intros Hrest.
    destruct (IH Hrest) as (i & key & -> & Hkey & Hpub).
    exists (S i), key. repeat split; assumption.
Qed.

(** Steps 1 to 3 pass only a transaction that the wallet signed. *)
Lemma fetchAndCheckMint_signed {num} `{Number num}
    (getParsedTransaction : string -> Completion (option (ParsedTransaction num)))
    (getAssociatedTokenAddressSync : string -> string -> Completion string)
    (params : VerifyTradeParams num) (tx : ParsedTransaction num) :
  fetchAndCheckMint getParsedTransaction getAssociatedTokenAddressSync params = Pass tx ->
  getParsedTransaction (signature params) = Returned (Some tx)
  /\ metaErr tx = false
  /\ walletIsSigner (accountKeys tx) (expectedWallet params) = true.
Proof.
  unfold fetchAndCheckMint. intros Hfetch.
  destruct (getParsedTransaction (signature params)) as [| [tx0 |]] eqn:Hnode;
    cbn in Hfetch; try discriminate.
  destruct (metaErr tx0) eqn:Herr; cbn in Hfetch; [discriminate |].
  destruct (walletIsSigner (accountKeys tx0) (expectedWallet params)) eqn:Hsigner;
    cbn in Hfetch; [| discriminate].
  destruct (scanInstructions getAssociatedTokenAddressSync (expectedWallet params)
              (expectedMint params) (allInstructions tx0) false)
    as [e | [mintVerified tokenTransferFound]]; cbn in Hfetch; [discriminate |].
  destruct tokenTransferFound; cbn in Hfetch; [| discriminate].
  destruct mintVerified; cbn in Hfetch; [| discriminate].
  injection Hfetch as <-. repeat split; assumption.
Qed.

(** C3.  Once every earlier check has passed (the transaction is there,
    succeeded, is signed by the wallet and refers to the mint, and the
    direction check did not reject it), the wallet is among the account
    keys of the transaction, and with the SOL amount observed on chain
    being its balance after less its balance before, in SOL, negated for a
    buy, [verifyTradeTransaction] returns the amount-mismatch error exactly
    when the distance between that amount and [expectedSolAmount] is
    greater than [expectedSolAmount * 0.05 + 0.001], and is valid, with
    that amount, exactly when it is not.  In particular a buy whose wallet
    paid 1.0 SOL, confirmed with [expectedSolAmount = 10.0], is rejected
    with that error. *)
Theorem amount_mismatch_iff_outside_tolerance :
  (forall (num : Type) (N : Number num)
          (getParsedTransaction : string -> Completion (option (ParsedTransaction num)))
          (getAssociatedTokenAddressSync : string -> string -> Completion string)
          (params : VerifyTradeParams num) (tx : ParsedTransaction num),
     fetchAndCheckMint getParsedTransaction getAssociatedTokenAddressSync params
       = Pass tx ->
     checkDirection getAssociatedTokenAddressSync params tx = Pass tt ->
     exists walletIndex key,
       getParsedTransaction (signature params) = Returned (Some tx)
       /\ accountKeys tx !! walletIndex = Some key
       /\ pubkey key = expectedWallet params
       /\ (forall earlier other, (earlier < walletIndex)%nat ->
            accountKeys tx !! earlier = Some other ->
            pubkey other <> expectedWallet params)
       /\ let preBal := orDefault (metaList preBalances tx !! walletIndex) (lit 0) in
          let postBal := orDefault (metaList postBalances tx !! walletIndex) (lit 0) in
          let balanceChange := ((postBal - preBal) / lit 1000000000)%js in
          let actual := if isBuy params then (- balanceChange)%js else balanceChange in
          let tolerance := (expectedSolAmount params * lit 0.05 + lit 0.001)%js in
          let amountDiff := Math_abs (actual - expectedSolAmount params)%js in
          let verification :=
            verifyTradeTransaction getParsedTransaction getAssociatedTokenAddressSync
              params in
          (verification
             = TradeVerification.invalid
                 (SolAmountMismatch (expectedSolAmount params) actual)
           <-> (amountDiff >? tolerance)%js = true)
          /\ (TradeVerification.valid verification = true
              <-> (amountDiff >? tolerance)%js = false)
          /\ (TradeVerification.valid verification = true ->
              TradeVerification.solAmount verification = Some actual))
  /\
  (let paidOne := Sample.trade (lit 11000000000) (lit 10000000000) (lit 0) (lit 9000000) in
   fetchAndCheckMint (Sample.node paidOne) Sample.tokenAccountOf
     (Sample.params (lit 10) true) = Pass paidOne
   /\
   checkDirection Sample.tokenAccountOf (Sample.params (lit 10) true) paidOne = Pass tt
   /\
   accountKeys paidOne !! 0%nat = Some {| pubkey := Sample.wallet; signer := true |}
   /\
   metaList preBalances paidOne !! 0%nat = Some (lit 11000000000)
   /\
   metaList postBalances paidOne !! 0%nat = Some (lit 10000000000)
   /\
   verifyTradeTransaction (Sample.node paidOne) Sample.tokenAccountOf
     (Sample.params (lit 10) true)
     = TradeVerification.invalid (SolAmountMismatch (lit 10) (lit 1))).
Proof.
  split.
  - intros num N chain ata params tx Hfetch Hdirection.
    destruct (fetchAndCheckMint_signed chain ata params tx Hfetch)
      as (Hnode & _ & Hsigner).
    destruct (signer_is_listed _ _ Hsigner) as (walletIndex & key & Hindex & Hkey & Hpub).
    exists walletIndex, key. split; [exact Hnode |]. split; [exact Hkey |].
    split; [exact Hpub |]. split.
    { clear - Hindex. revert walletIndex Hindex.
      induction (accountKeys tx) as [| k rest IH]; intros walletIndex Hindex;
        [discriminate |].
      cbn [findIndex] in Hindex.
      destruct (String.eqb_spec (pubkey k) (expectedWallet params)) as [_ | Hne].
      - injection Hindex as <-. intros earlier other Hlt. inversion Hlt.
      - destruct (findIndex _ rest) as [i |]; [| discriminate].
        injection Hindex as <-. intros [| earlier] other Hlt Hother.
        + injection Hother as <-. exact Hne.
        + apply (IH i eq_refl earlier other); [apply Nat.succ_lt_mono; exact Hlt |].
          exact Hother. }
    intros preBal postBal balanceChange actual tolerance amountDiff verification.
    assert (Hchecks : checksBeforeAmount chain ata params = Pass actual).
    { unfold checksBeforeAmount. rewrite Hfetch. cbn [mbind Check_bind].
      rewrite Hdirection. cbn [mbind Check_bind]. unfold actualSolAmount.
      rewrite Hindex. reflexivity. }
    subst verification. rewrite (verify_amount_step _ _ _ _ Hchecks).
    fold tolerance amountDiff.
    destruct (amountDiff >? tolerance)%js; cbn; repeat split;
      intros E; try reflexivity; try discriminate E.
  - cbv zeta. repeat split; vm_compute; reflexivity.
Qed.

Lemma amount_mismatch_iff_outside_tolerance_witness :
  let tx := Sample.trade (lit 3000000000) (lit 2000000000) (lit 0) (lit 9000000) in
  let chain := Sample.node tx in
  let claimed : float := lit 1.02 in
  let paid : float := lit 1 in
  let params := Sample.params claimed true in
  (fetchAndCheckMint chain Sample.tokenAccountOf params = Pass tx
   /\ checkDirection Sample.tokenAccountOf params tx = Pass tt)
  /\ (Math_abs (paid - claimed) >? claimed * lit 0.05 + lit 0.001)%js = false
  /\ TradeVerification.valid (verifyTradeTransaction chain Sample.tokenAccountOf params)
     = true
  /\ TradeVerification.solAmount (verifyTradeTransaction chain Sample.tokenAccountOf params)
     = Some paid.
Proof.
  intros tx chain claimed paid params.
  assert (Hfetch : fetchAndCheckMint chain Sample.tokenAccountOf params = Pass tx)
    by (vm_compute; reflexivity).
  assert (Hdirection : checkDirection Sample.tokenAccountOf params tx = Pass tt)
    by (vm_compute; reflexivity).
  split; [split; assumption |].
  destruct (proj1 amount_mismatch_iff_outside_tolerance float _ chain
              Sample.tokenAccountOf params tx Hfetch Hdirection)
    as (walletIndex & key & _ & Hkey & Hpub & _ & _ & Hvalid & Hamount).
  assert (Hwithin : (Math_abs (paid - claimed) >? claimed * lit 0.05 + lit 0.001)%js
                    = false) by (vm_compute; reflexivity).
  assert (Hindex : walletIndex = 0%nat).
  { destruct walletIndex as [| [| [| i]]]; [reflexivity | | |].
    - exfalso. injection Hkey as <-. discriminate Hpub.
    - exfalso. injection Hkey as <-. discriminate Hpub.
    - exfalso. discriminate Hkey. }
  subst walletIndex.
  assert (Hok : TradeVerification.valid
                  (verifyTradeTransaction chain Sample.tokenAccountOf params) = true)
    by (apply Hvalid; vm_compute; reflexivity).
  split; [exact Hwithin |]. split; [exact Hok |].
  rewrite (Hamount Hok). vm_compute. reflexivity.
Defined.

(** C4 (evaluation at the failing input).  The direction check is skipped
    for a transaction that does not list the wallet's associated token
    account.  Here the wallet signs and pays 1 SOL, the one token
    instruction names the mint and moves nothing between two accounts of
    other owners, the wallet's token account is not among the account
    keys, and no token balance of any account changes: the transaction
    passes steps 1 to 3, the balance change is not positive, and the buy
    is verified all the same. *)
Theorem direction_unchecked_without_token_account :
  let tx := Sample.paymentWithoutTokens (lit 3000000000) (lit 2000000000) in
  let params := Sample.params (lit 1) true in
  fetchAndCheckMint (Sample.node tx) Sample.tokenAccountOf params = Pass tx
  /\ isBuy params = true
  /\ Sample.tokenAccountOf (expectedMint params) (expectedWallet params)
     = Returned Sample.walletTokenAccount
  /\ findIndex (fun k => String.eqb (pubkey k) Sample.walletTokenAccount)
       (accountKeys tx) = None
  /\ (forall accountIndex : nat, tokenChange tx accountIndex = lit 0)
  /\ verifyTradeTransaction (Sample.node tx) Sample.tokenAccountOf params
     = TradeVerification.mk true (Some (lit 1)) None
         (Some Sample.wallet) (Some Sample.tokenMint) None.
Proof.
  cbv zeta. split; [vm_compute; reflexivity |].
  split; [reflexivity |].
  split; [vm_compute; reflexivity |].
  split; [vm_compute; reflexivity |].
  split; [| vm_compute; reflexivity].
  intros [| [| [| i]]]; vm_compute; reflexivity.
Qed.

(** X30.  For a transaction that passed the signer and mint checks and
    lists the wallet's associated token account among its account keys,
    [verifyTradeTransaction] fails with the wrong-direction error whenever
    the balance change of that account does not match the direction: not
    above zero for a buy, not below zero for a sell. *)
Theorem wrong_direction_rejected_when_token_account_listed :
  forall (num : Type) (N : Number num)
         (getParsedTransaction : string -> Completion (option (ParsedTransaction num)))
         (getAssociatedTokenAddressSync : string -> string -> Completion string)
         (params : VerifyTradeParams num) (tx : ParsedTransaction num)
         (expectedAta : string) (ataIndex : nat),
    fetchAndCheckMint getParsedTransaction getAssociatedTokenAddressSync params = Pass tx ->
    getAssociatedTokenAddressSync (expectedMint params) (expectedWallet params)
      = Returned expectedAta ->
    findIndex (fun k => String.eqb (pubkey k) expectedAta) (accountKeys tx)
      = Some ataIndex ->
    (isBuy params = true ->
     (tokenChange tx ataIndex <=? lit 0)%js = true ->
     verifyTradeTransaction getParsedTransaction getAssociatedTokenAddressSync params
       = TradeVerification.invalid ExpectedIncreaseForBuy)
    /\
    (isBuy params = false ->
     (tokenChange tx ataIndex >=? lit 0)%js = true ->
     verifyTradeTransaction getParsedTransaction getAssociatedTokenAddressSync params
       = TradeVerification.invalid ExpectedDecreaseForSell).
Proof.
  intros num N chain ata params tx expectedAta ataIndex Hf Ha Hi.
  split; intros Hb Hc; apply (verify_direction_step _ _ _ tx _ Hf);
    unfold checkDirection; rewrite Ha; cbn; rewrite Hi, Hb, Hc; reflexivity.
Qed.

Lemma wrong_direction_rejected_when_token_account_listed_witness :
  let tx := Sample.trade (lit 3000000000) (lit 2000000000) (lit 9000000) (lit 9000000) in
  let params := Sample.params (lit 1) true in
  (fetchAndCheckMint (Sample.node tx) Sample.tokenAccountOf params = Pass tx
   /\ Sample.tokenAccountOf (expectedMint params) (expectedWallet params)
      = Returned Sample.walletTokenAccount
   /\ findIndex (fun k => String.eqb (pubkey k) Sample.walletTokenAccount) (accountKeys tx)
      = Some 1%nat
   /\ isBuy params = true
   /\ (tokenChange tx 1 <=? lit 0)%js = true)
  /\ verifyTradeTransaction (Sample.node tx) Sample.tokenAccountOf params
     = TradeVerification.invalid ExpectedIncreaseForBuy.
Proof.
  intros tx params.
  assert (Hf : fetchAndCheckMint (Sample.node tx) Sample.tokenAccountOf params = Pass tx)
    by (vm_compute; reflexivity).
  assert (Ha : Sample.tokenAccountOf (expectedMint params) (expectedWallet params)
               = Returned Sample.walletTokenAccount)
    by (vm_compute; reflexivity).
  assert (Hi : findIndex (fun k => String.eqb (pubkey k) Sample.walletTokenAccount)
                 (accountKeys tx) = Some 1%nat)
    by (vm_compute; reflexivity).
  assert (Hb : isBuy params = true) by reflexivity.
  assert (Hc : (tokenChange tx 1 <=? lit 0)%js = true) by (vm_compute; reflexivity).
  split; [repeat split; assumption |].
  exact (proj1 (wrong_direction_rejected_when_token_account_listed
                  float _ (Sample.node tx) Sample.tokenAccountOf params tx
                  Sample.walletTokenAccount 1%nat Hf Ha Hi) Hb Hc).
Defined.

(** ** The confirmation handlers *)

(** C1 (evaluation at the failing input).  The wallet's SOL balance is the
    same before and after the transaction, so the amount observed on chain
    is (minus) zero, and the verification of a claimed 0.00000000000000001
    SOL is valid with that amount.  [confirmBuy] then adds the claimed
    amount to [currentRaised], not the observed one: the launch had raised
    nothing, and has raised the claimed amount afterwards.  The volume it
    writes is the whole number 150, the claimed amount being too small to
    show in it, so the database takes the update. *)
Theorem confirm_buy_adds_claimed_amount_when_observed_is_zero :
  let tx := Sample.trade (lit 3000000000) (lit 3000000000) (lit 0) (lit 9000) in
  let claimed : float := lit 0.00000000000000001 in
  let before : float := lit 0 in
  let observed : float := (- lit 0)%js in
  verifyTradeTransaction (Sample.node tx) Sample.tokenAccountOf
    (Sample.params claimed true)
    = TradeVerification.mk true (Some observed) None
        (Some Sample.wallet) (Some Sample.tokenMint) None
  /\
  (let '(response, db) :=
     confirmBuy (Sample.node tx) Sample.tokenAccountOf Sample.anyAddress
       (Sample.tradedTable "active" before) "launch-1" (Some "5VERv8"%string)
       Sample.wallet claimed (lit 9000) in
   exists updated,
     response = BuyConfirmed false "5VERv8" claimed (lit 9000) (Some updated)
     /\ db !! "launch-1"%string = Some updated
     /\ TokenLaunch.currentRaised updated = (before + claimed)%js
     /\ TokenLaunch.volume24h updated = Some (lit 150)
     /\ TokenLaunch.holders updated = Some (lit 2)
     /\ (before + observed)%js = before
     /\ (before <? before + claimed)%js = true).
Proof.
  cbv zeta. split; [vm_compute; reflexivity |].
  eexists. vm_compute. repeat split; reflexivity.
Qed.

(** C2 (evaluation at the failing input).  The wallet's SOL balance is one
    lamport higher after the transaction than before, so the amount
    observed for the buy is negative, -0.000000001 SOL, and it is within
    the tolerance of a claimed 0.001 SOL.  [confirmBuy] adds it to
    [currentRaised], which goes down from 10.  The volume of the launch is
    -2147483648, the least value of its column, which the storage takes;
    the 0.00000015 that the handler takes off it is less than half the
    distance to the next number below, so the volume it writes is
    -2147483648 again, a whole number in range, and the database takes the
    update. *)
Theorem confirm_buy_decreases_raised_on_negative_amount :
  let tx := Sample.trade (lit 3000000000) (lit 3000000001) (lit 0) (lit 9000) in
  let claimed : float := lit 0.001 in
  let before : float := lit 10 in
  let least : float := lit (-2147483648) in
  let setVolume : LaunchUpdates float :=
    {| set_currentRaised := None; set_status := None;
       set_holders := None; set_volume24h := Some least |} in
  let launch := applyUpdates setVolume (Sample.tradedLaunch "active" before) in
  let db : gmap string (TokenLaunch.t float) := {[ "launch-1"%string := launch ]} in
  updateLaunch "launch-1" setVolume (Sample.tradedTable "active" before)
    = Returned (Some launch, db)
  /\
  (exists observed,
     verifyTradeTransaction (Sample.node tx) Sample.tokenAccountOf
       (Sample.params claimed true)
       = TradeVerification.mk true (Some observed) None
           (Some Sample.wallet) (Some Sample.tokenMint) None
     /\ (observed <? lit 0)%js = true
     /\ (least + observed * lit 150)%js = least
     /\ isInt4 (least + observed * lit 150)%js = true
     /\
     let '(response, db') :=
       confirmBuy (Sample.node tx) Sample.tokenAccountOf Sample.anyAddress
         db "launch-1" (Some "5VERv8"%string) Sample.wallet claimed (lit 9000) in
     exists updated,
       response = BuyConfirmed false "5VERv8" observed (lit 9000) (Some updated)
       /\ db' !! "launch-1"%string = Some updated
       /\ TokenLaunch.currentRaised launch = before
       /\ TokenLaunch.currentRaised updated = (before + observed)%js
       /\ (TokenLaunch.currentRaised updated <? before)%js = true
       /\ TokenLaunch.currentRaised updated = lit 9.999999999
       /\ TokenLaunch.volume24h updated = Some least
       /\ TokenLaunch.status updated = "active"%string).
Proof.
  cbv zeta. split; [vm_compute; reflexivity |].
  eexists. split; [vm_compute; reflexivity |].
  split; [vm_compute; reflexivity |].
  split; [vm_compute; reflexivity |].
  split; [vm_compute; reflexivity |].
  eexists. vm_compute. repeat split; reflexivity.
Qed.

Lemma sameExceptVolume24h_refl {num} (launch : TokenLaunch.t num) :
  sameExceptVolume24h launch launch.
Proof. unfold sameExceptVolume24h. repeat split. Qed.

Lemma sameExceptVolume24h_update {num} (launch : TokenLaunch.t num) (v : num) :
  sameExceptVolume24h launch
    (applyUpdates {| set_currentRaised := None; set_status := None;
                     set_holders := None; set_volume24h := Some v |} launch).
Proof. unfold sameExceptVolume24h. cbn. repeat split. Qed.

Section HandlerFacts.
Context {num : Type} `{Number num}.
Variable getParsedTransaction :
  string -> Completion (option (ParsedTransaction num)).
Variable getAssociatedTokenAddressSync : string -> string -> Completion string.
Variable isValidSolanaAddress : string -> bool.

Abbreviation buy :=
  (confirmBuy getParsedTransaction getAssociatedTokenAddressSync isValidSolanaAddress).
Abbreviation sell :=
  (confirmSell getParsedTransaction getAssociatedTokenAddressSync isValidSolanaAddress).

(** [confirmBuy] on a launch that is not active: rejected, nothing
    written, whatever the node would answer. *)
Lemma confirmBuy_not_active db id txSignature walletAddress solAmount tokensReceived launch :
  wellFormed isValidSolanaAddress txSignature walletAddress solAmount tokensReceived ->
  db !! id = Some launch ->
  String.eqb (TokenLaunch.status launch) "active" = false ->
  buy db id (Some txSignature) walletAddress solAmount tokensReceived
    = (Failure 400 "Token has graduated or is not active" None, db).
Proof.
  intros (Hs & Hw & Hfa & Hpa & Hfb & Hpb) Hl Hst.
  unfold confirmBuy, getLaunchById.
  rewrite Hs, Hw, Hfa, Hpa, Hfb, Hpb, Hl, Hst. reflexivity.
Qed.

(** [confirmBuy] never writes to a launch that is not active. *)
Lemma confirmBuy_keeps_inactive db id txSignature walletAddress solAmount tokensReceived launch :
  db !! id = Some launch ->
  String.eqb (TokenLaunch.status launch) "active" = false ->
  snd (buy db id txSignature walletAddress solAmount tokensReceived) = db.
Proof.
  intros Hl Hst. unfold confirmBuy, getLaunchById.
  destruct txSignature as [s |]; [| reflexivity].
  destruct (String.eqb s ""); [reflexivity |].
  destruct (negb (isValidSolanaAddress walletAddress)); [reflexivity |].
  destruct (negb (isFinite solAmount) || (solAmount <=? lit 0)%js); [reflexivity |].
  destruct (negb (isFinite tokensReceived) || (tokensReceived <=? lit 0)%js);
    [reflexivity |].
  rewrite Hl, Hst. reflexivity.
Qed.

(** A confirmed buy, read backwards: the launch was active, the
    verification valid with some observed amount, the amount added is the
    observed one unless that is falsy, the status written is decided by the
    new total, and the new count of holders and the new volume are numbers
    that the integer columns take. *)
Lemma confirmBuy_confirmed db id txSignature walletAddress solAmount tokensReceived
    graduated sig added received updated db' :
  buy db id txSignature walletAddress solAmount tokensReceived
    = (BuyConfirmed graduated sig added received updated, db') ->
  exists launch observed,
    db !! id = Some launch
    /\ TokenLaunch.status launch = "active"%string
    /\ verifyTradeTransaction getParsedTransaction getAssociatedTokenAddressSync
         {| signature := sig; expectedWallet := walletAddress;
            expectedMint := TokenLaunch.mintAddress launch;
            expectedSolAmount := solAmount; isBuy := true |}
       = TradeVerification.mk true (Some observed) None
           (Some walletAddress) (Some (TokenLaunch.mintAddress launch)) None
    /\ added = orElse observed solAmount
    /\ graduated =
         (TokenLaunch.fundraisingTarget launch
          <=? TokenLaunch.currentRaised launch + added)%js
    /\ exists row,
         updated = Some row /\ db' = <[id := row]> db
         /\ TokenLaunch.currentRaised row
            = (TokenLaunch.currentRaised launch + added)%js
         /\ TokenLaunch.status row
            = (if graduated then "graduated" else "active")%string
         /\ TokenLaunch.holders row
            = Some (orDefault (TokenLaunch.holders launch) (lit 0) + lit 1)%js
         /\ TokenLaunch.volume24h row
            = Some (orDefault (TokenLaunch.volume24h launch) (lit 0)
                    + added * lit 150)%js
         /\ isInt4 (orDefault (TokenLaunch.holders launch) (lit 0) + lit 1)%js = true
         /\ isInt4 (orDefault (TokenLaunch.volume24h launch) (lit 0)
                    + added * lit 150)%js = true
         /\ TokenLaunch.fundraisingTarget row = TokenLaunch.fundraisingTarget launch.
Proof.
  unfold confirmBuy, getLaunchById, updateLaunch.
  destruct txSignature as [s |]; [| discriminate].
  destruct (String.eqb s "") eqn:Hs; [discriminate |].
  destruct (negb (isValidSolanaAddress walletAddress)); [discriminate |].
  destruct (negb (isFinite solAmount) || (solAmount <=? lit 0)%js); [discriminate |].
  destruct (negb (isFinite tokensReceived) || (tokensReceived <=? lit 0)%js);
    [discriminate |].
  destruct (db !! id) as [launch |] eqn:Hl; [| discriminate].
  destruct (String.eqb (TokenLaunch.status launch) "active") eqn:Hst;
    [| discriminate].
  cbn [negb].
  match goal with
  | |- context [verifyTradeTransaction ?c ?a ?p] =>
      destruct (TradeVerification.valid (verifyTradeTransaction c a p)) eqn:Hv;
      [destruct (verify_valid_inv c a p Hv) as (observed & _ & Hver) | discriminate]
  end.
  cbn [negb]. rewrite Hver. cbn [TradeVerification.solAmount orDefault expectedWallet expectedMint].
  destruct (accepted _) eqn:Hacc; [| discriminate].
  intros E. injection E as <- <- <- <- <- <-.
  apply String.eqb_eq in Hst.
  unfold accepted in Hacc. cbn [set_holders set_volume24h from_option] in Hacc.
  apply andb_true_iff in Hacc. destruct Hacc as [Hacc Hvol].
  apply andb_true_iff in Hacc. destruct Hacc as [_ Hhold].
  exists launch, observed. cbn in Hver.
  split; [reflexivity |]. split; [exact Hst |]. split; [exact Hver |].
  split; [reflexivity |].
  set (g := (TokenLaunch.fundraisingTarget launch
             <=? TokenLaunch.currentRaised launch + orElse observed solAmount)%js).
  split; [destruct g; reflexivity |].
  rewrite lookup_alter_eq, Hl. cbn [fmap option_fmap option_map].
  eexists. split; [reflexivity |].
  split.
  - apply map_eq. intros j. destruct (decide (id = j)) as [<- | Hne].
    + rewrite lookup_alter_eq, lookup_insert_eq, Hl. reflexivity.
    + rewrite lookup_alter_ne, lookup_insert_ne by assumption. reflexivity.
  - cbn. split; [reflexivity |]. split; [destruct g; reflexivity |].
    split; [reflexivity |]. split; [reflexivity |].
    split; [exact Hhold |]. split; [exact Hvol | reflexivity].
Qed.

(** The claimed amount of a confirmed buy is a finite number above 0. *)
Lemma confirmBuy_confirmed_claim db id txSignature walletAddress solAmount tokensReceived
    graduated sig added received updated db' :
  buy db id txSignature walletAddress solAmount tokensReceived
    = (BuyConfirmed graduated sig added received updated, db') ->
  isFinite solAmount = true /\ (solAmount <=? lit 0)%js = false.
Proof.
  unfold confirmBuy.
  destruct txSignature as [s |]; [| discriminate].
  destruct (String.eqb s ""); [discriminate |].
  destruct (negb (isValidSolanaAddress walletAddress)); [discriminate |].
  destruct (negb (isFinite solAmount) || (solAmount <=? lit 0)%js) eqn:Hamt;
    [discriminate |].
  intros _. apply orb_false_elim in Hamt. destruct Hamt as [Hfin Hpos].
  apply negb_false_iff in Hfin. split; assumption.
Qed.

(** What [confirmSell] does to the table: nothing, or one new value of
    [volume24h] in the row of the launch. *)
Lemma confirmSell_writes_volume db id txSignature walletAddress tokenAmount solReceived :
  snd (sell db id txSignature walletAddress tokenAmount solReceived) = db
  \/ exists launch v,
       db !! id = Some launch
       /\ snd (sell db id txSignature walletAddress tokenAmount solReceived)
          = <[id := applyUpdates {| set_currentRaised := None; set_status := None;
                                    set_holders := None; set_volume24h := Some v |}
                       launch]> db.
Proof.
  unfold confirmSell, getLaunchById, updateLaunch.
  destruct txSignature as [s |]; [| left; reflexivity].
  destruct (String.eqb s ""); [left; reflexivity |].
  destruct (negb (isValidSolanaAddress walletAddress)); [left; reflexivity |].
  destruct (negb (isFinite tokenAmount) || (tokenAmount <=? lit 0)%js);
    [left; reflexivity |].
  destruct (negb (isFinite solReceived) || (solReceived <=? lit 0)%js);
    [left; reflexivity |].
  destruct (db !! id) as [launch |] eqn:Hl; [| left; reflexivity].
  destruct (negb _); [left; reflexivity |].
  destruct (accepted _); [| left; reflexivity].
  right. eexists launch, _. split; [reflexivity |]. cbn [snd].
  apply map_eq. intros j. destruct (decide (id = j)) as [<- | Hne].
  - rewrite lookup_alter_eq, lookup_insert_eq, Hl. reflexivity.
  - rewrite lookup_alter_ne, lookup_insert_ne by assumption. reflexivity.
Qed.

End HandlerFacts.

Section BuySequences.
Context {num : Type} `{Number num}.
Variable getParsedTransaction :
  string -> Completion (option (ParsedTransaction num)).
Variable getAssociatedTokenAddressSync : string -> string -> Completion string.
Variable isValidSolanaAddress : string -> bool.

(** A buy confirmation writes at most the row of its own launch, and
    only if that launch is active. *)
Lemma confirmBuy_writes db id txSignature walletAddress solAmount tokensReceived :
  let db' := snd (confirmBuy getParsedTransaction getAssociatedTokenAddressSync
                    isValidSolanaAddress db id txSignature walletAddress
                    solAmount tokensReceived) in
  db' = db
  \/ exists launch row,
       db !! id = Some launch
       /\ TokenLaunch.status launch = "active"%string
       /\ db' = <[id := row]> db.
Proof.
  cbv zeta.
  destruct (confirmBuy _ _ _ db id txSignature walletAddress solAmount tokensReceived)
    as [response db'] eqn:E.
  destruct response as [code msg details | g sig added received updated | ? ? ? ?].
  - left. revert E. unfold confirmBuy, getLaunchById, updateLaunch.
    destruct txSignature as [s |]; [| now intros [= _ <-]].
    destruct (String.eqb s ""); [now intros [= _ <-] |].
    destruct (negb (isValidSolanaAddress walletAddress)); [now intros [= _ <-] |].
    destruct (negb (isFinite solAmount) || (solAmount <=? lit 0)%js);
      [now intros [= _ <-] |].
    destruct (negb (isFinite tokensReceived) || (tokensReceived <=? lit 0)%js);
      [now intros [= _ <-] |].
    destruct (db !! id); [| now intros [= _ <-]].
    destruct (negb _); [now intros [= _ <-] |].
    destruct (negb _); [now intros [= _ <-] |].
    destruct (accepted _); [discriminate | now intros [= _ <-]].
  - right. apply confirmBuy_confirmed in E.
    destruct E as (launch & observed & Hl & Hst & _ & _ & _ & row & _ & Hdb & _).
    exists launch, row. auto.
  - exfalso. revert E. unfold confirmBuy, getLaunchById, updateLaunch.
    repeat match goal with
           | |- context [match ?o with Some _ => _ | None => _ end] => destruct o
           | |- context [if ?b then _ else _] => destruct b
           end; discriminate.
Qed.

(** X28.  The row of a launch that is not active (graduated, failed) is the
    same after any series of buy confirmations: no buy is applied to it,
    and its status does not go back to active. *)
Lemma confirmBuys_keep_inactive requests : forall db id launch,
  db !! id = Some launch ->
  String.eqb (TokenLaunch.status launch) "active" = false ->
  confirmBuys getParsedTransaction getAssociatedTokenAddressSync isValidSolanaAddress
    requests db !! id = Some launch.
Proof.
  induction requests as [| r rest IH]; intros db id launch Hl Hst; [exact Hl |].
  cbn [confirmBuys]. apply IH; [| exact Hst].
  destruct (confirmBuy_writes db (req_id r) (req_txSignature r) (req_walletAddress r)
              (req_solAmount r) (req_tokensReceived r))
    as [-> | (launch' & row & Hl' & Hact & ->)]; [exact Hl |].
  destruct (decide (req_id r = id)) as [E | Hne].
  - rewrite E, Hl in Hl'. injection Hl' as <-.
    apply String.eqb_neq in Hst. contradiction.
  - rewrite lookup_insert_ne by assumption. exact Hl.
Qed.

End BuySequences.

(** C9.  Applying a sell changes nothing but [volume24h]: after
    [confirmSell], whatever it answers, the table has the same rows, and
    each row has [currentRaised], [status] and every other column as
    before. *)
Theorem confirm_sell_changes_only_volume :
  forall (num : Type) (N : Number num)
         (getParsedTransaction : string -> Completion (option (ParsedTransaction num)))
         (getAssociatedTokenAddressSync : string -> string -> Completion string)
         (isValidSolanaAddress : string -> bool)
         (db : gmap string (TokenLaunch.t num)) (id : string)
         (txSignature : option string) (walletAddress : string)
         (tokenAmount solReceived : num) (other : string),
    let db' := snd (confirmSell getParsedTransaction getAssociatedTokenAddressSync
                      isValidSolanaAddress db id txSignature walletAddress
                      tokenAmount solReceived) in
    match db !! other, db' !! other with
    | Some before, Some after => sameExceptVolume24h before after
    | None, None => True
    | _, _ => False
    end.
Proof.
  intros num N chain ata isValid db id txSignature walletAddress tokenAmount
    solReceived other db'.
  destruct (confirmSell_writes_volume chain ata isValid db id txSignature
              walletAddress tokenAmount solReceived)
    as [E | (launch & v & Hl & E)]; subst db'; rewrite E.
  - destruct (db !! other); [apply sameExceptVolume24h_refl | exact I].
  - destruct (decide (id = other)) as [<- | Hne].
    + rewrite lookup_insert_eq, Hl. apply sameExceptVolume24h_update.
    + rewrite lookup_insert_ne by assumption.
      destruct (db !! other); [apply sameExceptVolume24h_refl | exact I].
Qed.

(** For a well-formed request [confirmSell] does not read the status of
    the launch: it verifies the transaction on chain, writes the new volume
    and answers with success when the verification is valid and the new
    volume is a number the integer column takes, answers 500 and writes
    nothing when it is valid and the column does not take the new volume,
    and answers 400 when it is not valid.  [confirmBuy] on a launch that is
    not active answers 400 and writes nothing, without regard to the
    chain. *)
Lemma confirmSell_on_any_status :
  forall (num : Type) (N : Number num)
         (getParsedTransaction : string -> Completion (option (ParsedTransaction num)))
         (getAssociatedTokenAddressSync : string -> string -> Completion string)
         (isValidSolanaAddress : string -> bool)
         (db : gmap string (TokenLaunch.t num)) (id txSignature walletAddress : string)
         (a b : num) (launch : TokenLaunch.t num),
    wellFormed isValidSolanaAddress txSignature walletAddress a b ->
    db !! id = Some launch ->
    (let verification :=
       verifyTradeTransaction getParsedTransaction getAssociatedTokenAddressSync
         {| signature := txSignature; expectedWallet := walletAddress;
            expectedMint := TokenLaunch.mintAddress launch;
            expectedSolAmount := b; isBuy := false |} in
     confirmSell getParsedTransaction getAssociatedTokenAddressSync
       isValidSolanaAddress db id (Some txSignature) walletAddress a b
     = if TradeVerification.valid verification then
         let received := orDefault (TradeVerification.solAmount verification) b in
         let volume24h :=
           (orDefault (TokenLaunch.volume24h launch) (lit 0) + received * lit 150)%js in
         if isInt4 volume24h then
           let row :=
             applyUpdates
               {| set_currentRaised := None; set_status := None; set_holders := None;
                  set_volume24h := Some volume24h |} launch in
           (SellConfirmed txSignature received a (Some row), <[id := row]> db)
         else
           (Failure 500 "Failed to confirm sell transaction" None, db)
       else
         (Failure 400 "Transaction verification failed"
            (TradeVerification.error verification), db))
    /\
    (String.eqb (TokenLaunch.status launch) "active" = false ->
     confirmBuy getParsedTransaction getAssociatedTokenAddressSync
       isValidSolanaAddress db id (Some txSignature) walletAddress a b
     = (Failure 400 "Token has graduated or is not active" None, db)).
Proof.
  intros num N chain ata isValid db id txSignature walletAddress a b launch Hwf Hl.
  split.
  - destruct Hwf as (Hs & Hw & Hfa & Hpa & Hfb & Hpb).
    cbv zeta. unfold confirmSell, getLaunchById, updateLaunch, accepted.
    rewrite Hs, Hw, Hfa, Hpa, Hfb, Hpb, Hl.
    cbn [negb orb andb isSet from_option set_currentRaised set_status set_holders
         set_volume24h].
    destruct (TradeVerification.valid _); cbn [negb]; [| reflexivity].
    destruct (isInt4 _); [| reflexivity].
    rewrite lookup_alter_eq, Hl. cbn [fmap option_fmap option_map].
    f_equal. apply map_eq. intros j. destruct (decide (id = j)) as [<- | Hne].
    + rewrite lookup_alter_eq, lookup_insert_eq, Hl. reflexivity.
    + rewrite lookup_alter_ne, lookup_insert_ne by assumption. reflexivity.
  - intros Hst. eapply confirmBuy_not_active; eassumption.
Qed.

(** C10 (evaluation at the failing input).  On a graduated launch a sell in
    which the wallet receives exactly 1 SOL is verified, applied and
    answered with success, so the status is not required to be active.  But
    a sell in which it receives 0.999995 SOL (1 SOL less a fee of 5000
    lamports), confirmed with [solReceived = 1], is verified as valid and
    then not applied: the new volume, 149.99925, is not a whole number, the
    integer column refuses it, and the handler answers 500. *)
Theorem confirm_sell_on_graduated_launch_fails_on_fractional_volume :
  let db := Sample.table "graduated" (lit 85) in
  let one : float := lit 1 in
  let exact := Sample.trade (lit 2000000000) (lit 3000000000) (lit 9000) (lit 0) in
  let ordinary := Sample.trade (lit 2000000000) (lit 2999995000) (lit 9000) (lit 0) in
  wellFormed Sample.anyAddress "5VERv8" Sample.wallet (lit 9000) one
  /\ (exists row,
        TokenLaunch.status row = "graduated"%string
        /\ TokenLaunch.currentRaised row = lit 85
        /\ TokenLaunch.volume24h row = Some (lit 150)
        /\ confirmSell (Sample.node exact) Sample.tokenAccountOf Sample.anyAddress
             db "launch-1" (Some "5VERv8"%string) Sample.wallet (lit 9000) one
           = (SellConfirmed "5VERv8" one (lit 9000) (Some row),
              <["launch-1"%string := row]> db))
  /\ (exists observed,
        verifyTradeTransaction (Sample.node ordinary) Sample.tokenAccountOf
          (Sample.params one false)
        = TradeVerification.mk true (Some observed) None
            (Some Sample.wallet) (Some Sample.tokenMint) None
        /\ (lit 0.999994 <? observed)%js = true
        /\ (observed <? lit 0.999996)%js = true
        /\ (lit 149.9992 <? lit 0 + observed * lit 150)%js = true
        /\ (lit 0 + observed * lit 150 <? lit 149.9993)%js = true
        /\ isInt4 (lit 0 + observed * lit 150)%js = false
        /\ confirmSell (Sample.node ordinary) Sample.tokenAccountOf Sample.anyAddress
             db "launch-1" (Some "5VERv8"%string) Sample.wallet (lit 9000) one
           = (Failure 500 "Failed to confirm sell transaction" None, db)).
Proof.
  cbv zeta. split; [repeat split; vm_compute; reflexivity |]. split.
  - eexists. repeat split; vm_compute; reflexivity.
  - eexists. split; [vm_compute; reflexivity |].
    repeat split; vm_compute; reflexivity.
Qed.

(** ** The pricing engine *)

(** *** Evaluation in the extended reals *)

Section XRealFacts.
Local Open Scope R_scope.

Lemma cmp_Lt a b : a < b -> XReal.cmp a b = Lt.
Proof.
  intros Hab. unfold XReal.cmp.
  destruct (total_order_T a b) as [[Hlt | Heq] | Hgt]; [reflexivity | lra | lra].
Qed.

Lemma cmp_Eq a b : a = b -> XReal.cmp a b = Eq.
Proof.
  intros Hab. unfold XReal.cmp.
  destruct (total_order_T a b) as [[Hlt | Heq] | Hgt]; [lra | reflexivity | lra].
Qed.

Lemma cmp_Gt a b : b < a -> XReal.cmp a b = Gt.
Proof.
  intros Hab. unfold XReal.cmp.
  destruct (total_order_T a b) as [[Hlt | Heq] | Hgt]; [lra | lra | reflexivity].
Qed.

Lemma div_fin a b : b <> 0 -> XReal.div (XFin a) (XFin b) = XFin (a / b).
Proof.
  intros Hb. cbn. destruct (Rtotal_order b 0) as [Hlt | [Heq | Hgt]].
  - now rewrite cmp_Lt.
  - contradiction.
  - now rewrite cmp_Gt.
Qed.

Lemma log_fin a : 0 < a -> XReal.log (XFin a) = XFin (ln a).
Proof. intros Ha. cbn. now rewrite cmp_Gt. Qed.

Lemma log_negative a : a < 0 -> XReal.log (XFin a) = XNaN.
Proof. intros Ha. cbn. now rewrite cmp_Lt. Qed.

Lemma pow_fin a b : 0 < a -> XReal.pow (XFin a) (XFin b) = XFin (Rpower a b).
Proof.
  intros Ha. cbn. destruct (Rtotal_order b 0) as [Hlt | [Heq | Hgt]].
  - rewrite (cmp_Lt b 0), (cmp_Gt a 0) by assumption. reflexivity.
  - rewrite (cmp_Eq b 0) by assumption. subst b.
    now rewrite Rpower_O.
  - rewrite (cmp_Gt b 0), (cmp_Gt a 0) by assumption. reflexivity.
Qed.

Lemma leb_fin a b : XReal.leb (XFin a) (XFin b) = true <-> a <= b.
Proof.
  unfold XReal.leb. cbn.
  destruct (Rtotal_order a b) as [Hlt | [Heq | Hgt]].
  - rewrite cmp_Lt by assumption. cbn. split; [lra | reflexivity].
  - rewrite cmp_Eq by assumption. cbn. split; [lra | reflexivity].
  - rewrite cmp_Gt by assumption. cbn. split; [discriminate | lra].
Qed.

Lemma lit_fin q : @lit xreal _ q = XFin (Q2R q).
Proof. reflexivity. Qed.

End XRealFacts.

(** Rewrites the numeric operations of the interface into those of the
    extended reals, and the literals into reals. *)
Ltac xreal_ops :=
  cbn [nadd nsub nmul ndiv nneg nltb nleb neqb isNaN isFinite
       Math_abs Math_min Math_max Math_floor Math_pow Math_log
       xreal_Number xreal_Transcendental];
  rewrite ?lit_fin.

(** [field] and [nra] want the decimal literals as quotients of integers. *)
Ltac decimals := unfold Q2R in *; cbn [Qnum Qden] in *.

Section PricingFacts.
Local Open Scope R_scope.
Local Open Scope string_scope.

Variables (totalSupply targetRaised : R).
Hypothesis supply_positive : 0 < totalSupply.
Hypothesis target_positive : 0 < targetRaised.

Lemma initialPrice_positive : 0 < targetRaised / (0.8 * totalSupply).
Proof. apply Rdiv_lt_0_compat; lra. Qed.

Lemma progress_nonneg currentRaised :
  0 <= currentRaised -> 0 <= currentRaised / targetRaised.
Proof. intros Hc. now apply Rle_mult_inv_pos. Qed.

Lemma getCurrentPrice_linear currentRaised :
  getCurrentPrice (XFin currentRaised) "linear" (XFin totalSupply) (XFin targetRaised)
  = XFin (targetRaised / (0.8 * totalSupply)
          * (1 + 0.5 * (currentRaised / targetRaised))).
Proof.
  unfold getCurrentPrice. cbn [String.eqb Ascii.eqb Bool.eqb].
  xreal_ops. cbn [XReal.mul].
  rewrite !div_fin by lra. cbn [XReal.mul XReal.add].
  f_equal. decimals. field. lra.
Qed.

Lemma getCurrentPrice_exponential currentRaised :
  getCurrentPrice (XFin currentRaised) "exponential" (XFin totalSupply) (XFin targetRaised)
  = XFin (targetRaised / (0.8 * totalSupply)
          * Rpower (1 + 2) (currentRaised / targetRaised)).
Proof.
  unfold getCurrentPrice. cbn [String.eqb Ascii.eqb Bool.eqb].
  xreal_ops. cbn [XReal.mul XReal.add].
  rewrite !div_fin by lra. rewrite pow_fin by lra. cbn [XReal.mul].
  replace (Q2R 1 + Q2R 2) with (1 + 2) by lra.
  replace (totalSupply * 0.8) with (0.8 * totalSupply) by lra.
  reflexivity.
Qed.

Lemma getCurrentPrice_logarithmic currentRaised :
  0 < 1 + currentRaised / targetRaised ->
  getCurrentPrice (XFin currentRaised) "logarithmic" (XFin totalSupply) (XFin targetRaised)
  = XFin (targetRaised / (0.8 * totalSupply)
          * (1 + 10 * ln (1 + currentRaised / targetRaised))).
Proof.
  intros Hp.
  unfold getCurrentPrice. cbn [String.eqb Ascii.eqb Bool.eqb].
  xreal_ops. cbn [XReal.mul XReal.add].
  rewrite !div_fin by lra. cbn [XReal.add]. rewrite log_fin by lra.
  cbn [XReal.mul XReal.add].
  replace (Q2R 1 + currentRaised / targetRaised)
    with (1 + currentRaised / targetRaised) by lra.
  replace (totalSupply * 0.8) with (0.8 * totalSupply) by lra.
  f_equal. lra.
Qed.

(** The three prices as functions of the progress. *)
Lemma linear_price_monotone p1 p2 :
  p1 <= p2 ->
  targetRaised / (0.8 * totalSupply) * (1 + 0.5 * p1)
  <= targetRaised / (0.8 * totalSupply) * (1 + 0.5 * p2).
Proof.
  intros Hp. pose proof initialPrice_positive as Hi.
  apply Rmult_le_compat_l; lra.
Qed.

Lemma exponential_price_monotone p1 p2 :
  p1 <= p2 ->
  targetRaised / (0.8 * totalSupply) * Rpower (1 + 2) p1
  <= targetRaised / (0.8 * totalSupply) * Rpower (1 + 2) p2.
Proof.
  intros Hp. pose proof initialPrice_positive as Hi.
  apply Rmult_le_compat_l; [lra |].
  apply Rle_Rpower; lra.
Qed.

Lemma logarithmic_price_monotone p1 p2 :
  0 < 1 + p1 -> p1 < p2 ->
  targetRaised / (0.8 * totalSupply) * (1 + 10 * ln (1 + p1))
  <= targetRaised / (0.8 * totalSupply) * (1 + 10 * ln (1 + p2)).
Proof.
  intros H1 Hp. pose proof initialPrice_positive as Hi.
  apply Rmult_le_compat_l; [lra |].
  assert (ln (1 + p1) < ln (1 + p2)) by (apply ln_increasing; lra).
  lra.
Qed.

End PricingFacts.

(** In exact arithmetic, a confirmed buy whose observed amount is not below
    zero does not lower [currentRaised]. *)
Lemma confirmBuy_raised_not_below
    (getParsedTransaction : string -> Completion (option (ParsedTransaction xreal)))
    (getAssociatedTokenAddressSync : string -> string -> Completion string)
    (isValidSolanaAddress : string -> bool)
    db id txSignature walletAddress (solAmount tokensReceived : xreal)
    graduated sig added received updated db' :
  confirmBuy getParsedTransaction getAssociatedTokenAddressSync isValidSolanaAddress
    db id txSignature walletAddress solAmount tokensReceived
    = (BuyConfirmed graduated sig added received updated, db') ->
  exists launch observed row,
    db !! id = Some launch
    /\ db' !! id = Some row
    /\ TradeVerification.solAmount
         (verifyTradeTransaction getParsedTransaction getAssociatedTokenAddressSync
            {| signature := sig; expectedWallet := walletAddress;
               expectedMint := TokenLaunch.mintAddress launch;
               expectedSolAmount := solAmount; isBuy := true |})
       = Some observed
    /\ ((lit 0 <=? observed)%js = true ->
        isFinite (TokenLaunch.currentRaised launch) = true ->
        (TokenLaunch.currentRaised launch <=? TokenLaunch.currentRaised row)%js = true).
Proof.
  intros E.
  destruct (confirmBuy_confirmed_claim _ _ _ _ _ _ _ _ _ _ _ _ _ _ _ E) as [Hfin Hpos].
  destruct (confirmBuy_confirmed _ _ _ _ _ _ _ _ _ _ _ _ _ _ _ E)
    as (launch & observed & Hl & _ & Hver & Hadd & _ & row & _ & Hdb & Hrow & _).
  exists launch, observed, row.
  split; [exact Hl |]. split; [subst db'; apply lookup_insert_eq |].
  split; [now rewrite Hver |].
  intros Hobs Hraised. rewrite Hrow, Hadd.
  destruct solAmount as [s | | |]; try discriminate Hfin.
  destruct (TokenLaunch.currentRaised launch) as [c | | |]; try discriminate Hraised.
  assert (Hs : (0 < s)%R).
  { destruct (Rle_or_lt s 0) as [Hle | Hlt]; [| exact Hlt].
    apply leb_fin in Hle. cbn [nleb xreal_Number] in Hpos. rewrite lit_fin in Hpos.
    replace (Q2R 0) with 0%R in Hpos by lra. congruence. }
  destruct observed as [o | | |]; try discriminate Hobs.
  - cbn [nleb xreal_Number] in Hobs. rewrite lit_fin in Hobs. apply leb_fin in Hobs.
    unfold orElse, truthy. cbn [neqb isNaN xreal_Number XReal.isNaN XReal.eqb].
    rewrite lit_fin, orb_false_r.
    destruct (Rtotal_order o (Q2R 0)) as [Hlt | [Heq | Hgt]].
    + lra.
    + rewrite cmp_Eq by assumption. cbn [negb nadd nleb XReal.add].
      apply leb_fin. lra.
    + rewrite cmp_Gt by assumption. cbn [negb nadd nleb XReal.add].
      apply leb_fin. lra.
  - reflexivity.
Qed.

(** C6.  With [p = currentRaised / fundraisingTarget] and
    [initialPrice = fundraisingTarget / (0.8 * totalSupply)], the price of a
    launch with a positive supply and target is [initialPrice * (1 + 0.5 * p)]
    on the linear curve, [initialPrice * (1 + 2)^p] on the exponential curve
    and [initialPrice * (1 + 10 * ln (1 + p))] on the logarithmic curve, the
    last for the raised amount of a launch, which is not negative. *)
Theorem current_price_formulas :
  forall currentRaised totalSupply fundraisingTarget : R,
    (0 < totalSupply)%R ->
    (0 < fundraisingTarget)%R ->
    let p := (currentRaised / fundraisingTarget)%R in
    let initialPrice := (fundraisingTarget / (0.8 * totalSupply))%R in
    getCurrentPrice (XFin currentRaised) "linear"
      (XFin totalSupply) (XFin fundraisingTarget)
    = XFin (initialPrice * (1 + 0.5 * p))
    /\
    getCurrentPrice (XFin currentRaised) "exponential"
      (XFin totalSupply) (XFin fundraisingTarget)
    = XFin (initialPrice * Rpower (1 + 2) p)
    /\
    ((0 <= currentRaised)%R ->
     getCurrentPrice (XFin currentRaised) "logarithmic"
       (XFin totalSupply) (XFin fundraisingTarget)
     = XFin (initialPrice * (1 + 10 * ln (1 + p)))).
Proof.
  intros currentRaised totalSupply fundraisingTarget Hs Ht p initialPrice.
  split; [| split].
  - now apply getCurrentPrice_linear.
  - now apply getCurrentPrice_exponential.
  - intros Hc. apply getCurrentPrice_logarithmic; try assumption.
    pose proof (progress_nonneg fundraisingTarget Ht currentRaised Hc). lra.
Qed.

Lemma current_price_formulas_witness :
  ((0 < 1000000000)%R /\ (0 < 85)%R /\ (0 <= 42.5)%R)
  /\
  getCurrentPrice (XFin 42.5) "linear" (XFin 1000000000) (XFin 85)
  = XFin (85 / (0.8 * 1000000000) * (1 + 0.5 * (42.5 / 85)))
  /\
  getCurrentPrice (XFin 42.5) "exponential" (XFin 1000000000) (XFin 85)
  = XFin (85 / (0.8 * 1000000000) * Rpower (1 + 2) (42.5 / 85))
  /\
  getCurrentPrice (XFin 42.5) "logarithmic" (XFin 1000000000) (XFin 85)
  = XFin (85 / (0.8 * 1000000000) * (1 + 10 * ln (1 + 42.5 / 85))).
Proof.
  assert (Hs : (0 < 1000000000)%R) by lra.
  assert (Ht : (0 < 85)%R) by lra.
  assert (Hc : (0 <= 42.5)%R) by lra.
  split; [repeat split; assumption |].
  destruct (current_price_formulas 42.5 1000000000 85 Hs Ht) as (Hlin & Hexp & Hlog).
  split; [exact Hlin |]. split; [exact Hexp |]. exact (Hlog Hc).
Defined.

(** C7.  On each of the three curves, with the supply and the target fixed
    and positive, the price does not decrease with the progress: a progress
    [p2] above [p1], both between 0 and 2, gives a price at least as high. *)
Theorem price_monotone_in_progress :
  forall (curveType : string) (totalSupply fundraisingTarget raised1 raised2 : R),
    In curveType ["linear"; "exponential"; "logarithmic"]%string ->
    (0 < totalSupply)%R ->
    (0 < fundraisingTarget)%R ->
    let p1 := (raised1 / fundraisingTarget)%R in
    let p2 := (raised2 / fundraisingTarget)%R in
    (0 <= p1)%R -> (p1 < p2)%R -> (p2 <= 2)%R ->
    (getCurrentPrice (XFin raised1) curveType (XFin totalSupply) (XFin fundraisingTarget)
     <=? getCurrentPrice (XFin raised2) curveType (XFin totalSupply) (XFin fundraisingTarget))%js
    = true.
Proof.
  intros curveType totalSupply fundraisingTarget raised1 raised2 Hin Hs Ht p1 p2
    H0 H12 H2.
  cbn [nleb xreal_Number].
  destruct Hin as [<- | [<- | [<- | []]]].
  - rewrite !getCurrentPrice_linear by assumption.
    apply leb_fin. apply linear_price_monotone; [assumption .. |]. subst p1 p2. lra.
  - rewrite !getCurrentPrice_exponential by assumption.
    apply leb_fin. apply exponential_price_monotone; [assumption .. |]. subst p1 p2. lra.
  - rewrite !getCurrentPrice_logarithmic by (try assumption; subst p1 p2; lra).
    apply leb_fin. apply logarithmic_price_monotone; try assumption; subst p1 p2; lra.
Qed.

Lemma price_monotone_in_progress_witness :
  (In "logarithmic"%string ["linear"; "exponential"; "logarithmic"]%string
   /\ (0 < 1000000000)%R /\ (0 < 85)%R
   /\ (0 <= 17 / 85)%R /\ (17 / 85 < 170 / 85)%R /\ (170 / 85 <= 2)%R)
  /\
  (getCurrentPrice (XFin 17) "logarithmic" (XFin 1000000000) (XFin 85)
   <=? getCurrentPrice (XFin 170) "logarithmic" (XFin 1000000000) (XFin 85))%js
  = true.
Proof.
  assert (Hin : In "logarithmic"%string ["linear"; "exponential"; "logarithmic"]%string)
    by (cbn; tauto).
  assert (Hs : (0 < 1000000000)%R) by lra.
  assert (Ht : (0 < 85)%R) by lra.
  assert (H0 : (0 <= 17 / 85)%R) by lra.
  assert (H12 : (17 / 85 < 170 / 85)%R) by lra.
  assert (H2 : (170 / 85 <= 2)%R) by lra.
  split; [repeat split; assumption |].
  exact (price_monotone_in_progress "logarithmic" 1000000000 85 17 170
           Hin Hs Ht H0 H12 H2).
Defined.

(** *** Sell quotes *)

Ltac xreal_eval :=
  repeat (cbn [XReal.add XReal.sub XReal.neg XReal.mul XReal.min XReal.max
               XReal.abs XReal.floor];
          try rewrite div_fin by lra).

Section SellFacts.
Local Open Scope R_scope.
Local Open Scope string_scope.

(** The clamp to [currentRaised], the fee and the floor at 0, on a gross
    amount that is a real number. *)
Lemma clamped_net_bounds gross currentRaised :
  0 <= currentRaised ->
  0 <= Rmax (Rmin gross currentRaised
             + - (Rmin gross currentRaised * Q2R 0.0025)) (Q2R 0)
    <= currentRaised.
Proof.
  intros Hc. unfold Rmax, Rmin.
  destruct (Rle_dec gross currentRaised);
    match goal with |- context [Rle_dec ?a ?b] => destruct (Rle_dec a b) end; lra.
Qed.

(** X8.  A sell quote is between 0 and [currentRaised] wherever the curve is
    defined: always on the linear and the exponential curve (and for a
    curve type that is none of the three), and on the logarithmic curve
    for an amount below the tokens sold plus the tokens on the curve. *)
Lemma sell_quote_bounded curveType tokenAmount currentRaised totalSupply targetRaised :
  0 < totalSupply -> 0 < targetRaised -> 0 <= currentRaised ->
  (curveType = "logarithmic" ->
   tokenAmount < totalSupply * 0.8 * (currentRaised / targetRaised) + totalSupply * 0.8) ->
  exists s,
    amountOut (getSellQuote (XFin tokenAmount) (XFin currentRaised) curveType
                 (XFin totalSupply) (XFin targetRaised)) = XFin s
    /\ 0 <= s <= currentRaised.
Proof.
  intros Hs Ht Hc Hlog.
  pose proof (progress_nonneg targetRaised Ht currentRaised Hc) as Hp.
  unfold getSellQuote, calculateSellPrice. cbn [amountOut].
  destruct (String.eqb curveType "linear") eqn:Elin;
    [| destruct (String.eqb curveType "exponential") eqn:Eexp;
       [| destruct (String.eqb curveType "logarithmic") eqn:Elog]];
    cbn [solOut]; xreal_ops.
  - xreal_eval. eexists. split; [reflexivity |]. now apply clamped_net_bounds.
  - xreal_eval. rewrite !pow_fin by lra.
    xreal_eval. eexists. split; [reflexivity |]. now apply clamped_net_bounds.
  - apply String.eqb_eq in Elog. specialize (Hlog Elog).
    xreal_eval. rewrite (log_fin (Q2R 1 + currentRaised / targetRaised)) by lra.
    assert (Hend : 0 < Q2R 1 + (totalSupply * 0.8 * (currentRaised / targetRaised)
                                + - tokenAmount) / (totalSupply * 0.8)).
    { replace (Q2R 1 + (totalSupply * 0.8 * (currentRaised / targetRaised)
                        + - tokenAmount) / (totalSupply * 0.8))
        with ((totalSupply * 0.8 + totalSupply * 0.8 * (currentRaised / targetRaised)
               - tokenAmount) / (totalSupply * 0.8))
        by (decimals; field; lra).
      apply Rdiv_lt_0_compat; lra. }
    rewrite log_fin by exact Hend.
    xreal_eval. eexists. split; [reflexivity |]. now apply clamped_net_bounds.
  - xreal_eval. eexists. split; [reflexivity |]. now apply clamped_net_bounds.
Qed.

End SellFacts.

(** C8 (evaluation at the failing input).  On a fresh logarithmic launch
    (nothing raised, supply 1_000_000_000, target 85) the sell quote for
    900_000_000 tokens takes the logarithm of [1 + (-1.125)], which is NaN,
    and neither [Math.min] nor [Math.max] removes it: the SOL output of the
    quote is NaN, not a number between 0 and [currentRaised]. *)
Theorem sell_quote_nan_on_logarithmic_oversell :
  let quote :=
    getSellQuote (num := xreal) (lit 900000000) (lit 0) "logarithmic"
      (lit 1000000000) (lit 85) in
  amountOut quote = XNaN
  /\ (lit 0 <=? amountOut quote)%js = false
  /\ (amountOut quote <=? lit 0)%js = false.
Proof.
  cbv zeta.
  assert (E : amountOut (getSellQuote (num := xreal) (lit 900000000) (lit 0)
                           "logarithmic" (lit 1000000000) (lit 85)) = XNaN).
  { unfold getSellQuote, calculateSellPrice.
    cbn [amountOut solOut String.eqb Ascii.eqb Bool.eqb]. xreal_ops.
    xreal_eval.
    rewrite (log_fin (Q2R 1 + Q2R 0 / Q2R 85)) by lra.
    rewrite log_negative by lra.
    reflexivity. }
  rewrite E. repeat split.
Qed.

(** *** Buy quotes *)

(** An inequality between two closed expressions with divisions. *)
Ltac constants_le :=
  decimals;
  match goal with
  | |- (?a <= ?b)%R => field_simplify a; field_simplify b
  end;
  lra.

(** C5.  For [totalSupply = 1_000_000_000], [fundraisingTarget = 85], the
    linear curve, nothing raised and [solAmount = 1.0], [getBuyQuote]
    returns the fee 0.0025 and an [amountOut] within 0.1% of
    [netS / ((priceStart + priceEnd) / 2)], where [netS = 0.9975],
    [priceStart = 85 / (0.8 * 1e9) = 1.0625e-7] and
    [priceEnd = priceStart * (1 + 0.5 * (netS / 85))].  The quote is computed
    in binary64, as the program does. *)
Theorem buy_quote_linear_scenario :
  forall (T : Transcendental float),
    let quote :=
      getBuyQuote (num := float) (lit 1) (lit 0) "linear" (lit 1000000000) (lit 85) in
    let netS : float := lit 0.9975 in
    let priceStart : float := (lit 85 / (lit 0.8 * lit 1000000000))%js in
    let priceEnd : float := (priceStart * (lit 1 + lit 0.5 * (netS / lit 85)))%js in
    let closedForm : float := (netS / ((priceStart + priceEnd) / lit 2))%js in
    fee quote = lit 0.0025
    /\ priceStart = lit 1.0625e-7
    /\ amountOut quote = lit 9360772
    /\ (Math_abs (amountOut quote - closedForm) <=? lit 0.001 * closedForm)%js = true.
Proof.
  intros T. cbv zeta. repeat split; vm_compute; reflexivity.
Qed.

(** The same scenario in exact arithmetic: the fee is 0.0025 and the tokens
    out are the integer part of the closed form, less than one token, and
    so less than 0.1%, below it. *)
Lemma buy_quote_linear_scenario_exact :
  let quote :=
    getBuyQuote (num := xreal) (lit 1) (lit 0) "linear" (lit 1000000000) (lit 85) in
  let netS := 0.9975%R in
  let priceStart := (85 / (0.8 * 1000000000))%R in
  let priceEnd := (priceStart * (1 + 0.5 * (netS / 85)))%R in
  let closedForm := (netS / ((priceStart + priceEnd) / 2))%R in
  fee quote = XFin 0.0025
  /\ exists out,
       amountOut quote = XFin out
       /\ (Rabs (out - closedForm) <= 0.001 * closedForm)%R.
Proof.
  cbv zeta. unfold getBuyQuote, calculateBuyPrice.
  cbn [fee amountOut buy_fee tokensOut String.eqb Ascii.eqb Bool.eqb].
  unfold PLATFORM_FEE_RATE. xreal_ops. xreal_eval.
  split; [f_equal; lra |].
  eexists. split; [reflexivity |].
  match goal with |- context [Int_part ?x] => set (tokens := x) end.
  assert (Ht : tokens = (0.9975 / ((85 / (0.8 * 1000000000)
                + 85 / (0.8 * 1000000000) * (1 + 0.5 * (0.9975 / 85))) / 2))%R).
  { subst tokens. rewrite Rmin_left; [decimals; field | constants_le]. }
  destruct (base_Int_part tokens) as [Hle Hgt].
  rewrite <- Ht.
  assert (Hbig : (1000 <= tokens)%R) by (rewrite Ht; constants_le).
  apply Rabs_le. lra.
Qed.

(** The oversell of C8 in binary64.  ECMAScript fixes [Math.log] at the two
    arguments the quote takes it at: [+0] at 1 and NaN below zero. *)
Lemma sell_quote_nan_in_binary64 (T : Transcendental float) :
  Math_log 1%float = 0%float ->
  (forall x : float, PrimFloat.ltb x 0 = true -> Math_log x = nan) ->
  let quote :=
    getSellQuote (num := float) (lit 900000000) (lit 0) "logarithmic"
      (lit 1000000000) (lit 85) in
  PrimFloat.is_nan (amountOut quote) = true
  /\ (lit 0 <=? amountOut quote)%js = false
  /\ (amountOut quote <=? lit 0)%js = false.
Proof.
  destruct T as [pow log]. cbn [Math_log]. intros Hone Hneg. cbv zeta.
  match goal with |- context [amountOut ?q] => set (out := amountOut q) end.
  assert (E : out = nan).
  { subst out. vm_compute. rewrite Hone.
    rewrite (Hneg (-0.125)%float) by reflexivity.
    vm_compute. reflexivity. }
  rewrite E. repeat split.
Qed.

(** ** More on the pricing engine *)

(** Rewrites one division of finite numbers whose divisor [nz] proves to
    be other than zero. *)
Ltac xdiv nz :=
  match goal with
  | |- context [XReal.div (XFin ?a) (XFin ?b)] => rewrite (div_fin a b) by nz
  end.

Ltac xreal_steps nz :=
  repeat (cbn [XReal.add XReal.sub XReal.neg XReal.mul XReal.min XReal.max
               XReal.abs XReal.floor];
          try xdiv nz).

Section BuyFacts.
Local Open Scope R_scope.
Local Open Scope string_scope.

Variables (currentRaised solAmount totalSupply targetRaised : R).
Hypothesis supply_positive : 0 < totalSupply.
Hypothesis target_positive : 0 < targetRaised.
Hypothesis raised_nonneg : 0 <= currentRaised.
Hypothesis amount_positive : 0 < solAmount.

Lemma Rpower_positive a b : 0 < Rpower a b.
Proof. unfold Rpower. apply exp_pos. Qed.

Lemma ln_nonneg x : 1 <= x -> 0 <= ln x.
Proof.
  intros Hx. destruct (Req_dec x 1) as [-> | Hne].
  - rewrite ln_1. lra.
  - rewrite <- ln_1. left. apply ln_increasing; lra.
Qed.

(** The shape of a buy on one of the three curves: the tokens before the
    clamp are positive, the price at the end is not below the price at the
    start, which is positive. *)
Lemma calculateBuyPrice_shape curveType :
  In curveType ["linear"; "exponential"; "logarithmic"] ->
  exists tokens startPrice endPrice,
    0 < tokens /\ 0 < startPrice <= endPrice
    /\ calculateBuyPrice (XFin currentRaised) (XFin solAmount) curveType
         (XFin totalSupply) (XFin targetRaised)
       = {| tokensOut :=
              XFin (IZR (Int_part
                (Rmin tokens
                   (totalSupply * 0.8
                    + - (totalSupply * 0.8 * (currentRaised / targetRaised))))));
            buy_priceImpact :=
              XFin (Rmin ((endPrice + - startPrice) / startPrice * Q2R 100) (Q2R 100));
            buy_fee := XFin (solAmount * 0.0025) |}.
Proof.
  intros Hin.
  pose proof (initialPrice_positive totalSupply targetRaised
                supply_positive target_positive) as Hip.
  pose proof (progress_nonneg targetRaised target_positive currentRaised raised_nonneg)
    as Hp.
  assert (Hnet : 0 < solAmount + - (solAmount * 0.0025)) by lra.
  assert (He : currentRaised / targetRaised
               < (currentRaised + (solAmount + - (solAmount * 0.0025))) / targetRaised).
  { unfold Rdiv. apply Rmult_lt_compat_r; [apply Rinv_0_lt_compat; lra | lra]. }
  replace (0.8 * totalSupply) with (totalSupply * 0.8) in Hip by lra.
  unfold calculateBuyPrice, PLATFORM_FEE_RATE.
  destruct Hin as [<- | [<- | [<- | []]]];
    cbn [String.eqb Ascii.eqb Bool.eqb]; xreal_ops; xreal_steps ltac:(lra).
  - set (ip := targetRaised / (totalSupply * 0.8)) in *.
    set (p := currentRaised / targetRaised) in *.
    set (e := (currentRaised + (solAmount + - (solAmount * 0.0025))) / targetRaised) in *.
    set (net := solAmount + - (solAmount * 0.0025)) in *.
    assert (Hcp : 0 < ip + ip * 0.5 * p) by nra.
    assert (Hep : ip + ip * 0.5 * p <= ip + ip * 0.5 * e) by nra.
    xreal_steps ltac:(lra).
    eexists _, _, _. split; [| split; [| reflexivity]].
    + apply Rdiv_lt_0_compat; lra.
    + lra.
  - set (ip := targetRaised / (totalSupply * 0.8)) in *.
    set (p := currentRaised / targetRaised) in *.
    set (e := (currentRaised + (solAmount + - (solAmount * 0.0025))) / targetRaised) in *.
    set (net := solAmount + - (solAmount * 0.0025)) in *.
    rewrite !pow_fin by lra. cbn [XReal.mul XReal.add XReal.neg].
    assert (Hcp : 0 < ip * Rpower (Q2R 1 + Q2R 2) p)
      by (apply Rmult_lt_0_compat; [lra | apply Rpower_positive]).
    assert (Hep : ip * Rpower (Q2R 1 + Q2R 2) p <= ip * Rpower (Q2R 1 + Q2R 2) e).
    { apply Rmult_le_compat_l; [lra |]. apply Rle_Rpower; lra. }
    xreal_steps ltac:(lra).
    eexists _, _, _. split; [| split; [| reflexivity]].
    + apply Rdiv_lt_0_compat; lra.
    + lra.
  - set (ip := targetRaised / (totalSupply * 0.8)) in *.
    set (p := currentRaised / targetRaised) in *.
    set (e := (currentRaised + (solAmount + - (solAmount * 0.0025))) / targetRaised) in *.
    set (net := solAmount + - (solAmount * 0.0025)) in *.
    rewrite (log_fin (Q2R 1 + p)) by lra. rewrite (log_fin (Q2R 1 + e)) by lra.
    cbn [XReal.mul XReal.add XReal.neg].
    assert (Hlp : 0 <= ln (Q2R 1 + p)) by (apply ln_nonneg; lra).
    assert (Hle : ln (Q2R 1 + p) < ln (Q2R 1 + e)) by (apply ln_increasing; lra).
    assert (Hcp : 0 < ip * (Q2R 1 + Q2R 10 * ln (Q2R 1 + p)))
      by (apply Rmult_lt_0_compat; lra).
    assert (Hep : ip * (Q2R 1 + Q2R 10 * ln (Q2R 1 + p))
                  <= ip * (Q2R 1 + Q2R 10 * ln (Q2R 1 + e)))
      by (apply Rmult_le_compat_l; lra).
    xreal_steps ltac:(lra).
    eexists _, _, _. split; [| split; [| reflexivity]].
    + apply Rdiv_lt_0_compat; lra.
    + lra.
Qed.

End BuyFacts.

(** X1.  On each of the three curves, a buy quote for a positive amount on
    a launch with positive supply and target and a raised amount that is not
    negative gives a whole number of tokens that is at most the tokens
    remaining on the curve, [0.8 * totalSupply * (1 - raised / target)], and
    is not negative as long as the raised amount is not above the target. *)
Theorem buy_quote_tokens_within_remaining :
  forall (curveType : string) (currentRaised solAmount totalSupply targetRaised : R),
    In curveType ["linear"; "exponential"; "logarithmic"]%string ->
    (0 < totalSupply)%R -> (0 < targetRaised)%R ->
    (0 <= currentRaised)%R -> (0 < solAmount)%R ->
    exists n : Z,
      amountOut (getBuyQuote (XFin solAmount) (XFin currentRaised) curveType
                   (XFin totalSupply) (XFin targetRaised)) = XFin (IZR n)
      /\ (IZR n <= 0.8 * totalSupply * (1 - currentRaised / targetRaised))%R
      /\ ((currentRaised <= targetRaised)%R -> (0 <= n)%Z).
Proof.
  intros curveType cr s ts tr Hin Hs Ht Hc Ha.
  destruct (calculateBuyPrice_shape cr s ts tr Hs Ht Hc Ha curveType Hin)
    as (tokens & cp & ep & Htok & _ & E).
  unfold getBuyQuote. cbn [amountOut]. rewrite E. cbn [tokensOut].
  eexists. split; [reflexivity |].
  match goal with |- context [Int_part ?x] => set (m := x) end.
  destruct (base_Int_part m) as [Hle Hgt].
  assert (Hm : (m <= ts * 0.8 + - (ts * 0.8 * (cr / tr)))%R)
    by (subst m; apply Rmin_r).
  split; [lra |].
  intros Hle1.
  assert (Hp1 : (cr / tr <= 1)%R).
  { apply Rmult_le_reg_r with tr; [lra |]. unfold Rdiv.
    rewrite Rmult_assoc, Rinv_l by lra. lra. }
  assert (Hm0 : (0 <= m)%R).
  { subst m. apply Rmin_glb; [lra |]. nra. }
  apply Z.lt_succ_r. apply lt_IZR. rewrite succ_IZR. lra.
Qed.

Lemma buy_quote_tokens_within_remaining_witness :
  (In "exponential"%string ["linear"; "exponential"; "logarithmic"]%string
   /\ (0 < 1000000000)%R /\ (0 < 85)%R /\ (0 <= 10)%R /\ (0 < 1)%R)
  /\ exists n : Z,
       amountOut (getBuyQuote (XFin 1) (XFin 10) "exponential"
                    (XFin 1000000000) (XFin 85)) = XFin (IZR n)
       /\ (IZR n <= 0.8 * 1000000000 * (1 - 10 / 85))%R
       /\ ((10 <= 85)%R -> (0 <= n)%Z).
Proof.
  assert (Hin : In "exponential"%string ["linear"; "exponential"; "logarithmic"]%string)
    by (cbn; tauto).
  assert (Hs : (0 < 1000000000)%R) by lra.
  assert (Ht : (0 < 85)%R) by lra.
  assert (Hc : (0 <= 10)%R) by lra.
  assert (Ha : (0 < 1)%R) by lra.
  split; [repeat split; assumption |].
  exact (buy_quote_tokens_within_remaining "exponential" 10 1 1000000000 85
           Hin Hs Ht Hc Ha).
Defined.

(** X2.  Under the same conditions the price impact of a buy quote is a
    percentage between 0 and 100. *)
Theorem buy_quote_price_impact_range :
  forall (curveType : string) (currentRaised solAmount totalSupply targetRaised : R),
    In curveType ["linear"; "exponential"; "logarithmic"]%string ->
    (0 < totalSupply)%R -> (0 < targetRaised)%R ->
    (0 <= currentRaised)%R -> (0 < solAmount)%R ->
    exists impact : R,
      priceImpact (getBuyQuote (XFin solAmount) (XFin currentRaised) curveType
                     (XFin totalSupply) (XFin targetRaised)) = XFin impact
      /\ (0 <= impact <= 100)%R.
Proof.
  intros curveType cr s ts tr Hin Hs Ht Hc Ha.
  destruct (calculateBuyPrice_shape cr s ts tr Hs Ht Hc Ha curveType Hin)
    as (tokens & cp & ep & _ & [Hcp Hep] & E).
  unfold getBuyQuote. cbn [priceImpact]. rewrite E. cbn [buy_priceImpact].
  eexists. split; [reflexivity |].
  assert (Hq : (0 <= (ep + - cp) / cp)%R).
  { apply Rle_mult_inv_pos; lra. }
  split.
  - apply Rmin_glb; [| lra].
    apply Rmult_le_pos; lra.
  - etransitivity; [apply Rmin_r | lra].
Qed.

Lemma buy_quote_price_impact_range_witness :
  (In "logarithmic"%string ["linear"; "exponential"; "logarithmic"]%string
   /\ (0 < 1000000000)%R /\ (0 < 85)%R /\ (0 <= 10)%R /\ (0 < 1)%R)
  /\ exists impact : R,
       priceImpact (getBuyQuote (XFin 1) (XFin 10) "logarithmic"
                      (XFin 1000000000) (XFin 85)) = XFin impact
       /\ (0 <= impact <= 100)%R.
Proof.
  assert (Hin : In "logarithmic"%string ["linear"; "exponential"; "logarithmic"]%string)
    by (cbn; tauto).
  assert (Hs : (0 < 1000000000)%R) by lra.
  assert (Ht : (0 < 85)%R) by lra.
  assert (Hc : (0 <= 10)%R) by lra.
  assert (Ha : (0 < 1)%R) by lra.
  split; [repeat split; assumption |].
  exact (buy_quote_price_impact_range "logarithmic" 10 1 1000000000 85
           Hin Hs Ht Hc Ha).
Defined.

(** X3.  Under the same conditions the fee of a buy quote is 0.25% of the
    amount in, the new price is the price after the amount less the fee is
    raised, and it is not below the current price. *)
Theorem buy_quote_raises_price :
  forall (curveType : string) (currentRaised solAmount totalSupply targetRaised : R),
    In curveType ["linear"; "exponential"; "logarithmic"]%string ->
    (0 < totalSupply)%R -> (0 < targetRaised)%R ->
    (0 <= currentRaised)%R -> (0 < solAmount)%R ->
    let quote := getBuyQuote (XFin solAmount) (XFin currentRaised) curveType
                   (XFin totalSupply) (XFin targetRaised) in
    fee quote = XFin (solAmount * 0.0025)
    /\ newPrice quote
       = getCurrentPrice (XFin (currentRaised + solAmount - solAmount * 0.0025))
           curveType (XFin totalSupply) (XFin targetRaised)
    /\ (currentPrice quote <=? newPrice quote)%js = true.
Proof.
  intros curveType cr s ts tr Hin Hs Ht Hc Ha quote.
  assert (Hnew : newPrice quote
                 = getCurrentPrice (XFin (cr + s - s * 0.0025)) curveType
                     (XFin ts) (XFin tr)).
  { subst quote. unfold getBuyQuote, calculateBuyPrice, PLATFORM_FEE_RATE.
    cbn [newPrice]. destruct Hin as [<- | [<- | [<- | []]]];
      cbn [String.eqb Ascii.eqb Bool.eqb buy_fee]; xreal_ops;
      cbn [XReal.add XReal.sub XReal.mul XReal.neg];
      do 2 f_equal; lra. }
  split; [| split; [exact Hnew |]].
  - subst quote. unfold getBuyQuote, calculateBuyPrice, PLATFORM_FEE_RATE.
    cbn [fee]. destruct Hin as [<- | [<- | [<- | []]]];
      cbn [String.eqb Ascii.eqb Bool.eqb buy_fee]; xreal_ops; reflexivity.
  - rewrite Hnew. subst quote. unfold getBuyQuote. cbn [currentPrice].
    pose proof (progress_nonneg tr Ht cr Hc) as Hp.
    assert (He : (cr / tr < (cr + s - s * 0.0025) / tr)%R).
    { unfold Rdiv. apply Rmult_lt_compat_r; [apply Rinv_0_lt_compat; lra | lra]. }
    cbn [nleb xreal_Number].
    destruct Hin as [<- | [<- | [<- | []]]].
    + rewrite !getCurrentPrice_linear by assumption.
      apply leb_fin. apply linear_price_monotone; [assumption .. | lra].
    + rewrite !getCurrentPrice_exponential by assumption.
      apply leb_fin. apply exponential_price_monotone; [assumption .. | lra].
    + rewrite !getCurrentPrice_logarithmic by (try assumption; lra).
      apply leb_fin. apply logarithmic_price_monotone; try assumption; lra.
Qed.

Lemma buy_quote_raises_price_witness :
  (In "linear"%string ["linear"; "exponential"; "logarithmic"]%string
   /\ (0 < 1000000000)%R /\ (0 < 85)%R /\ (0 <= 10)%R /\ (0 < 1)%R)
  /\
  (let quote := getBuyQuote (XFin 1) (XFin 10) "linear"
                  (XFin 1000000000) (XFin 85) in
   fee quote = XFin (1 * 0.0025)
   /\ newPrice quote
      = getCurrentPrice (XFin (10 + 1 - 1 * 0.0025)) "linear"
          (XFin 1000000000) (XFin 85)
   /\ (currentPrice quote <=? newPrice quote)%js = true).
Proof.
  assert (Hin : In "linear"%string ["linear"; "exponential"; "logarithmic"]%string)
    by (cbn; tauto).
  assert (Hs : (0 < 1000000000)%R) by lra.
  assert (Ht : (0 < 85)%R) by lra.
  assert (Hc : (0 <= 10)%R) by lra.
  assert (Ha : (0 < 1)%R) by lra.
  split; [repeat split; assumption |].
  exact (buy_quote_raises_price "linear" 10 1 1000000000 85 Hin Hs Ht Hc Ha).
Defined.

Section SellWithinSold.
Local Open Scope R_scope.
Local Open Scope string_scope.

Variables (currentRaised tokenAmount totalSupply targetRaised : R).
Hypothesis supply_positive : 0 < totalSupply.
Hypothesis target_positive : 0 < targetRaised.
Hypothesis raised_nonneg : 0 <= currentRaised.
Hypothesis amount_positive : 0 < tokenAmount.
Hypothesis amount_sold :
  tokenAmount <= totalSupply * 0.8 * (currentRaised / targetRaised).

(** The progress after the sale is not negative and below the progress
    before it. *)
Lemma end_progress_bounds :
  0 <= (totalSupply * 0.8 * (currentRaised / targetRaised) + - tokenAmount)
       / (totalSupply * 0.8)
    < currentRaised / targetRaised.
Proof.
  replace ((totalSupply * 0.8 * (currentRaised / targetRaised) + - tokenAmount)
           / (totalSupply * 0.8))
    with (currentRaised / targetRaised - tokenAmount / (totalSupply * 0.8))
    by (decimals; field; lra).
  assert (0 < tokenAmount / (totalSupply * 0.8))
    by (apply Rdiv_lt_0_compat; lra).
  assert (tokenAmount / (totalSupply * 0.8) <= currentRaised / targetRaised).
  { apply Rmult_le_reg_r with (totalSupply * 0.8); [lra |].
    unfold Rdiv at 1. rewrite Rmult_assoc, Rinv_l by lra. lra. }
  lra.
Qed.

(** The shape of a sale of tokens that were sold before, on one of the
    three curves: the gross proceeds are positive, the price at the end is
    positive and not above the price at the start. *)
Lemma calculateSellPrice_shape curveType :
  In curveType ["linear"; "exponential"; "logarithmic"] ->
  exists gross startPrice endPrice,
    0 < gross /\ 0 < endPrice <= startPrice
    /\ calculateSellPrice (XFin currentRaised) (XFin tokenAmount) curveType
         (XFin totalSupply) (XFin targetRaised)
       = {| solOut :=
              XFin (Rmax (Rmin gross currentRaised
                          + - (Rmin gross currentRaised * 0.0025)) (Q2R 0));
            sell_priceImpact :=
              XFin (Rmin (Rabs ((startPrice + - endPrice) / startPrice * Q2R 100))
                      (Q2R 100));
            sell_fee := XFin (Rmin gross currentRaised * 0.0025) |}.
Proof.
  intros Hin.
  pose proof (initialPrice_positive totalSupply targetRaised
                supply_positive target_positive) as Hip.
  pose proof (progress_nonneg targetRaised target_positive currentRaised raised_nonneg)
    as Hp.
  pose proof end_progress_bounds as [He0 Hep].
  replace (0.8 * totalSupply) with (totalSupply * 0.8) in Hip by lra.
  unfold calculateSellPrice, PLATFORM_FEE_RATE.
  destruct Hin as [<- | [<- | [<- | []]]];
    cbn [String.eqb Ascii.eqb Bool.eqb]; xreal_ops; xreal_steps ltac:(lra);
    set (ip := targetRaised / (totalSupply * 0.8)) in *;
    set (p := currentRaised / targetRaised) in *;
    set (e := (totalSupply * 0.8 * p + - tokenAmount) / (totalSupply * 0.8)) in *.
  - assert (Hcp : 0 < ip + ip * 0.5 * e) by nra.
    assert (Hle : ip + ip * 0.5 * e <= ip + ip * 0.5 * p) by nra.
    xreal_steps ltac:(lra).
    eexists _, _, _. split; [| split; [| reflexivity]]; [| lra].
    apply Rmult_lt_0_compat; lra.
  - rewrite !pow_fin by lra. cbn [XReal.mul XReal.add XReal.neg].
    assert (Hcp : 0 < ip * Rpower (Q2R 1 + Q2R 2) e)
      by (apply Rmult_lt_0_compat; [lra | apply Rpower_positive]).
    assert (Hle : ip * Rpower (Q2R 1 + Q2R 2) e <= ip * Rpower (Q2R 1 + Q2R 2) p).
    { apply Rmult_le_compat_l; [lra |]. apply Rle_Rpower; lra. }
    xreal_steps ltac:(lra).
    eexists _, _, _. split; [| split; [| reflexivity]]; [| lra].
    apply Rmult_lt_0_compat; lra.
  - rewrite (log_fin (Q2R 1 + p)) by lra. rewrite (log_fin (Q2R 1 + e)) by lra.
    cbn [XReal.mul XReal.add XReal.neg].
    assert (Hl0 : 0 <= ln (Q2R 1 + e)) by (apply ln_nonneg; lra).
    assert (Hll : ln (Q2R 1 + e) < ln (Q2R 1 + p)) by (apply ln_increasing; lra).
    assert (Hcp : 0 < ip * (Q2R 1 + Q2R 10 * ln (Q2R 1 + e)))
      by (apply Rmult_lt_0_compat; lra).
    assert (Hle : ip * (Q2R 1 + Q2R 10 * ln (Q2R 1 + e))
                  <= ip * (Q2R 1 + Q2R 10 * ln (Q2R 1 + p)))
      by (apply Rmult_le_compat_l; lra).
    xreal_steps ltac:(lra).
    eexists _, _, _. split; [| split; [| reflexivity]]; [| lra].
    apply Rmult_lt_0_compat; lra.
Qed.

End SellWithinSold.

(** X4.  A sell quote for tokens that were sold before (an amount of at
    most [0.8 * totalSupply * raised / target]) pays out an amount and takes
    a fee that are not negative, the fee is 0.25% of their sum, and the sum
    is at most the raised amount. *)
Theorem sell_quote_fee_and_proceeds :
  forall (curveType : string) (currentRaised tokenAmount totalSupply targetRaised : R),
    In curveType ["linear"; "exponential"; "logarithmic"]%string ->
    (0 < totalSupply)%R -> (0 < targetRaised)%R ->
    (0 <= currentRaised)%R -> (0 < tokenAmount)%R ->
    (tokenAmount <= totalSupply * 0.8 * (currentRaised / targetRaised))%R ->
    let quote := getSellQuote (XFin tokenAmount) (XFin currentRaised) curveType
                   (XFin totalSupply) (XFin targetRaised) in
    exists out charged : R,
      amountOut quote = XFin out /\ fee quote = XFin charged
      /\ (0 <= out)%R /\ (0 <= charged)%R
      /\ (charged = 0.0025 * (out + charged))%R
      /\ (out + charged <= currentRaised)%R.
Proof.
  intros curveType cr q ts tr Hin Hs Ht Hc Hq Hsold quote.
  destruct (calculateSellPrice_shape cr q ts tr Hs Ht Hc Hq Hsold curveType Hin)
    as (gross & cp & ep & Hg & _ & E).
  subst quote. unfold getSellQuote. cbn [amountOut fee]. rewrite E.
  cbn [solOut sell_fee].
  eexists _, _. split; [reflexivity |]. split; [reflexivity |].
  assert (H0 : (0 <= Rmin gross cr)%R) by (apply Rmin_glb; lra).
  assert (H1 : (Rmin gross cr <= cr)%R) by apply Rmin_r.
  rewrite Rmax_left by lra. lra.
Qed.

Lemma sell_quote_fee_and_proceeds_witness :
  (In "linear"%string ["linear"; "exponential"; "logarithmic"]%string
   /\ (0 < 1000000000)%R /\ (0 < 85)%R /\ (0 <= 42.5)%R /\ (0 < 1000000)%R
   /\ (1000000 <= 1000000000 * 0.8 * (42.5 / 85))%R)
  /\
  (let quote := getSellQuote (XFin 1000000) (XFin 42.5) "linear"
                  (XFin 1000000000) (XFin 85) in
   exists out charged : R,
     amountOut quote = XFin out /\ fee quote = XFin charged
     /\ (0 <= out)%R /\ (0 <= charged)%R
     /\ (charged = 0.0025 * (out + charged))%R
     /\ (out + charged <= 42.5)%R).
Proof.
  assert (Hin : In "linear"%string ["linear"; "exponential"; "logarithmic"]%string)
    by (cbn; tauto).
  assert (Hs : (0 < 1000000000)%R) by lra.
  assert (Ht : (0 < 85)%R) by lra.
  assert (Hc : (0 <= 42.5)%R) by lra.
  assert (Hq : (0 < 1000000)%R) by lra.
  assert (Hsold : (1000000 <= 1000000000 * 0.8 * (42.5 / 85))%R) by lra.
  split; [repeat split; assumption |].
  exact (sell_quote_fee_and_proceeds "linear" 42.5 1000000 1000000000 85
           Hin Hs Ht Hc Hq Hsold).
Defined.

(** X5.  For such a sale the price impact is a percentage between 0 and
    100, and the new price of the quote is not above the current price. *)
Theorem sell_quote_lowers_price :
  forall (curveType : string) (currentRaised tokenAmount totalSupply targetRaised : R),
    In curveType ["linear"; "exponential"; "logarithmic"]%string ->
    (0 < totalSupply)%R -> (0 < targetRaised)%R ->
    (0 <= currentRaised)%R -> (0 < tokenAmount)%R ->
    (tokenAmount <= totalSupply * 0.8 * (currentRaised / targetRaised))%R ->
    let quote := getSellQuote (XFin tokenAmount) (XFin currentRaised) curveType
                   (XFin totalSupply) (XFin targetRaised) in
    (exists impact : R,
       priceImpact quote = XFin impact /\ (0 <= impact <= 100)%R)
    /\ (newPrice quote <=? currentPrice quote)%js = true.
Proof.
  intros curveType cr q ts tr Hin Hs Ht Hc Hq Hsold quote.
  destruct (calculateSellPrice_shape cr q ts tr Hs Ht Hc Hq Hsold curveType Hin)
    as (gross & cp & ep & Hg & [Hep Hle] & E).
  pose proof (end_progress_bounds cr q ts tr Hs Ht Hq Hsold) as [He0 He1].
  pose proof (progress_nonneg tr Ht cr Hc) as Hp.
  assert (Hp0 : (0 < cr / tr)%R).
  { apply Rnot_le_lt. intros Hn.
    assert ((ts * 0.8 * (cr / tr) <= 0)%R) by nra. lra. }
  assert (Hcr : (0 < cr)%R).
  { replace cr with (cr / tr * tr)%R by (field; lra).
    apply Rmult_lt_0_compat; lra. }
  subst quote. unfold getSellQuote. cbn [priceImpact newPrice currentPrice].
  rewrite E. cbn [solOut sell_fee sell_priceImpact]. split.
  - eexists. split; [reflexivity |]. split.
    + apply Rmin_glb; [apply Rabs_pos | lra].
    + etransitivity; [apply Rmin_r | lra].
  - assert (H0 : (0 < Rmin gross cr)%R) by (apply Rmin_glb_lt; lra).
    assert (H1 : (Rmin gross cr <= cr)%R) by apply Rmin_r.
    rewrite Rmax_left by lra.
    xreal_ops. cbn [XReal.sub XReal.add XReal.neg XReal.max].
    rewrite Rmax_right by lra.
    set (g := Rmin gross cr) in *.
    set (raisedAfter := (cr + - (g + - (g * 0.0025)) + - (g * 0.0025))%R).
    assert (Hra : (0 <= raisedAfter < cr)%R) by (subst raisedAfter; lra).
    assert (Hpa : (0 <= raisedAfter / tr < cr / tr)%R).
    { split; [apply Rle_mult_inv_pos; lra |].
      unfold Rdiv. apply Rmult_lt_compat_r; [apply Rinv_0_lt_compat; lra | lra]. }
    destruct Hin as [<- | [<- | [<- | []]]].
    + rewrite !getCurrentPrice_linear by assumption.
      apply leb_fin. apply linear_price_monotone; [assumption .. | lra].
    + rewrite !getCurrentPrice_exponential by assumption.
      apply leb_fin. apply exponential_price_monotone; [assumption .. | lra].
    + rewrite !getCurrentPrice_logarithmic by (try assumption; lra).
      apply leb_fin. apply logarithmic_price_monotone; try assumption; lra.
Qed.

Lemma sell_quote_lowers_price_witness :
  (In "exponential"%string ["linear"; "exponential"; "logarithmic"]%string
   /\ (0 < 1000000000)%R /\ (0 < 85)%R /\ (0 <= 42.5)%R /\ (0 < 1000000)%R
   /\ (1000000 <= 1000000000 * 0.8 * (42.5 / 85))%R)
  /\
  (let quote := getSellQuote (XFin 1000000) (XFin 42.5) "exponential"
                  (XFin 1000000000) (XFin 85) in
   (exists impact : R,
      priceImpact quote = XFin impact /\ (0 <= impact <= 100)%R)
   /\ (newPrice quote <=? currentPrice quote)%js = true).
Proof.
  assert (Hin : In "exponential"%string ["linear"; "exponential"; "logarithmic"]%string)
    by (cbn; tauto).
  assert (Hs : (0 < 1000000000)%R) by lra.
  assert (Ht : (0 < 85)%R) by lra.
  assert (Hc : (0 <= 42.5)%R) by lra.
  assert (Hq : (0 < 1000000)%R) by lra.
  assert (Hsold : (1000000 <= 1000000000 * 0.8 * (42.5 / 85))%R) by lra.
  split; [repeat split; assumption |].
  exact (sell_quote_lowers_price "exponential" 42.5 1000000 1000000000 85
           Hin Hs Ht Hc Hq Hsold).
Defined.

(** X6.  On the linear curve a sell quote for more than
    [0.8 * totalSupply * (4 + 2 * raised / target)] tokens has a negative
    fee: the average price is below zero there, the quote pays out nothing,
    and its new price is above the current price. *)
Theorem sell_quote_linear_negative_fee :
  forall (currentRaised tokenAmount totalSupply targetRaised : R),
    (0 < totalSupply)%R -> (0 < targetRaised)%R -> (0 <= currentRaised)%R ->
    (totalSupply * 0.8 * (4 + 2 * (currentRaised / targetRaised)) < tokenAmount)%R ->
    let quote := getSellQuote (XFin tokenAmount) (XFin currentRaised) "linear"
                   (XFin totalSupply) (XFin targetRaised) in
    (exists charged : R, fee quote = XFin charged /\ (charged < 0)%R)
    /\ amountOut quote = XFin 0
    /\ (currentPrice quote <? newPrice quote)%js = true.
Proof.
  intros cr q ts tr Hs Ht Hc Hq quote.
  pose proof (initialPrice_positive ts tr Hs Ht) as Hip.
  pose proof (progress_nonneg tr Ht cr Hc) as Hp.
  replace (0.8 * ts)%R with (ts * 0.8)%R in Hip by lra.
  assert (He : ((ts * 0.8 * (cr / tr) + - q) / (ts * 0.8)
                = cr / tr - q / (ts * 0.8))%R) by (decimals; field; lra).
  assert (Hu : (4 + 2 * (cr / tr) < q / (ts * 0.8))%R).
  { apply Rmult_lt_reg_r with (ts * 0.8)%R; [lra |].
    unfold Rdiv at 2. rewrite Rmult_assoc, Rinv_l by lra. lra. }
  assert (Hq0 : (0 < q)%R) by nra.
  subst quote. unfold getSellQuote, calculateSellPrice, PLATFORM_FEE_RATE.
  cbn [fee amountOut currentPrice newPrice String.eqb Ascii.eqb Bool.eqb
       solOut sell_fee].
  xreal_ops. xreal_steps ltac:(lra). rewrite He.
  set (ip := (tr / (ts * 0.8))%R) in *.
  set (p := (cr / tr)%R) in *.
  set (u := (q / (ts * 0.8))%R) in *.
  set (gross := (q * ((ip + ip * 0.5 * p + (ip + ip * 0.5 * (p - u))) / Q2R 2))%R).
  assert (Hg : (gross < 0)%R).
  { subst gross. assert ((ip + ip * 0.5 * p + (ip + ip * 0.5 * (p - u))) / Q2R 2 < 0)%R
      by nra. nra. }
  rewrite (Rmin_left gross cr) by lra.
  rewrite Rmax_right by lra.
  split; [eexists; split; [reflexivity | lra] |].
  split; [f_equal; lra |].
  cbn [XReal.add XReal.neg]. rewrite Rmax_right by lra.
  rewrite !getCurrentPrice_linear by assumption.
  cbn [nltb xreal_Number XReal.ltb]. rewrite cmp_Lt; [reflexivity |].
  fold p. replace (0.8 * ts)%R with (ts * 0.8)%R by lra. fold ip.
  apply Rmult_lt_compat_l; [lra |].
  assert (p < (cr + - Q2R 0 + - (gross * 0.0025)) / tr)%R; [| lra].
  subst p. unfold Rdiv. apply Rmult_lt_compat_r; [apply Rinv_0_lt_compat; lra | lra].
Qed.

Lemma sell_quote_linear_negative_fee_witness :
  ((0 < 1000000000)%R /\ (0 < 85)%R /\ (0 <= 0)%R
   /\ (1000000000 * 0.8 * (4 + 2 * (0 / 85)) < 4000000000)%R)
  /\
  (let quote := getSellQuote (XFin 4000000000) (XFin 0) "linear"
                  (XFin 1000000000) (XFin 85) in
   (exists charged : R, fee quote = XFin charged /\ (charged < 0)%R)
   /\ amountOut quote = XFin 0
   /\ (currentPrice quote <? newPrice quote)%js = true).
Proof.
  assert (Hs : (0 < 1000000000)%R) by lra.
  assert (Ht : (0 < 85)%R) by lra.
  assert (Hc : (0 <= 0)%R) by lra.
  assert (Hq : (1000000000 * 0.8 * (4 + 2 * (0 / 85)) < 4000000000)%R) by lra.
  split; [repeat split; assumption |].
  exact (sell_quote_linear_negative_fee 0 4000000000 1000000000 85 Hs Ht Hc Hq).
Defined.

(** X7.  With nothing raised the price is the initial price,
    [targetRaised / (0.8 * totalSupply)], whatever the curve type, one of
    the three or not. *)
Theorem price_at_zero_raised_is_initial_price :
  forall (curveType : string) (totalSupply targetRaised : R),
    (0 < totalSupply)%R -> (0 < targetRaised)%R ->
    getCurrentPrice (XFin 0) curveType (XFin totalSupply) (XFin targetRaised)
    = XFin (targetRaised / (0.8 * totalSupply)).
Proof.
  intros curveType ts tr Hs Ht.
  unfold getCurrentPrice.
  destruct (String.eqb curveType "linear");
    [| destruct (String.eqb curveType "exponential");
       [| destruct (String.eqb curveType "logarithmic")]];
    xreal_ops; xreal_steps ltac:(lra).
  - f_equal. decimals. field. lra.
  - rewrite pow_fin by lra. cbn [XReal.mul].
    replace (0 / tr)%R with 0%R by (field; lra).
    rewrite Rpower_O by lra. f_equal. decimals. field. lra.
  - rewrite log_fin by (replace (0 / tr)%R with 0%R by (field; lra); lra).
    cbn [XReal.mul XReal.add].
    replace (Q2R 1 + 0 / tr)%R with 1%R by (decimals; field; lra).
    rewrite ln_1. f_equal. decimals. field. lra.
  - f_equal. decimals. field. lra.
Qed.

Lemma price_at_zero_raised_is_initial_price_witness :
  ((0 < 1000000000)%R /\ (0 < 85)%R)
  /\ getCurrentPrice (XFin 0) "logarithmic" (XFin 1000000000) (XFin 85)
     = XFin (85 / (0.8 * 1000000000)).
Proof.
  assert (Hs : (0 < 1000000000)%R) by lra.
  assert (Ht : (0 < 85)%R) by lra.
  split; [split; assumption |].
  exact (price_at_zero_raised_is_initial_price "logarithmic" 1000000000 85 Hs Ht).
Defined.

(** The witness of [sell_quote_bounded], on the logarithmic curve. *)
Lemma sell_quote_bounded_witness :
  ((0 < 1000000000)%R /\ (0 < 85)%R /\ (0 <= 10)%R
   /\ ("logarithmic"%string = "logarithmic"%string ->
       (1000000 < 1000000000 * 0.8 * (10 / 85) + 1000000000 * 0.8)%R))
  /\ exists s : R,
       amountOut (getSellQuote (XFin 1000000) (XFin 10) "logarithmic"
                    (XFin 1000000000) (XFin 85)) = XFin s
       /\ (0 <= s <= 10)%R.
Proof.
  assert (Hs : (0 < 1000000000)%R) by lra.
  assert (Ht : (0 < 85)%R) by lra.
  assert (Hc : (0 <= 10)%R) by lra.
  assert (Hl : "logarithmic"%string = "logarithmic"%string ->
               (1000000 < 1000000000 * 0.8 * (10 / 85) + 1000000000 * 0.8)%R)
    by (intros _; lra).
  split; [repeat split; assumption |].
  exact (sell_quote_bounded "logarithmic" 1000000 10 1000000000 85 Hs Ht Hc Hl).
Defined.

(** ** Display metrics *)

Lemma leb_fin_false a b : XReal.leb (XFin a) (XFin b) = false <-> (b < a)%R.
Proof.
  pose proof (leb_fin a b) as L. destruct (XReal.leb (XFin a) (XFin b)).
  - split; [discriminate |]. intros Hlt. apply proj1 in L. specialize (L eq_refl). lra.
  - split; [| reflexivity]. intros _. destruct (Rle_or_lt a b) as [Hle | Hlt]; [| exact Hlt].
    apply L in Hle. discriminate.
Qed.

Lemma Q2R_whole z : Q2R (z # 1) = IZR z.
Proof. unfold Q2R. cbn [Qnum Qden]. lra. Qed.

(** The progress of finite amounts is finite, and 100 once the target is
    reached. *)
Lemma calculateProgress_finite (currentRaised fundraisingTarget : R) :
  exists p : R,
    calculateProgress (XFin currentRaised) (XFin fundraisingTarget) = XFin p
    /\ ((0 < fundraisingTarget <= currentRaised)%R -> p = 100%R).
Proof.
  unfold calculateProgress. xreal_ops. rewrite !Q2R_whole.
  destruct (XReal.leb (XFin fundraisingTarget) (XFin 0)) eqn:Ht.
  - apply leb_fin in Ht. exists 0%R. split; [reflexivity | intros; lra].
  - apply leb_fin_false in Ht. rewrite div_fin by lra. cbn [XReal.mul XReal.min].
    eexists. split; [reflexivity |]. intros [_ Hge]. apply Rmin_left.
    apply Rmult_le_reg_r with fundraisingTarget; [lra |].
    replace (currentRaised / fundraisingTarget * 100 * fundraisingTarget)%R
      with (currentRaised * 100)%R by (field; lra).
    lra.
Qed.

(** X9.  [calculateProgress] of finite amounts is a finite percentage that
    is never above 100, is not below 0 when nothing negative was raised,
    is 0 when the target is 0 or below, and is 100 once the target is
    reached. *)
Theorem progress_is_a_percentage (currentRaised fundraisingTarget : R) :
  exists p : R,
    calculateProgress (XFin currentRaised) (XFin fundraisingTarget) = XFin p
    /\ (p <= 100)%R
    /\ ((0 <= currentRaised)%R -> (0 <= p)%R)
    /\ ((fundraisingTarget <= 0)%R -> p = 0%R)
    /\ ((0 < fundraisingTarget <= currentRaised)%R -> p = 100%R).
Proof.
  unfold calculateProgress. xreal_ops. rewrite !Q2R_whole.
  destruct (XReal.leb (XFin fundraisingTarget) (XFin 0)) eqn:Ht.
  - apply leb_fin in Ht. exists 0%R.
    split; [reflexivity |]. repeat split; intros; lra.
  - apply leb_fin_false in Ht.
    rewrite div_fin by lra. cbn [XReal.mul XReal.min].
    eexists. split; [reflexivity |].
    assert (Hq : (currentRaised / fundraisingTarget * 100
                  = currentRaised * 100 / fundraisingTarget)%R) by (field; lra).
    rewrite Hq.
    split; [apply Rle_trans with 100%R; [apply Rmin_l | lra] |].
    split; [| split].
    + intros Hc. apply Rmin_glb; [lra |].
      apply Rmult_le_pos; [lra |]. apply Rlt_le, Rinv_0_lt_compat. lra.
    + intros Hn. lra.
    + intros [_ Hge]. rewrite Rmin_left; [lra |].
      apply Rmult_le_reg_r with fundraisingTarget; [lra |].
      unfold Rdiv. rewrite Rmult_assoc, Rinv_l by lra. lra.
Qed.

(** X10.  The price that [calculateTokenMetrics] shows does not follow the
    curve: on every curve type but "logarithmic" it is the constant
    0.0000000292, and the market capitalisation is that constant times the
    total supply, whatever was raised and whatever the target is. *)
Theorem metrics_price_is_constant_off_the_logarithmic_curve
    (nowAtStart now : Z) (launch : TokenLaunch.t xreal)
    (totalSupply currentRaised fundraisingTarget : R) :
  TokenLaunch.totalSupply launch = XFin totalSupply ->
  TokenLaunch.currentRaised launch = XFin currentRaised ->
  TokenLaunch.fundraisingTarget launch = XFin fundraisingTarget ->
  TokenLaunch.curveType launch <> "logarithmic"%string ->
  let metrics := calculateTokenMetrics nowAtStart now launch in
  TokenMetrics.currentPrice metrics = XFin 0.0000000292
  /\ TokenMetrics.marketCap metrics = XFin (0.0000000292 * totalSupply).
Proof.
  intros Hs Hc Ht Hcurve metrics. subst metrics.
  unfold calculateTokenMetrics.
  cbn [TokenMetrics.currentPrice TokenMetrics.marketCap].
  rewrite Hs, Hc, Ht.
  destruct (calculateProgress_finite currentRaised fundraisingTarget)
    as (p & -> & _).
  assert (Hprice : forall supply : R,
             calculateBondingCurvePrice (XFin supply) (TokenLaunch.curveType launch)
               DEFAULT_INITIAL_PRICE DEFAULT_CURVE_SLOPE
             = XFin 0.0000000292).
  { intros supply. unfold calculateBondingCurvePrice, DEFAULT_INITIAL_PRICE,
      DEFAULT_CURVE_SLOPE.
    destruct (String.eqb_spec (TokenLaunch.curveType launch) "linear") as [_ | _].
    - xreal_ops. cbn [XReal.mul XReal.add]. f_equal. rewrite !Q2R_whole. lra.
    - destruct (String.eqb_spec (TokenLaunch.curveType launch) "exponential")
        as [_ | _].
      + xreal_ops. rewrite !Q2R_whole. cbn [XReal.mul XReal.add].
        rewrite div_fin by lra.
        replace (1 + 0 * 1000000000)%R with 1%R by lra.
        rewrite pow_fin by lra. cbn [XReal.mul]. f_equal.
        unfold Rpower. rewrite ln_1, Rmult_0_r, exp_0. lra.
      + destruct (String.eqb_spec (TokenLaunch.curveType launch) "logarithmic")
          as [E | _]; [contradiction | reflexivity]. }
  xreal_ops. rewrite !Q2R_whole. rewrite div_fin by lra. cbn [XReal.mul].
  rewrite Hprice. split; reflexivity.
Qed.

Lemma metrics_price_is_constant_off_the_logarithmic_curve_witness :
  let launch : TokenLaunch.t xreal := Rows.row "exponential" "active" (XFin 40) in
  TokenMetrics.currentPrice (calculateTokenMetrics 1700000600000 1700000600000 launch)
    = XFin 0.0000000292
  /\ TokenMetrics.marketCap (calculateTokenMetrics 1700000600000 1700000600000 launch)
    = XFin (0.0000000292 * Q2R 1000000000).
Proof.
  intros launch.
  apply (metrics_price_is_constant_off_the_logarithmic_curve
           1700000600000 1700000600000 launch (Q2R 1000000000) 40 (Q2R 85));
    [reflexivity | reflexivity | reflexivity | discriminate].
Defined.

Lemma ageOf_thresholds (createdAt now : Z) :
  let diff := (now - createdAt)%Z in
  ((diff < 3600000)%Z -> ageOf createdAt now = MinutesAgo (diff / 60000))
  /\ ((3600000 <= diff < 86400000)%Z -> ageOf createdAt now = HoursAgo (diff / 3600000))
  /\ ((86400000 <= diff)%Z -> ageOf createdAt now = DaysAgo (diff / 86400000))
  /\ ((diff < 0)%Z -> exists minutes, ageOf createdAt now = MinutesAgo minutes
                                      /\ (minutes < 0)%Z).
Proof.
  intros diff. unfold ageOf. fold diff.
  assert (Hh : (diff / 60000 / 60 = diff / 3600000)%Z)
    by (rewrite Z.div_div by lia; reflexivity).
  assert (Hd : (diff / 60000 / 60 / 24 = diff / 86400000)%Z)
    by (rewrite !Z.div_div by lia; reflexivity).
  rewrite Hd, Hh.
  assert (Hlow : (diff < 3600000)%Z ->
                 ((0 <? diff / 86400000)%Z = false /\ (0 <? diff / 3600000)%Z = false)).
  { intros Hlt. split; apply Z.ltb_ge.
    - destruct (Z_lt_le_dec diff 0).
      + apply Z.lt_le_incl, Z.div_lt_upper_bound; lia.
      + rewrite Z.div_small by lia. lia.
    - destruct (Z_lt_le_dec diff 0).
      + apply Z.lt_le_incl, Z.div_lt_upper_bound; lia.
      + rewrite Z.div_small by lia. lia. }
  split; [| split; [| split]].
  - intros Hlt. destruct (Hlow Hlt) as [-> ->]. reflexivity.
  - intros [Hge Hlt].
    assert ((0 <? diff / 86400000)%Z = false) as ->
      by (apply Z.ltb_ge; rewrite Z.div_small by lia; lia).
    assert ((0 <? diff / 3600000)%Z = true) as ->
      by (apply Z.ltb_lt, Z.div_str_pos; lia).
    reflexivity.
  - intros Hge.
    assert ((0 <? diff / 86400000)%Z = true) as ->
      by (apply Z.ltb_lt, Z.div_str_pos; lia).
    reflexivity.
  - intros Hneg. destruct (Hlow ltac:(lia)) as [-> ->].
    eexists. split; [reflexivity |]. apply Z.div_lt_upper_bound; lia.
Qed.

(** X11.  The age that [calculateTokenMetrics] prints counts whole minutes
    under an hour, whole hours under a day and whole days from then on; for
    a creation time ahead of the clock it is a negative count of minutes.
    A row without a creation time is aged from the first reading of the
    clock. *)
Theorem age_counts_minutes_hours_days {num} `{Number num} `{Transcendental num}
    (nowAtStart now : Z) (launch : TokenLaunch.t num) :
  let createdAt := default nowAtStart (TokenLaunch.createdAt launch) in
  let diff := (now - createdAt)%Z in
  let age := TokenMetrics.age (calculateTokenMetrics nowAtStart now launch) in
  ((diff < 3600000)%Z -> age = MinutesAgo (diff / 60000))
  /\ ((3600000 <= diff < 86400000)%Z -> age = HoursAgo (diff / 3600000))
  /\ ((86400000 <= diff)%Z -> age = DaysAgo (diff / 86400000))
  /\ ((diff < 0)%Z -> exists minutes, age = MinutesAgo minutes /\ (minutes < 0)%Z).
Proof.
  intros createdAt diff age.
  assert (E : age = ageOf createdAt now).
  { subst age createdAt. unfold calculateTokenMetrics. cbn [TokenMetrics.age].
    destruct (TokenLaunch.createdAt launch); reflexivity. }
  rewrite E. exact (ageOf_thresholds createdAt now).
Qed.

(** The progress as a real number. *)
Lemma calculateProgress_value (raised fundraisingTarget : R) :
  exists p : R,
    calculateProgress (XFin raised) (XFin fundraisingTarget) = XFin p
    /\ ((fundraisingTarget <= 0)%R -> p = 0%R)
    /\ ((0 < fundraisingTarget)%R -> p = Rmin 100 (raised / fundraisingTarget * 100)).
Proof.
  unfold calculateProgress. xreal_ops. rewrite !Q2R_whole.
  destruct (XReal.leb (XFin fundraisingTarget) (XFin 0)) eqn:Ht.
  - apply leb_fin in Ht. exists 0%R. split; [reflexivity |]. split; [reflexivity |].
    intros Hpos. lra.
  - apply leb_fin_false in Ht. rewrite !div_fin by lra. cbn [XReal.mul XReal.min].
    eexists. split; [reflexivity |]. split; [intros Hle; lra | reflexivity].
Qed.

(** X29.  On the logarithmic curve the price that [calculateTokenMetrics]
    shows is the constant 0.0000000292 times
    [1 + ln (1 + supply / 100000000)], where the supply is the share of the
    total supply that the progress stands for, and the progress is the
    raised amount in hundredths of the target, 100 at most (and 0 for a
    target that is not positive): it is the constant when nothing is
    raised and does not fall as more is raised. *)
Theorem metrics_price_on_the_logarithmic_curve
    (nowAtStart now : Z) (before after : TokenLaunch.t xreal)
    (totalSupply raised1 raised2 fundraisingTarget : R) :
  TokenLaunch.curveType before = "logarithmic"%string ->
  TokenLaunch.curveType after = "logarithmic"%string ->
  TokenLaunch.totalSupply before = XFin totalSupply ->
  TokenLaunch.totalSupply after = XFin totalSupply ->
  TokenLaunch.fundraisingTarget before = XFin fundraisingTarget ->
  TokenLaunch.fundraisingTarget after = XFin fundraisingTarget ->
  TokenLaunch.currentRaised before = XFin raised1 ->
  TokenLaunch.currentRaised after = XFin raised2 ->
  (0 <= totalSupply)%R -> (0 <= raised1 <= raised2)%R ->
  let metrics1 := calculateTokenMetrics nowAtStart now before in
  let metrics2 := calculateTokenMetrics nowAtStart now after in
  let curve (p : R) : R :=
    (0.0000000292 * (1 + ln (1 + totalSupply * (p / 100) / 100000000)))%R in
  exists p1 p2 : R,
    TokenMetrics.progress metrics1 = XFin p1
    /\ TokenMetrics.progress metrics2 = XFin p2
    /\ ((fundraisingTarget <= 0)%R -> p1 = 0%R /\ p2 = 0%R)
    /\ ((0 < fundraisingTarget)%R ->
        p1 = Rmin 100 (raised1 / fundraisingTarget * 100)
        /\ p2 = Rmin 100 (raised2 / fundraisingTarget * 100))
    /\ TokenMetrics.currentPrice metrics1 = XFin (curve p1)
    /\ TokenMetrics.currentPrice metrics2 = XFin (curve p2)
    /\ (raised1 = 0%R -> curve p1 = 0.0000000292%R)
    /\ (0.0000000292 <= curve p1 <= curve p2)%R.
Proof.
  intros Hc1 Hc2 Hs1 Hs2 Ht1 Ht2 Hr1 Hr2 Hs Hr metrics1 metrics2 curve.
  subst metrics1 metrics2.
  unfold calculateTokenMetrics.
  cbn [TokenMetrics.currentPrice TokenMetrics.progress].
  rewrite Hc1, Hc2, Hs1, Hs2, Ht1, Ht2, Hr1, Hr2.
  destruct (calculateProgress_value raised1 fundraisingTarget)
    as (p1 & E1 & Hlow1 & Hhigh1).
  destruct (calculateProgress_value raised2 fundraisingTarget)
    as (p2 & E2 & Hlow2 & Hhigh2).
  rewrite E1, E2.
  assert (Hp : (0 <= p1 <= p2)%R).
  { destruct (Rle_lt_dec fundraisingTarget 0) as [Hle | Hpos].
    - rewrite (Hlow1 Hle), (Hlow2 Hle). lra.
    - rewrite (Hhigh1 Hpos), (Hhigh2 Hpos).
      assert (Hi : (0 < / fundraisingTarget)%R) by (apply Rinv_0_lt_compat; lra).
      assert (Hq1 : (0 <= raised1 / fundraisingTarget * 100)%R) by (unfold Rdiv; nra).
      assert (Hq12 : (raised1 / fundraisingTarget * 100
                      <= raised2 / fundraisingTarget * 100)%R) by (unfold Rdiv; nra).
      split; [apply Rmin_glb; lra | apply Rle_min_compat_l; exact Hq12]. }
  assert (Hzero : raised1 = 0%R -> p1 = 0%R).
  { intros ->. destruct (Rle_lt_dec fundraisingTarget 0) as [Hle | Hpos].
    - exact (Hlow1 Hle).
    - rewrite (Hhigh1 Hpos). unfold Rdiv. rewrite !Rmult_0_l.
      apply Rmin_right. lra. }
  exists p1, p2. split; [reflexivity |]. split; [reflexivity |].
  split; [intros Hle; split; [exact (Hlow1 Hle) | exact (Hlow2 Hle)] |].
  split; [intros Hpos; split; [exact (Hhigh1 Hpos) | exact (Hhigh2 Hpos)] |].
  unfold calculateBondingCurvePrice, DEFAULT_INITIAL_PRICE.
  cbn [String.eqb Ascii.eqb Bool.eqb].
  xreal_ops. rewrite !Q2R_whole. rewrite !div_fin by lra. cbn [XReal.mul].
  rewrite !div_fin by lra. cbn [XReal.add].
  assert (Hu1 : (0 <= totalSupply * (p1 / 100) / 100000000)%R) by (unfold Rdiv; nra).
  assert (Hu12 : (totalSupply * (p1 / 100) / 100000000
                  <= totalSupply * (p2 / 100) / 100000000)%R) by (unfold Rdiv; nra).
  rewrite !log_fin by lra. cbn [XReal.add XReal.mul].
  assert (Hl1 : (0 <= ln (1 + totalSupply * (p1 / 100) / 100000000))%R).
  { rewrite <- ln_1. destruct (Rle_lt_or_eq_dec _ _ Hu1) as [Hlt | <-].
    - apply Rlt_le, ln_increasing; lra.
    - replace (1 + 0)%R with 1%R by lra. lra. }
  assert (Hl12 : (ln (1 + totalSupply * (p1 / 100) / 100000000)
                  <= ln (1 + totalSupply * (p2 / 100) / 100000000))%R).
  { destruct (Rle_lt_or_eq_dec _ _ Hu12) as [Hlt | ->]; [| lra].
    apply Rlt_le, ln_increasing; lra. }
  subst curve. cbv beta.
  split; [f_equal; decimals; lra |]. split; [f_equal; decimals; lra |].
  split.
  - intros Hnone. rewrite (Hzero Hnone).
    replace (1 + totalSupply * (0 / 100) / 100000000)%R with 1%R
      by (unfold Rdiv; lra).
    rewrite ln_1. lra.
  - decimals. split; nra.
Qed.

Lemma metrics_price_on_the_logarithmic_curve_witness :
  let curve (raised : R) : R :=
    (0.0000000292
     * (1 + ln (1 + Q2R 1000000000 * (Rmin 100 (raised / Q2R 85 * 100) / 100)
                    / 100000000)))%R in
  TokenMetrics.currentPrice
    (calculateTokenMetrics 0 0 (Rows.row "logarithmic" "active" (XFin 10)))
    = XFin (curve 10%R)
  /\ TokenMetrics.currentPrice
       (calculateTokenMetrics 0 0 (Rows.row "logarithmic" "active" (XFin 40)))
     = XFin (curve 40%R)
  /\ (0.0000000292 <= curve 10 <= curve 40)%R.
Proof.
  intros curve.
  destruct (metrics_price_on_the_logarithmic_curve 0 0
              (Rows.row "logarithmic" "active" (XFin 10))
              (Rows.row "logarithmic" "active" (XFin 40))
              (Q2R 1000000000) 10 40 (Q2R 85))
    as (p1 & p2 & _ & _ & _ & Hp & Hprice1 & Hprice2 & _ & Horder);
    try reflexivity; try (rewrite ?Q2R_whole; lra).
  destruct Hp as [-> ->]; [rewrite Q2R_whole; lra |].
  split; [exact Hprice1 |]. split; [exact Hprice2 | exact Horder].
Defined.

(** ** The routes of the ledger *)

Section LedgerFacts.
Context {num : Type} `{Number num} `{Transcendental num}.
Variable getParsedTransaction :
  string -> Completion (option (ParsedTransaction num)).
Variable getAssociatedTokenAddressSync : string -> string -> Completion string.
Variable isValidSolanaAddress : string -> bool.

(** A launch that is not active gets no quote for a buy or a sell. *)
Lemma inactive_launch_gets_no_quote db id launch amount :
  db !! id = Some launch ->
  String.eqb (TokenLaunch.status launch) "active" = false ->
  (exists e, quoteBuy db id amount = Rejected 400 e)
  /\ (exists e, quoteSell db id amount = Rejected 400 e).
Proof.
  intros Hl Hst. unfold quoteBuy, quoteSell, getLaunchById.
  destruct amount as [a |]; [| split; eexists; reflexivity].
  destruct (notPositive a); [split; eexists; reflexivity |].
  rewrite Hl, Hst. split; eexists; reflexivity.
Qed.

(** Nor is a buy recorded or confirmed for it. *)
Lemma inactive_launch_takes_no_buy db id launch :
  db !! id = Some launch ->
  String.eqb (TokenLaunch.status launch) "active" = false ->
  forall nowAtStart now amount walletAddress txSignature solAmount tokensReceived,
    (exists e, recordBuy isValidSolanaAddress nowAtStart now db id amount
                 walletAddress txSignature = (Rejected 400 e, db))
    /\ (exists e details,
          confirmBuy getParsedTransaction getAssociatedTokenAddressSync
            isValidSolanaAddress db id txSignature walletAddress solAmount
            tokensReceived = (Failure 400 e details, db)).
Proof.
  intros Hl Hst nowAtStart now amount walletAddress txSignature solAmount tokensReceived.
  split.
  - unfold recordBuy, getLaunchById.
    destruct amount as [a |]; [| eexists; reflexivity].
    destruct (notPositive a); [eexists; reflexivity |].
    destruct (negb (isValidSolanaAddress walletAddress)); [eexists; reflexivity |].
    rewrite Hl, Hst. eexists; reflexivity.
  - unfold confirmBuy, getLaunchById.
    destruct txSignature as [s |]; [| eexists _, _; reflexivity].
    destruct (String.eqb s ""); [eexists _, _; reflexivity |].
    destruct (negb (isValidSolanaAddress walletAddress)); [eexists _, _; reflexivity |].
    destruct (negb (isFinite solAmount) || (solAmount <=? lit 0)%js);
      [eexists _, _; reflexivity |].
    destruct (negb (isFinite tokensReceived) || (tokensReceived <=? lit 0)%js);
      [eexists _, _; reflexivity |].
    rewrite Hl, Hst. eexists _, _; reflexivity.
Qed.

End LedgerFacts.

(** X12.  Once a confirmed buy has graduated a launch, the launch is closed
    to buyers: every later request for a buy quote or a sell quote, every
    unverified buy and every buy confirmation for it is answered with
    status 400 and writes nothing. *)
Theorem graduation_closes_the_launch {num} `{Number num} `{Transcendental num}
    (getParsedTransaction : string -> Completion (option (ParsedTransaction num)))
    (getAssociatedTokenAddressSync : string -> string -> Completion string)
    (isValidSolanaAddress : string -> bool)
    db id txSignature walletAddress solAmount tokensReceived
    sig added received updated db' :
  confirmBuy getParsedTransaction getAssociatedTokenAddressSync isValidSolanaAddress
    db id txSignature walletAddress solAmount tokensReceived
    = (BuyConfirmed true sig added received updated, db') ->
  forall getParsedTransaction' nowAtStart now amount walletAddress' txSignature'
         solAmount' tokensReceived',
    (exists e, quoteBuy db' id amount = Rejected 400 e)
    /\ (exists e, quoteSell db' id amount = Rejected 400 e)
    /\ (exists e, recordBuy isValidSolanaAddress nowAtStart now db' id amount
                    walletAddress' txSignature' = (Rejected 400 e, db'))
    /\ (exists e details,
          confirmBuy getParsedTransaction' getAssociatedTokenAddressSync
            isValidSolanaAddress db' id txSignature' walletAddress' solAmount'
            tokensReceived' = (Failure 400 e details, db')).
Proof.
  intros E chain' nowAtStart now amount walletAddress' txSignature' solAmount'
    tokensReceived'.
  destruct (confirmBuy_confirmed _ _ _ _ _ _ _ _ _ _ _ _ _ _ _ E)
    as (launch & observed & _ & _ & _ & _ & _ & row & _ & Hdb & _ & Hst & _).
  assert (Hl : db' !! id = Some row) by (subst db'; apply lookup_insert_eq).
  assert (Hna : String.eqb (TokenLaunch.status row) "active" = false)
    by (rewrite Hst; reflexivity).
  destruct (inactive_launch_gets_no_quote db' id row amount Hl Hna) as [Hb Hs].
  destruct (inactive_launch_takes_no_buy chain' getAssociatedTokenAddressSync
              isValidSolanaAddress db' id row Hl Hna nowAtStart now amount
              walletAddress' txSignature' solAmount' tokensReceived') as [Hr Hc].
  repeat split; assumption.
Qed.

Lemma xleb_true a b : (a <= b)%R -> XReal.leb (XFin a) (XFin b) = true.
Proof. apply leb_fin. Qed.

Lemma xleb_false a b : (b < a)%R -> XReal.leb (XFin a) (XFin b) = false.
Proof. apply leb_fin_false. Qed.

Lemma xltb_true a b : (a < b)%R -> XReal.ltb (XFin a) (XFin b) = true.
Proof. intros L. cbn. now rewrite cmp_Lt. Qed.

Lemma xltb_false a b : (b <= a)%R -> XReal.ltb (XFin a) (XFin b) = false.
Proof.
  intros L. cbn. destruct (Rle_lt_or_eq_dec b a L) as [Hlt | ->].
  - now rewrite cmp_Gt.
  - now rewrite cmp_Eq.
Qed.

Lemma xeqb_true a b : a = b -> XReal.eqb (XFin a) (XFin b) = true.
Proof. intros L. cbn. now rewrite cmp_Eq. Qed.

Lemma xeqb_false a b : a <> b -> XReal.eqb (XFin a) (XFin b) = false.
Proof.
  intros L. cbn. destruct (Rtotal_order a b) as [Hlt | [Heq | Hgt]].
  - now rewrite cmp_Lt.
  - contradiction.
  - now rewrite cmp_Gt.
Qed.

Lemma Int_part_whole (a : R) (n : Z) : a = IZR n -> Int_part a = n.
Proof. intros ->. symmetry. apply Int_part_spec. lra. Qed.

(** In the exact model the integer columns take the whole numbers of 32
    bits and nothing else. *)
Lemma isInt4_whole (a : R) (n : Z) :
  a = IZR n -> (-2147483648 <= n <= 2147483647)%Z -> isInt4 (XFin a) = true.
Proof.
  intros Ha [Hlo Hhi]. unfold isInt4. xreal_ops. rewrite !Q2R_whole.
  cbn [XReal.isFinite XReal.floor]. rewrite (Int_part_whole a n Ha).
  rewrite (xeqb_true (IZR n) a) by congruence.
  apply IZR_le in Hlo, Hhi. subst a.
  rewrite !xleb_true by assumption. reflexivity.
Qed.

Lemma isInt4_is_whole (x : xreal) :
  isInt4 x = true -> exists n : Z, x = XFin (IZR n).
Proof.
  unfold isInt4. destruct x as [a | | |]; cbn; try discriminate.
  intros Hx. exists (Int_part a). f_equal.
  destruct (Rtotal_order (IZR (Int_part a)) a) as [Hlt | [Heq | Hgt]].
  - rewrite cmp_Lt in Hx by assumption. discriminate.
  - now symmetry.
  - rewrite cmp_Gt in Hx by assumption. discriminate.
Qed.

(** Decides the comparisons of closed real numbers that the evaluation of
    a function in the extended reals leaves. *)
Ltac xcompare :=
  match goal with
  | |- context [XReal.leb (XFin ?a) (XFin ?b)] =>
      first [ rewrite (xleb_true a b) by lra | rewrite (xleb_false a b) by lra ]
  | |- context [XReal.ltb (XFin ?a) (XFin ?b)] =>
      first [ rewrite (xltb_true a b) by lra | rewrite (xltb_false a b) by lra ]
  | |- context [XReal.eqb (XFin ?a) (XFin ?b)] =>
      first [ rewrite (xeqb_true a b) by lra | rewrite (xeqb_false a b) by lra ]
  | |- context [XReal.div (XFin ?a) (XFin ?b)] =>
      rewrite (div_fin a b) by lra
  | |- context [XReal.cmp ?a ?b] =>
      first [ rewrite (cmp_Lt a b) by lra
            | rewrite (cmp_Eq a b) by lra
            | rewrite (cmp_Gt a b) by lra ]
  | |- context [Rabs ?a] =>
      first [ rewrite (Rabs_pos_eq a) by lra | rewrite (Rabs_left a) by lra ]
  end.

(** Runs a function on finite numbers of the extended reals. *)
Ltac xrun :=
  repeat (cbn -[isInt4]; unfold XReal.ofQ, orDefault, orElse, truthy; try xcompare).

(** The same past an update of a row whose new count of holders and new
    volume are the whole numbers [holders] and [volume]. *)
Ltac xstore holders volume :=
  unfold updateLaunch, updateLaunchAndSignature, accepted;
  cbn [isSet orb andb from_option set_currentRaised set_status set_holders
       set_volume24h];
  rewrite ?(isInt4_whole _ holders) by (first [rewrite ?Q2R_whole; lra | lia]);
  rewrite ?(isInt4_whole _ volume) by (first [rewrite ?Q2R_whole; lra | lia]);
  xrun.

Lemma graduation_closes_the_launch_witness :
  let tx : ParsedTransaction xreal :=
    Rows.trade (XFin 5000000000) (XFin 4000000000) (XFin 0) (XFin 34000000) in
  let db : gmap string (TokenLaunch.t xreal) :=
    Rows.table "linear" "active" (XFin 84.5) in
  exists added updated db',
    confirmBuy (Rows.node tx) Sample.tokenAccountOf Sample.anyAddress
      db "launch-1" (Some "5VERv8"%string) Sample.wallet (XFin 1) (XFin 34000000)
    = (BuyConfirmed true "5VERv8" added (XFin 34000000) updated, db')
    /\ (exists e, quoteBuy db' "launch-1" (Some (XFin 1)) = Rejected 400 e)
    /\ (exists e, recordBuy Sample.anyAddress 0 0 db' "launch-1" (Some (XFin 1))
                    Sample.wallet None = (Rejected 400 e, db')).
Proof.
  intros tx db. eexists. eexists. eexists.
  eassert (E : confirmBuy (Rows.node tx) Sample.tokenAccountOf Sample.anyAddress
                 db "launch-1" (Some "5VERv8"%string) Sample.wallet (XFin 1)
                 (XFin 34000000)
               = (BuyConfirmed true "5VERv8" _ (XFin 34000000) _, _)).
  { xrun. unfold getLaunchById. subst db. unfold Rows.table.
    rewrite lookup_singleton_eq. xrun.
    unfold verifyTradeTransaction, checksBeforeAmount, fetchAndCheckMint,
      checkDirection, actualSolAmount, tokenChange, uiBalance, metaList, metaErr,
      allInstructions. subst tx. unfold Rows.node, Rows.trade. xrun.
    xstore 1%Z 150%Z. reflexivity. }
  split; [exact E |].
  destruct (graduation_closes_the_launch _ _ _ _ _ _ _ _ _ _ _ _ _ _ E
              (Rows.node tx) 0%Z 0%Z (Some (XFin 1)) Sample.wallet None (XFin 1) (XFin 1))
    as (Hq & _ & Hr & _).
  split; assumption.
Defined.


Lemma positive_amount_accepted (a : R) :
  (0 < a)%R -> notPositive (XFin a) = false.
Proof.
  intros Ha. unfold notPositive, truthy. xreal_ops. rewrite Q2R_whole.
  rewrite (xeqb_false a 0) by lra. rewrite (xleb_false a 0) by lra. reflexivity.
Qed.




(** The count of holders and the volume of a sample row after a trade of
    [amount] SOL that adds the whole number [n] to the volume: numbers that
    the integer columns take. *)
Lemma sample_row_takes (curveType status : string) (raised : xreal) (amount : R) (n : Z) :
  (amount * 150 = IZR n)%R -> (0 <= n <= 2147483647)%Z ->
  let launch := Rows.row curveType status raised in
  isInt4 (orDefault (TokenLaunch.holders launch) (lit 0) + lit 1)%js = true
  /\ isInt4 (orDefault (TokenLaunch.volume24h launch) (lit 0)
             + XFin amount * lit 150)%js = true.
Proof.
  intros Hn Hrange launch. subst launch.
  cbn [Rows.row TokenLaunch.holders TokenLaunch.volume24h].
  unfold orDefault, orElse, truthy.
  cbn [neqb isNaN nadd nmul xreal_Number XReal.isNaN].
  rewrite !lit_fin, (xeqb_true (Q2R 0) (Q2R 0)) by reflexivity.
  cbn [orb negb XReal.add XReal.mul].
  split.
  - apply (isInt4_whole _ 1); [rewrite !Q2R_whole; lra | lia].
  - apply (isInt4_whole _ n); [rewrite !Q2R_whole; lra | lia].
Qed.


(** X15.  The route that records a sell changes nothing but [volume24h]:
    whatever the request and whatever it answers, the table has the same
    rows afterwards, and each row has [currentRaised], [status] and every
    other column as before. *)
Theorem recorded_sell_changes_only_volume {num} `{Number num} `{Transcendental num}
    (isValidSolanaAddress : string -> bool) (nowAtStart now : Z)
    (db : gmap string (TokenLaunch.t num)) (id : string)
    (tokenAmount : option num) (walletAddress : string)
    (txSignature : option string) (solReceived : option num) (other : string) :
  let db' := snd (recordSell isValidSolanaAddress nowAtStart now db id tokenAmount
                    walletAddress txSignature solReceived) in
  match db !! other, db' !! other with
  | Some before, Some after => sameExceptVolume24h before after
  | None, None => True
  | _, _ => False
  end.
Proof.
  intros db'.
  assert (Hsame : match db !! other, db !! other with
                  | Some before, Some after => sameExceptVolume24h before after
                  | None, None => True
                  | _, _ => False
                  end)
    by (destruct (db !! other); [apply sameExceptVolume24h_refl | exact I]).
  subst db'. unfold recordSell, getLaunchById, updateLaunch.
  destruct tokenAmount as [a |]; [| exact Hsame].
  destruct (notPositive a); [exact Hsame |].
  destruct (negb (isValidSolanaAddress walletAddress)); [exact Hsame |].
  destruct (db !! id) as [launch |] eqn:Hl; [| exact Hsame].
  destruct (accepted _); [| exact Hsame].
  cbn [snd]. destruct (decide (id = other)) as [<- | Hne].
  - rewrite lookup_alter_eq, Hl. cbn [fmap option_fmap option_map].
    apply sameExceptVolume24h_update.
  - rewrite lookup_alter_ne by assumption. exact Hsame.
Qed.

(** X16.  The PATCH route writes the columns of its body as they come.  A
    body that sets [status] to "active" reopens a launch that had
    graduated or failed: a buy that was refused before it is recorded
    after it, when the integer columns take its count of holders and its
    volume.  A body that sets no column at all is answered with status
    500, and the table stays as it was. *)
Theorem patch_reopens_a_closed_launch {num} `{Number num} `{Transcendental num}
    (isValidSolanaAddress : string -> bool) (nowAtStart now : Z)
    (db : gmap string (TokenLaunch.t num)) (id : string)
    (launch : TokenLaunch.t num) (solAmount : num) (walletAddress : string)
    (txSignature : option string) :
  db !! id = Some launch ->
  String.eqb (TokenLaunch.status launch) "active" = false ->
  notPositive solAmount = false ->
  isValidSolanaAddress walletAddress = true ->
  isInt4 (orDefault (TokenLaunch.holders launch) (lit 0) + lit 1)%js = true ->
  isInt4 (orDefault (TokenLaunch.volume24h launch) (lit 0)
          + solAmount * lit 150)%js = true ->
  let reopen :=
    {| set_currentRaised := None; set_status := Some "active"%string;
       set_holders := None; set_volume24h := None |} in
  let nothing : LaunchUpdates num :=
    {| set_currentRaised := None; set_status := None;
       set_holders := None; set_volume24h := None |} in
  let db' := snd (patchLaunch nowAtStart now db id reopen) in
  (exists e, recordBuy isValidSolanaAddress nowAtStart now db id (Some solAmount)
               walletAddress txSignature = (Rejected 400 e, db))
  /\ (exists metrics row,
        patchLaunch nowAtStart now db id reopen = (Sent metrics, <[id := row]> db)
        /\ TokenLaunch.status row = "active"%string
        /\ TokenLaunch.currentRaised row = TokenLaunch.currentRaised launch)
  /\ (exists record db'',
        recordBuy isValidSolanaAddress nowAtStart now db' id (Some solAmount)
          walletAddress txSignature = (Sent record, db''))
  /\ patchLaunch nowAtStart now db id nothing
     = (Rejected 500 "Failed to update launch", db).
Proof.
  intros Hl Hst Ha Hw Hholders Hvolume reopen nothing db'.
  assert (Hpatch : patchLaunch nowAtStart now db id reopen
                   = (Sent (calculateTokenMetrics nowAtStart now
                              (applyUpdates reopen launch)),
                      <[id := applyUpdates reopen launch]> db)).
  { unfold patchLaunch, updateLaunch, accepted, reopen.
    cbn [isSet orb andb from_option set_currentRaised set_status set_holders
         set_volume24h].
    rewrite lookup_alter_eq, Hl. cbn [fmap option_fmap option_map].
    f_equal. apply map_eq. intros j. destruct (decide (id = j)) as [<- | Hne].
    - rewrite lookup_alter_eq, lookup_insert_eq, Hl. reflexivity.
    - rewrite lookup_alter_ne, lookup_insert_ne by assumption. reflexivity. }
  assert (Hrow : db' !! id = Some (applyUpdates reopen launch)).
  { subst db'. rewrite Hpatch. cbn [snd]. apply lookup_insert_eq. }
  split; [| split; [| split]].
  - unfold recordBuy, getLaunchById. rewrite Ha, Hw, Hl, Hst. eexists; reflexivity.
  - eexists _, _. split; [exact Hpatch |]. split; reflexivity.
  - unfold recordBuy, getLaunchById, updateLaunchAndSignature, accepted.
    rewrite Ha, Hw, Hrow.
    cbn [negb applyUpdates TokenLaunch.status TokenLaunch.holders
         TokenLaunch.volume24h reopen set_status set_holders set_volume24h
         set_currentRaised default from_option Datatypes.id String.eqb Ascii.eqb
         Bool.eqb isSet orb andb].
    rewrite Hholders, Hvolume. eexists _, _. reflexivity.
  - reflexivity.
Qed.

Lemma patch_reopens_a_closed_launch_witness :
  let db : gmap string (TokenLaunch.t xreal) :=
    Rows.table "linear" "graduated" (XFin 85) in
  let reopen : LaunchUpdates xreal :=
    {| set_currentRaised := None; set_status := Some "active"%string;
       set_holders := None; set_volume24h := None |} in
  let db' := snd (patchLaunch 0 0 db "launch-1" reopen) in
  (exists e, recordBuy Sample.anyAddress 0 0 db "launch-1" (Some (XFin 1))
               Sample.wallet None = (Rejected 400 e, db))
  /\ (exists record db'',
        recordBuy Sample.anyAddress 0 0 db' "launch-1" (Some (XFin 1))
          Sample.wallet None = (Sent record, db'')).
Proof.
  intros db reopen db'.
  destruct (sample_row_takes "linear" "graduated" (XFin 85) 1 150) as [Hh Hv];
    [lra | lia |].
  destruct (patch_reopens_a_closed_launch Sample.anyAddress 0 0 db "launch-1"
              (Rows.row "linear" "graduated" (XFin 85)) (XFin 1) Sample.wallet None)
    as (Hbefore & _ & Hafter & _);
    [apply lookup_singleton_eq | reflexivity | apply positive_amount_accepted; lra
    | reflexivity | exact Hh | exact Hv |].
  split; assumption.
Defined.

(** X17.  In the platform statistics the active and the graduated launches
    never count for more than all launches, and they count for all of them
    exactly when every launch is active or graduated. *)
Theorem stats_counts_partition {num} `{Number num}
    (launches : list (TokenLaunch.t num)) :
  let s := stats launches in
  (Stats.activeLaunches s + Stats.graduatedLaunches s <= Stats.totalLaunches s)%nat
  /\ ((Stats.activeLaunches s + Stats.graduatedLaunches s = Stats.totalLaunches s)%nat
      <-> Forall (fun l => TokenLaunch.status l = "active"%string
                           \/ TokenLaunch.status l = "graduated"%string) launches).
Proof.
  cbv zeta. unfold stats.
  cbn [Stats.activeLaunches Stats.graduatedLaunches Stats.totalLaunches].
  induction launches as [| l rest [IHle IHeq]].
  - cbn. split; [lia |]. split; [constructor | reflexivity].
  - cbn [List.filter length].
    destruct (String.eqb_spec (TokenLaunch.status l) "active") as [Ea | Na].
    + rewrite Ea. cbn [String.eqb Ascii.eqb Bool.eqb length].
      split; [lia |]. split.
      * intros E. constructor; [left; exact Ea |]. apply IHeq. lia.
      * intros Hall. inversion Hall as [| ? ? _ Hrest]; subst.
        apply IHeq in Hrest. lia.
    + destruct (String.eqb_spec (TokenLaunch.status l) "graduated") as [Eg | Ng].
      * cbn [length]. split; [lia |]. split.
        -- intros E. constructor; [right; exact Eg |]. apply IHeq. lia.
        -- intros Hall. inversion Hall as [| ? ? _ Hrest]; subst.
           apply IHeq in Hrest. lia.
      * split; [lia |]. split.
        -- intros E. lia.
        -- intros Hall. inversion Hall as [| ? ? [Hl | Hl] _]; contradiction.
Qed.

(** X18.  The price route and the launch route disagree on the progress of
    a launch that raised more than its target: the price route reports the
    quotient as it is, above 100, the metrics of the launch route cap it
    at 100. *)
Theorem price_route_progress_is_not_capped (nowAtStart now : Z)
    (db : gmap string (TokenLaunch.t xreal)) (id : string)
    (launch : TokenLaunch.t xreal) (currentRaised fundraisingTarget : R) :
  db !! id = Some launch ->
  TokenLaunch.currentRaised launch = XFin currentRaised ->
  TokenLaunch.fundraisingTarget launch = XFin fundraisingTarget ->
  (0 < fundraisingTarget < currentRaised)%R ->
  exists price metrics p,
    getPrice db id = Sent price
    /\ getLaunch nowAtStart now db id = Sent metrics
    /\ PriceInfo.progress price = XFin p /\ (100 < p)%R
    /\ TokenMetrics.progress metrics = XFin 100.
Proof.
  intros Hl Hc Ht [Hpos Hover].
  unfold getPrice, getLaunch, getLaunchById. rewrite Hl.
  eexists _, _, _. split; [reflexivity |]. split; [reflexivity |].
  cbn [PriceInfo.progress]. unfold calculateTokenMetrics. cbn [TokenMetrics.progress].
  rewrite Hc, Ht.
  destruct (calculateProgress_finite currentRaised fundraisingTarget)
    as (p & -> & Hfull).
  rewrite Hfull by lra.
  xreal_ops. rewrite Q2R_whole, div_fin by lra. cbn [XReal.mul].
  split; [reflexivity |]. split; [| reflexivity].
  apply Rmult_lt_reg_r with fundraisingTarget; [lra |].
  replace (currentRaised / fundraisingTarget * 100 * fundraisingTarget)%R
    with (currentRaised * 100)%R by (field; lra).
  lra.
Qed.

Lemma price_route_progress_is_not_capped_witness :
  let db : gmap string (TokenLaunch.t xreal) :=
    Rows.table "linear" "graduated" (XFin 170) in
  exists price metrics p,
    getPrice db "launch-1" = Sent price
    /\ getLaunch 0 0 db "launch-1" = Sent metrics
    /\ PriceInfo.progress price = XFin p /\ (100 < p)%R
    /\ TokenMetrics.progress metrics = XFin 100.
Proof.
  intros db.
  apply (price_route_progress_is_not_capped 0 0 db "launch-1"
           (Rows.row "linear" "graduated" (XFin 170)) 170 (Q2R 85));
    [apply lookup_singleton_eq | reflexivity | reflexivity
    | rewrite Q2R_whole; lra].
Defined.

(** ** Series of buy confirmations in exact arithmetic *)

Section Answers.
Context {num : Type} `{Number num}.
Variable getParsedTransaction :
  string -> Completion (option (ParsedTransaction num)).
Variable getAssociatedTokenAddressSync : string -> string -> Completion string.
Variable isValidSolanaAddress : string -> bool.

(** [confirmBuy] answers with a failure, and then the table is as it was,
    or with the confirmation of a buy. *)
Lemma confirmBuy_answers db id txSignature walletAddress solAmount tokensReceived :
  let answer :=
    confirmBuy getParsedTransaction getAssociatedTokenAddressSync isValidSolanaAddress
      db id txSignature walletAddress solAmount tokensReceived in
  match fst answer with
  | Failure _ _ _ => snd answer = db
  | BuyConfirmed _ _ _ _ _ => True
  | SellConfirmed _ _ _ _ => False
  end.
Proof.
  cbv zeta. unfold confirmBuy, getLaunchById, updateLaunch.
  destruct txSignature as [s |]; [| reflexivity].
  destruct (String.eqb s ""); [reflexivity |].
  destruct (negb (isValidSolanaAddress walletAddress)); [reflexivity |].
  destruct (negb (isFinite solAmount) || (solAmount <=? lit 0)%js); [reflexivity |].
  destruct (negb (isFinite tokensReceived) || (tokensReceived <=? lit 0)%js);
    [reflexivity |].
  destruct (db !! id) as [launch |]; [| reflexivity].
  destruct (negb _); [reflexivity |].
  destruct (negb _); [reflexivity |].
  destruct (accepted _); [exact I | reflexivity].
Qed.

End Answers.

Section BuySequencesExact.
Variable getParsedTransaction :
  string -> Completion (option (ParsedTransaction xreal)).
Variable getAssociatedTokenAddressSync : string -> string -> Completion string.
Variable isValidSolanaAddress : string -> bool.

(** What a launch reads from a volume the table can hold: a whole number. *)
Lemma integerColumn_reads (column : option xreal) :
  integerColumn column = true ->
  exists n : Z, orDefault column (lit 0) = XFin (IZR n).
Proof.
  unfold integerColumn, orDefault. destruct column as [v |]; cbn [from_option].
  - intros Hv. destruct (isInt4_is_whole v Hv) as (n & ->).
    unfold orElse. destruct (truthy (XFin (IZR n))).
    + exists n. reflexivity.
    + exists 0%Z. rewrite lit_fin, Q2R_whole. reflexivity.
  - intros _. exists 0%Z. rewrite lit_fin, Q2R_whole. reflexivity.
Qed.

(** A valid verification reports an amount within the tolerance of the
    expected one. *)
Lemma valid_within_tolerance (params : VerifyTradeParams xreal) observed :
  verifyTradeTransaction getParsedTransaction getAssociatedTokenAddressSync params
    = TradeVerification.mk true (Some observed) None
        (Some (expectedWallet params)) (Some (expectedMint params)) None ->
  (Math_abs (observed - expectedSolAmount params)
   >? expectedSolAmount params * lit 0.05 + lit 0.001)%js = false.
Proof.
  intros Hver.
  assert (Hvalid : TradeVerification.valid
            (verifyTradeTransaction getParsedTransaction getAssociatedTokenAddressSync
               params) = true) by (rewrite Hver; reflexivity).
  destruct (verify_valid_inv _ _ _ Hvalid) as (actual & Hchecks & Hresult).
  rewrite Hver in Hresult. injection Hresult as ->.
  pose proof (verify_amount_step _ _ _ _ Hchecks) as Hstep.
  rewrite Hver in Hstep.
  destruct (Math_abs (actual - expectedSolAmount params)
            >? expectedSolAmount params * lit 0.05 + lit 0.001)%js;
    [discriminate | reflexivity].
Qed.
(** The amount that a confirmed buy adds is above zero: an observed amount
    below zero that is within the tolerance of a claimed amount is above
    -0.001, so the volume it gives, that of the row less a part of 0.15, is
    not whole, and the table does not take it. *)
Lemma confirmed_buy_adds_above_zero db id txSignature walletAddress solAmount
    tokensReceived graduated sig added received updated db' launch :
  confirmBuy getParsedTransaction getAssociatedTokenAddressSync isValidSolanaAddress
    db id txSignature walletAddress solAmount tokensReceived
    = (BuyConfirmed graduated sig added received updated, db') ->
  db !! id = Some launch ->
  integerColumn (TokenLaunch.volume24h launch) = true ->
  exists a : R, added = XFin a /\ (0 < a)%R.
Proof.
  intros E Hl Hcolumn.
  destruct (confirmBuy_confirmed_claim _ _ _ _ _ _ _ _ _ _ _ _ _ _ _ E) as [Hfin Hpos].
  destruct (confirmBuy_confirmed _ _ _ _ _ _ _ _ _ _ _ _ _ _ _ E)
    as (launch' & observed & Hl' & _ & Hver & Hadd & _ & row & _ & _ & _ & _ & _ & _
        & _ & Hvolume & _).
  rewrite Hl in Hl'. injection Hl' as <-.
  pose proof (valid_within_tolerance _ _ Hver) as Htol.
  cbn [expectedSolAmount] in Htol.
  destruct (integerColumn_reads _ Hcolumn) as (m & Hm). rewrite Hm in Hvolume.
  destruct solAmount as [s | | |]; try discriminate Hfin.
  assert (Hs : (0 < s)%R).
  { destruct (Rle_or_lt s 0) as [Hle | Hlt]; [| exact Hlt].
    apply leb_fin in Hle. cbn [nleb xreal_Number] in Hpos. rewrite lit_fin in Hpos.
    replace (Q2R 0) with 0%R in Hpos by lra. congruence. }
  subst added. unfold orElse, truthy in *.
  destruct observed as [o | | |].
  - cbn [neqb isNaN xreal_Number XReal.isNaN] in *. rewrite lit_fin in *.
    rewrite orb_false_r in *.
    destruct (Rtotal_order o 0) as [Hneg | [-> | Hgt]].
    + exfalso. rewrite (xeqb_false o (Q2R 0)) in Hvolume by (rewrite Q2R_whole; lra).
      cbn [negb] in Hvolume.
      destruct (isInt4_is_whole _ Hvolume) as (k & Hk).
      cbn in Hk. injection Hk as Hk. rewrite Q2R_whole in Hk.
      cbn in Htol.
      destruct (Rle_or_lt (Rabs (o + - s)) (s * Q2R 0.05 + Q2R 0.001)) as [Hin | Hout];
        [| rewrite cmp_Lt in Htol by exact Hout; discriminate Htol].
      rewrite Rabs_left in Hin by lra. decimals.
      assert (Hlow : (IZR (m - 1) < IZR k)%R) by (rewrite minus_IZR; lra).
      assert (Hhigh : (IZR k < IZR m)%R) by lra.
      apply lt_IZR in Hlow, Hhigh. lia.
    + rewrite (xeqb_true 0 (Q2R 0)) by (rewrite Q2R_whole; reflexivity).
      exists s. split; [reflexivity | exact Hs].
    + rewrite (xeqb_false o (Q2R 0)) by (rewrite Q2R_whole; lra).
      exists o. split; [reflexivity | exact Hgt].
  - exfalso. cbn in Htol. discriminate Htol.
  - exfalso. cbn in Htol. discriminate Htol.
  - exists s. split; [reflexivity | exact Hs].
Qed.
(** One buy confirmation leaves the row of a launch as it is, or adds an
    amount above zero to what it raised. *)
Lemma confirmBuy_exact_step db id (r : BuyRequest xreal) launch raised target :
  db !! id = Some launch ->
  TokenLaunch.currentRaised launch = XFin raised ->
  TokenLaunch.fundraisingTarget launch = XFin target ->
  integerColumn (TokenLaunch.volume24h launch) = true ->
  let db' :=
    snd (confirmBuy getParsedTransaction getAssociatedTokenAddressSync
           isValidSolanaAddress db (req_id r) (req_txSignature r)
           (req_walletAddress r) (req_solAmount r) (req_tokensReceived r)) in
  db' !! id = Some launch
  \/ exists row added,
       db' !! id = Some row
       /\ req_id r = id
       /\ TokenLaunch.status launch = "active"
       /\ (0 < added)%R
       /\ TokenLaunch.currentRaised row = XFin (raised + added)
       /\ TokenLaunch.fundraisingTarget row = XFin target
       /\ integerColumn (TokenLaunch.volume24h row) = true
       /\ (TokenLaunch.status row = "graduated" /\ (target <= raised + added)%R
           \/ TokenLaunch.status row = "active" /\ (raised + added < target)%R).
Proof.
  intros Hl Hraised Htarget Hcolumn db'. subst db'.
  pose proof (confirmBuy_answers getParsedTransaction getAssociatedTokenAddressSync
                isValidSolanaAddress db (req_id r) (req_txSignature r)
                (req_walletAddress r) (req_solAmount r) (req_tokensReceived r))
    as Hanswer.
  cbv zeta in Hanswer.
  destruct (confirmBuy _ _ _ db (req_id r) (req_txSignature r) (req_walletAddress r)
              (req_solAmount r) (req_tokensReceived r))
    as [response db'] eqn:E.
  cbn [fst snd] in *.
  destruct response as [code msg details | g sig added received updated | ? ? ? ?];
    [left; rewrite Hanswer; exact Hl | | contradiction].
  pose proof E as Hconfirmed. apply confirmBuy_confirmed in Hconfirmed.
  destruct Hconfirmed
    as (launch' & observed & Hl' & Hactive & _ & _ & Hg & row & _ & Hdb & Hrow & Hstatus
        & _ & Hvol & _ & Hint & Htarget').
  destruct (decide (req_id r = id)) as [Hid | Hne];
    [| left; subst db'; rewrite lookup_insert_ne by assumption; exact Hl].
  rewrite Hid in *. rewrite Hl in Hl'. injection Hl' as <-.
  destruct (confirmed_buy_adds_above_zero _ _ _ _ _ _ _ _ _ _ _ _ launch E Hl Hcolumn)
    as (a & -> & Ha).
  right. exists row, a.
  split; [subst db'; apply lookup_insert_eq |]. split; [reflexivity |].
  split; [exact Hactive |]. split; [exact Ha |].
  rewrite Hraised in Hrow, Hg. rewrite Htarget in Htarget', Hg.
  split; [exact Hrow |]. split; [exact Htarget' |].
  split; [unfold integerColumn; rewrite Hvol; exact Hint |].
  rewrite Hstatus, Hg. cbn [nadd nleb xreal_Number XReal.add].
  destruct (Rle_or_lt target (raised + a)) as [Hreach | Hbelow].
  - left. rewrite (xleb_true _ _ Hreach). split; [reflexivity | exact Hreach].
  - right. rewrite (xleb_false _ _ Hbelow). split; [reflexivity | exact Hbelow].
Qed.

(** In exact arithmetic, on a launch whose volume is one the table can
    hold: after any series of buy confirmations the row of the launch
    has raised no less than before and has the same target; a row that
    changed was active before, has raised more, and is graduated exactly
    when what it raised reaches the target. *)
Lemma confirmBuys_exact requests : forall db id launch raised target,
  db !! id = Some launch ->
  TokenLaunch.currentRaised launch = XFin raised ->
  TokenLaunch.fundraisingTarget launch = XFin target ->
  integerColumn (TokenLaunch.volume24h launch) = true ->
  exists row raised',
    confirmBuys getParsedTransaction getAssociatedTokenAddressSync isValidSolanaAddress
      requests db !! id = Some row
    /\ TokenLaunch.currentRaised row = XFin raised'
    /\ (raised <= raised')%R
    /\ TokenLaunch.fundraisingTarget row = XFin target
    /\ integerColumn (TokenLaunch.volume24h row) = true
    /\ (row = launch
        \/ TokenLaunch.status launch = "active"
           /\ (raised < raised')%R
           /\ (TokenLaunch.status row = "graduated" /\ (target <= raised')%R
               \/ TokenLaunch.status row = "active" /\ (raised' < target)%R)).
Proof.
  induction requests as [| r rest IH]; intros db id launch raised target
    Hl Hraised Htarget Hcolumn.
  { exists launch, raised. cbn [confirmBuys].
    repeat split; try assumption; [lra | left; reflexivity]. }
  cbn [confirmBuys].
  destruct (confirmBuy_exact_step db id r launch raised target Hl Hraised Htarget Hcolumn)
    as [Hsame | (row1 & added & Hl1 & _ & Hactive & Hadded & Hraised1 & Htarget1
                 & Hcolumn1 & Hstatus1)].
  - exact (IH _ id launch raised target Hsame Hraised Htarget Hcolumn).
  - destruct (IH _ id row1 (raised + added)%R target Hl1 Hraised1 Htarget1 Hcolumn1)
      as (row & raised' & Hrow & Hraised' & Hle & Htarget' & Hcolumn' & Hchange).
    exists row, raised'. split; [exact Hrow |]. split; [exact Hraised' |].
    split; [lra |]. split; [exact Htarget' |]. split; [exact Hcolumn' |].
    right. split; [exact Hactive |]. split; [lra |].
    destruct Hchange as [-> | (_ & _ & Hstatus)]; [| exact Hstatus].
    rewrite Hraised1 in Hraised'. injection Hraised' as <-. exact Hstatus1.
Qed.

End BuySequencesExact.

(** ** Verification of a token creation *)

Lemma strictEq_true o s : strictEq o s = true <-> o = Some s.
Proof.
  destruct o as [x |]; cbn; [| split; discriminate].
  rewrite String.eqb_eq. split; [now intros -> | now intros [= ->]].
Qed.

Lemma isConfirmed_true c :
  isConfirmed c = true
  <-> (c = Some "confirmed"%string \/ c = Some "finalized"%string).
Proof. unfold isConfirmed. rewrite orb_true_iff, !strictEq_true. reflexivity. Qed.

(** X19.  [verifyTokenCreation] answers valid exactly when the chain shows
    all of this: the transaction is known, has no error and is confirmed or
    finalized; the mint account exists, its mint authority is the creator,
    its decimals are the expected ones (9 when none are given) and its
    supply is at least the expected supply in base units; the creator's
    associated token account exists, is not empty and is of this mint.  A
    larger supply passes; a mint whose authority was given up does not. *)
Theorem token_creation_valid_iff
    (getSignatureStatus : string -> string + option SignatureStatus.t)
    (getMint : string -> Completion Mint.t)
    (getAccount : string -> Completion TokenAccount.t)
    (getAssociatedTokenAddressSync : string -> string -> Completion string)
    (params : VerifyTokenCreationParams.t) :
  let expectedMint := VerifyTokenCreationParams.expectedMint params in
  let expectedCreator := VerifyTokenCreationParams.expectedCreator params in
  let expectedDecimals :=
    default 9%N (VerifyTokenCreationParams.expectedDecimals params) in
  TransactionVerification.valid
    (verifyTokenCreation getSignatureStatus getMint getAccount
       getAssociatedTokenAddressSync params) = true
  <-> exists status mintData creatorAta ataAccount,
        getSignatureStatus (VerifyTokenCreationParams.signature params)
          = inr (Some status)
        /\ SignatureStatus.err status = None
        /\ (SignatureStatus.confirmationStatus status = Some "confirmed"%string
            \/ SignatureStatus.confirmationStatus status = Some "finalized"%string)
        /\ getMint expectedMint = Returned mintData
        /\ Mint.mintAuthority mintData = Some expectedCreator
        /\ Mint.decimals mintData = expectedDecimals
        /\ (VerifyTokenCreationParams.expectedTotalSupply params
            * 10 ^ Z.of_N expectedDecimals <= Z.of_N (Mint.supply mintData))%Z
        /\ getAssociatedTokenAddressSync expectedMint expectedCreator
           = Returned creatorAta
        /\ getAccount creatorAta = Returned ataAccount
        /\ TokenAccount.amount ataAccount <> 0%N
        /\ TokenAccount.mint ataAccount = expectedMint.
Proof.
  cbv zeta. unfold verifyTokenCreation, creationChecks.
  set (expectedDecimals := default 9%N (VerifyTokenCreationParams.expectedDecimals params)).
  split.
  - destruct (getSignatureStatus _) as [e | [status |]]; cbn; try discriminate.
    destruct (SignatureStatus.err status) as [e |] eqn:Herr; cbn; [discriminate |].
    destruct (isConfirmed _) eqn:Hconf; cbn; [| discriminate].
    destruct (getMint _) as [| mintData]; cbn; [discriminate |].
    destruct (strictEq _ _) eqn:Hauth; cbn; [| discriminate].
    destruct (N.eqb_spec (Mint.decimals mintData) expectedDecimals) as [Hdec | Hdec];
      cbn; [| discriminate].
    destruct (Z.ltb_spec (Z.of_N (Mint.supply mintData))
                (VerifyTokenCreationParams.expectedTotalSupply params
                 * 10 ^ Z.of_N expectedDecimals)) as [Hlow | Hsupply];
      cbn; [discriminate |].
    destruct (getAssociatedTokenAddressSync _ _) as [| ata]; cbn; [discriminate |].
    destruct (getAccount ata) as [| ataAccount] eqn:Hacc; cbn; [discriminate |].
    destruct (N.eqb_spec (TokenAccount.amount ataAccount) 0) as [Hzero | Hamount];
      cbn; [discriminate |].
    destruct (String.eqb_spec (TokenAccount.mint ataAccount)
                (VerifyTokenCreationParams.expectedMint params)) as [Hmint | Hmint];
      cbn; [| discriminate].
    intros _. exists status, mintData, ata, ataAccount.
    apply isConfirmed_true in Hconf. apply strictEq_true in Hauth.
    split; [reflexivity |]. split; [exact Herr |]. split; [exact Hconf |].
    split; [reflexivity |]. split; [exact Hauth |]. split; [exact Hdec |].
    split; [exact Hsupply |]. split; [reflexivity |]. split; [exact Hacc |].
    split; [exact Hamount | exact Hmint].
  - intros (status & mintData & ata & ataAccount & Hstatus & Herr & Hconf & Hmintdata
            & Hauth & Hdec & Hsupply & Hata & Hacc & Hamount & Hmint).
    rewrite Hstatus. cbn. rewrite Herr. cbn.
    apply isConfirmed_true in Hconf. rewrite Hconf. cbn.
    rewrite Hmintdata. cbn.
    apply strictEq_true in Hauth. rewrite Hauth. cbn.
    apply N.eqb_eq in Hdec. rewrite Hdec. cbn.
    apply Z.ltb_ge in Hsupply. rewrite Hsupply. cbn.
    rewrite Hata. cbn. rewrite Hacc. cbn.
    apply N.eqb_neq in Hamount. rewrite Hamount. cbn.
    apply String.eqb_eq in Hmint. rewrite Hmint. reflexivity.
Qed.

(** X20.  A creation that [verifyTokenCreation] accepts is one that
    [getTransactionStatus] reports as confirmed, with its slot and without
    an error, when both ask the same node. *)
Theorem valid_creation_is_confirmed
    (getSignatureStatus : string -> string + option SignatureStatus.t)
    (getMint : string -> Completion Mint.t)
    (getAccount : string -> Completion TokenAccount.t)
    (getAssociatedTokenAddressSync : string -> string -> Completion string)
    (params : VerifyTokenCreationParams.t) :
  TransactionVerification.valid
    (verifyTokenCreation getSignatureStatus getMint getAccount
       getAssociatedTokenAddressSync params) = true ->
  exists slot,
    getTransactionStatus getSignatureStatus (VerifyTokenCreationParams.signature params)
    = TransactionStatus.mk true (Some slot) None.
Proof.
  unfold verifyTokenCreation, creationChecks, getTransactionStatus.
  destruct (getSignatureStatus _) as [e | [status |]]; cbn; try discriminate.
  destruct (SignatureStatus.err status) as [e |]; cbn; [discriminate |].
  destruct (isConfirmed _); cbn; [| discriminate].
  intros _. eexists. reflexivity.
Qed.

Lemma valid_creation_is_confirmed_witness :
  TransactionVerification.valid
    (verifyTokenCreation Rows.signatureStatus Rows.mintOf Rows.accountOf
       Sample.tokenAccountOf Rows.creation) = true
  /\ exists slot,
       getTransactionStatus Rows.signatureStatus "3CREATE"
       = TransactionStatus.mk true (Some slot) None.
Proof.
  split; [vm_compute; reflexivity |].
  apply (valid_creation_is_confirmed Rows.signatureStatus Rows.mintOf Rows.accountOf
           Sample.tokenAccountOf Rows.creation).
  vm_compute. reflexivity.
Defined.

(** ** The on-chain pool state *)

(** X21.  [fetchOnChainPoolState] keeps what it returns: after any call the
    cache has an entry for the mint that holds the result of the call (a
    failure of the node included), the entries of other mints are as
    before, and every call for the mint within ten seconds of the time of
    the entry returns the same result and leaves the cache as it is,
    whatever the node would answer by then. *)
Theorem pool_state_is_reused_for_ten_seconds
    (poolIdOf : string -> Completion string)
    (getAccountInfo : string -> Completion (option (list Byte.byte)))
    (now later : Z) (mintAddress : string) (cache : gmap string CacheEntry.t) :
  let result := fetchOnChainPoolState poolIdOf getAccountInfo now later mintAddress cache in
  exists entry,
    snd result !! mintAddress = Some entry
    /\ CacheEntry.data entry = fst result
    /\ (forall other, other <> mintAddress -> snd result !! other = cache !! other)
    /\ forall poolIdOf' getAccountInfo' now' later',
         (now' - CacheEntry.timestamp entry < 10000)%Z ->
         fetchOnChainPoolState poolIdOf' getAccountInfo' now' later' mintAddress
           (snd result)
         = result.
Proof.
  cbv zeta.
  assert (Hhit : forall (c : gmap string CacheEntry.t) entry,
             c !! mintAddress = Some entry ->
             forall poolIdOf' getAccountInfo' now' later',
               (now' - CacheEntry.timestamp entry < 10000)%Z ->
               fetchOnChainPoolState poolIdOf' getAccountInfo' now' later' mintAddress c
               = (CacheEntry.data entry, c)).
  { intros c entry Hc p g n l Hfresh. unfold fetchOnChainPoolState.
    rewrite Hc. apply Z.ltb_lt in Hfresh. unfold CACHE_TTL_MS. rewrite Hfresh.
    reflexivity. }
  unfold fetchOnChainPoolState at 1 2 3 5.
  destruct (cache !! mintAddress) as [cached |] eqn:Hc.
  - destruct (now - CacheEntry.timestamp cached <? CACHE_TTL_MS)%Z eqn:Hfresh.
    + exists cached. cbn [fst snd]. split; [exact Hc |]. split; [reflexivity |].
      split; [reflexivity |].
      intros p g n l Hn. rewrite (Hhit cache cached Hc p g n l Hn).
      unfold fetchOnChainPoolState. rewrite Hc, Hfresh. reflexivity.
    + eexists. cbn [fst snd]. split; [apply lookup_insert_eq |].
      split; [reflexivity |].
      split; [intros other Hne; apply lookup_insert_ne; congruence |].
      intros p g n l Hn.
      rewrite (Hhit _ _ (lookup_insert_eq _ _ _) p g n l Hn).
      unfold fetchOnChainPoolState. rewrite Hc, Hfresh. reflexivity.
  - eexists. cbn [fst snd]. split; [apply lookup_insert_eq |].
    split; [reflexivity |].
    split; [intros other Hne; apply lookup_insert_ne; congruence |].
    intros p g n l Hn.
    rewrite (Hhit _ _ (lookup_insert_eq _ _ _) p g n l Hn).
    unfold fetchOnChainPoolState. rewrite Hc. reflexivity.
Qed.

Lemma littleEndian_bound bytes :
  (littleEndian bytes < 256 ^ N.of_nat (length bytes))%N.
Proof.
  induction bytes as [| b rest IH]; [cbn; lia |].
  cbn [littleEndian fold_right length]. fold (littleEndian rest).
  pose proof (Byte.to_N_bounded b) as Hb.
  rewrite Nat2N.inj_succ, N.pow_succ_r'. lia.
Qed.

Lemma slice_bound (first last : nat) (data : list Byte.byte) :
  (last - first = 8)%nat -> (littleEndian (slice first last data) < 2 ^ 64)%N.
Proof.
  intros Hlen. pose proof (littleEndian_bound (slice first last data)) as Hb.
  assert (Hl : (length (slice first last data) <= 8)%nat).
  { unfold slice. rewrite length_firstn, Hlen. apply Nat.le_min_l. }
  apply N.lt_le_trans with (256 ^ N.of_nat (length (slice first last data)))%N;
    [exact Hb |].
  change (2 ^ 64)%N with (256 ^ 8)%N. apply N.pow_le_mono_r; lia.
Qed.

Lemma byteAt_bound data i : (byteAt data i < 256)%N.
Proof.
  unfold byteAt. destruct (nth_error data i) as [b |]; [| lia].
  pose proof (Byte.to_N_bounded b). lia.
Qed.

Lemma byteAt_is_2 data i :
  (byteAt data i =? 2)%N = true <-> nth_error data i = Some Byte.x02.
Proof.
  unfold byteAt. destruct (nth_error data i) as [b |].
  - rewrite N.eqb_eq. split.
    + intros Hb. pose proof (Byte.of_to_N b) as E. rewrite Hb in E.
      vm_compute in E. congruence.
    + intros [= ->]. reflexivity.
  - split; discriminate.
Qed.

(** X22.  What [fetchOnChainPoolState] reads from a pool account, on a
    call that asks the node: the four reserves are below 2^64 and the curve
    type below 256, the status is graduated exactly when the account has
    200 bytes or more and byte 8 is 2, and trading otherwise; an account
    of fewer than 200 bytes gives reserves of 0. *)
Theorem pool_account_decoding
    (poolIdOf : string -> Completion string)
    (getAccountInfo : string -> Completion (option (list Byte.byte)))
    (now later : Z) (mintAddress : string) (cache : gmap string CacheEntry.t)
    (poolId : string) (data : list Byte.byte) :
  cache !! mintAddress = None ->
  poolIdOf mintAddress = Returned poolId ->
  getAccountInfo poolId = Returned (Some data) ->
  exists state,
    fst (fetchOnChainPoolState poolIdOf getAccountInfo now later mintAddress cache)
      = Some state
    /\ OnChainPoolState.exists_ state = true
    /\ OnChainPoolState.poolId state = poolId
    /\ (OnChainPoolState.realSolReserves state < 2 ^ 64)%N
    /\ (OnChainPoolState.realTokenReserves state < 2 ^ 64)%N
    /\ (OnChainPoolState.virtualSolReserves state < 2 ^ 64)%N
    /\ (OnChainPoolState.virtualTokenReserves state < 2 ^ 64)%N
    /\ (OnChainPoolState.curveType state < 256)%N
    /\ (OnChainPoolState.status state = Graduated
        <-> (200 <= length data)%nat /\ nth_error data 8 = Some Byte.x02)
    /\ (OnChainPoolState.status state = Trading
        <-> ~ ((200 <= length data)%nat /\ nth_error data 8 = Some Byte.x02))
    /\ ((length data < 200)%nat ->
        OnChainPoolState.realSolReserves state = 0%N
        /\ OnChainPoolState.realTokenReserves state = 0%N
        /\ OnChainPoolState.virtualSolReserves state = 0%N
        /\ OnChainPoolState.virtualTokenReserves state = 0%N
        /\ OnChainPoolState.curveType state = 0%N).
Proof.
  intros Hc Hp Ha. unfold fetchOnChainPoolState. rewrite Hc, Hp, Ha. cbn [fst].
  eexists. split; [reflexivity |]. unfold decodePool.
  destruct (Nat.leb_spec 200 (length data)) as [Hlong | Hshort].
  - cbn [OnChainPoolState.exists_ OnChainPoolState.poolId
         OnChainPoolState.realSolReserves OnChainPoolState.realTokenReserves
         OnChainPoolState.virtualSolReserves OnChainPoolState.virtualTokenReserves
         OnChainPoolState.curveType OnChainPoolState.status].
    split; [reflexivity |]. split; [reflexivity |].
    split; [apply slice_bound; reflexivity |].
    split; [apply slice_bound; reflexivity |].
    split; [apply slice_bound; reflexivity |].
    split; [apply slice_bound; reflexivity |].
    split; [apply byteAt_bound |].
    pose proof (byteAt_is_2 data 8) as H2.
    destruct (byteAt data 8 =? 2)%N.
    + apply proj1 in H2. specialize (H2 eq_refl).
      split; [split; [intros _; split; assumption | reflexivity] |].
      split; [split; [discriminate | intros Hn; exfalso; apply Hn; split; assumption] |].
      intros Hlt. lia.
    + assert (Hn : nth_error data 8 <> Some Byte.x02)
        by (intros E; apply H2 in E; discriminate).
      split; [split; [discriminate | intros [_ E]; contradiction] |].
      split; [split; [intros _ [_ E]; contradiction | reflexivity] |].
      intros Hlt. lia.
  - cbn.
    split; [reflexivity |]. split; [reflexivity |].
    split; [lia |]. split; [lia |]. split; [lia |]. split; [lia |]. split; [lia |].
    split; [split; [discriminate | intros [Hl _]; lia] |].
    split; [split; [intros _ [Hl _]; lia | reflexivity] |].
    intros _. repeat split; reflexivity.
Qed.

Lemma pool_account_decoding_witness :
  exists state,
    fst (fetchOnChainPoolState Rows.poolOf Rows.accountInfo 1700000000000
           1700000000250 Sample.tokenMint ∅)
      = Some state
    /\ OnChainPoolState.realSolReserves state = 85000000000%N
    /\ OnChainPoolState.realTokenReserves state = 793100000000000%N
    /\ OnChainPoolState.virtualSolReserves state = 30000000000%N
    /\ OnChainPoolState.virtualTokenReserves state = 1073000000000000%N
    /\ OnChainPoolState.curveType state = 1%N
    /\ OnChainPoolState.status state = Graduated.
Proof.
  destruct (pool_account_decoding Rows.poolOf Rows.accountInfo 1700000000000
              1700000000250 Sample.tokenMint ∅ Sample.poolVault Rows.poolData)
    as (state & Hstate & _ & _ & _ & _ & _ & _ & _ & Hgraduated & _);
    [apply lookup_empty | reflexivity | reflexivity |].
  exists state. split; [exact Hstate |].
  assert (E : Some state = Some (decodePool Sample.poolVault Rows.poolData))
    by (rewrite <- Hstate; reflexivity).
  injection E as ->.
  repeat split; try (vm_compute; reflexivity).
Defined.

(** X23.  [getPoolInfo] on a call that asks the node: it has no answer
    exactly when the address is malformed or the node fails.  Otherwise
    the node has answered for the pool address, with an account or with
    none; [realB] is the eight bytes from offset 64 of an account of 200
    bytes or more, read little-endian, and 0 for a shorter account or for
    none; the amount raised is [realB] divided by 10^9, a finite number
    from 0 to below 18446744074; the target is 85; and the status is
    graduated exactly for an account of 200 bytes or more whose byte 8 is
    2, and trading otherwise, so a pool that has no account on chain is
    reported as trading with nothing raised. *)
Theorem pool_info_of_a_fetch
    (poolIdOf : string -> Completion string)
    (getAccountInfo : string -> Completion (option (list Byte.byte)))
    (now later : Z) (mintAddress : string) (cache : gmap string CacheEntry.t) :
  cache !! mintAddress = None ->
  let answer :=
    fst (getPoolInfo (num := xreal) poolIdOf getAccountInfo now later
           mintAddress cache) in
  (answer = None
   <-> poolIdOf mintAddress = Threw
       \/ exists poolId,
            poolIdOf mintAddress = Returned poolId /\ getAccountInfo poolId = Threw)
  /\ forall info, answer = Some info ->
       exists poolId account raised,
         poolIdOf mintAddress = Returned poolId
         /\ getAccountInfo poolId = Returned account
         /\ LaunchpadPoolInfo.poolId info = poolId
         /\ LaunchpadPoolInfo.mintA info = mintAddress
         /\ LaunchpadPoolInfo.realB info
            = match account with
              | Some data =>
                  if (200 <=? length data)%nat
                  then littleEndian (slice 64 72 data) else 0%N
              | None => 0%N
              end
         /\ LaunchpadPoolInfo.currentRaised info = XFin raised
         /\ (raised * 1000000000 = IZR (Z.of_N (LaunchpadPoolInfo.realB info)))%R
         /\ (0 <= raised < 18446744074)%R
         /\ LaunchpadPoolInfo.targetRaised info = XFin 85
         /\ LaunchpadPoolInfo.status info
            = match account with
              | Some data =>
                  if (200 <=? length data)%nat && (byteAt data 8 =? 2)%N
                  then Graduated else Trading
              | None => Trading
              end.
Proof.
  intros Hc answer. subst answer. unfold getPoolInfo, fetchOnChainPoolState.
  rewrite Hc.
  destruct (poolIdOf mintAddress) as [| poolId].
  { cbn [fst]. split; [split; [intros _; left; reflexivity | reflexivity] |].
    intros info E. discriminate E. }
  destruct (getAccountInfo poolId) as [| [data |]] eqn:Ha.
  - cbn [fst]. split.
    + split; [| reflexivity]. intros _. right. exists poolId.
      split; [reflexivity | exact Ha].
    + intros info E. discriminate E.
  - cbn [fst]. split.
    { split; [discriminate |]. intros [E | (p & E & Hthrew)]; [discriminate E |].
      injection E as <-. rewrite Ha in Hthrew. discriminate Hthrew. }
    intros info E. apply (inj Some) in E. subst info.
    assert (Hid : OnChainPoolState.poolId (decodePool poolId data) = poolId)
      by (unfold decodePool; destruct (200 <=? length data)%nat; reflexivity).
    assert (Hex : OnChainPoolState.exists_ (decodePool poolId data) = true)
      by (unfold decodePool; destruct (200 <=? length data)%nat; reflexivity).
    assert (Hreal : OnChainPoolState.realSolReserves (decodePool poolId data)
                    = if (200 <=? length data)%nat
                      then littleEndian (slice 64 72 data) else 0%N)
      by (unfold decodePool; destruct (200 <=? length data)%nat; reflexivity).
    assert (Hb : (OnChainPoolState.realSolReserves (decodePool poolId data) < 2 ^ 64)%N).
    { rewrite Hreal. destruct (200 <=? length data)%nat; [| lia].
      apply slice_bound. reflexivity. }
    assert (Hs : match OnChainPoolState.status (decodePool poolId data) with
                 | Graduated => Graduated
                 | _ => Trading
                 end
                 = if (200 <=? length data)%nat && (byteAt data 8 =? 2)%N
                   then Graduated else Trading).
    { unfold decodePool.
      destruct (200 <=? length data)%nat; cbn [OnChainPoolState.status andb];
        [| reflexivity].
      destruct (byteAt data 8 =? 2)%N; reflexivity. }
    set (state := decodePool poolId data) in *.
    eexists poolId, (Some data), _. split; [reflexivity |]. split; [exact Ha |].
    cbn [LaunchpadPoolInfo.poolId LaunchpadPoolInfo.mintA LaunchpadPoolInfo.currentRaised
         LaunchpadPoolInfo.realB LaunchpadPoolInfo.targetRaised LaunchpadPoolInfo.status].
    rewrite Hex. unfold LAMPORTS_PER_SOL, DEFAULT_FUNDRAISING_TARGET, inject_Z.
    xreal_ops. rewrite !Q2R_whole. rewrite div_fin by lra.
    split; [exact Hid |]. split; [reflexivity |]. split; [exact Hreal |].
    split; [reflexivity |].
    set (n := OnChainPoolState.realSolReserves state) in *.
    assert (Hn : (0 <= IZR (Z.of_N n) < 18446744073709551616)%R).
    { split; [apply IZR_le; lia |]. apply IZR_lt.
      change (2 ^ 64)%N with 18446744073709551616%N in Hb. lia. }
    split; [field |]. split; [lra |]. split; [reflexivity |]. exact Hs.
  - cbn [fst]. split.
    { split; [discriminate |]. intros [E | (p & E & Hthrew)]; [discriminate E |].
      injection E as <-. rewrite Ha in Hthrew. discriminate Hthrew. }
    intros info E. apply (inj Some) in E. subst info.
    eexists poolId, None, _. split; [reflexivity |]. split; [exact Ha |].
    cbn. unfold LAMPORTS_PER_SOL, DEFAULT_FUNDRAISING_TARGET. xreal_ops.
    rewrite !Q2R_whole.
    split; [reflexivity |]. split; [reflexivity |]. split; [reflexivity |].
    split; [reflexivity |]. split; [lra |]. split; [lra |]. split; reflexivity.
Qed.

Lemma pool_info_of_a_fetch_witness :
  exists info,
    fst (getPoolInfo (num := xreal) Rows.poolOf Rows.accountInfo 1700000000000
           1700000000250 Sample.tokenMint ∅) = Some info
    /\ LaunchpadPoolInfo.realB info = 85000000000%N
    /\ LaunchpadPoolInfo.currentRaised info = XFin 85
    /\ LaunchpadPoolInfo.status info = Graduated.
Proof.
  pose proof (pool_info_of_a_fetch Rows.poolOf Rows.accountInfo 1700000000000
                1700000000250 Sample.tokenMint ∅ (lookup_empty _)) as [Hnone Hinfo].
  destruct (fst (getPoolInfo (num := xreal) Rows.poolOf Rows.accountInfo 1700000000000
                   1700000000250 Sample.tokenMint ∅)) as [info |] eqn:E.
  - destruct (Hinfo info eq_refl)
      as (poolId & account & raised & Hp & Ha & _ & _ & Hreal & Hr & Hscale & _ & _ & Hs).
    injection Hp as <-. injection Ha as <-.
    assert (Hbytes : LaunchpadPoolInfo.realB info = 85000000000%N)
      by (rewrite Hreal; vm_compute; reflexivity).
    exists info. split; [reflexivity |]. split; [exact Hbytes |]. split.
    + rewrite Hr. f_equal. rewrite Hbytes in Hscale. cbn in Hscale. lra.
    + rewrite Hs. vm_compute. reflexivity.
  - exfalso. destruct (proj1 Hnone eq_refl) as [Hp | (poolId & Hp & Ha)].
    + discriminate Hp.
    + injection Hp as <-. discriminate Ha.
Defined.

(** ** Price helpers of the shared schema *)

(** X24.  On every curve type, and on a curve type it does not know,
    [calculatePrice] at a supply of 0 is the initial price, whatever the
    curve parameter [k]. *)
Theorem schema_price_starts_at_initial_price (curveType : string) (k initialPrice : R) :
  calculatePrice (XFin 0) curveType (XFin k) (XFin initialPrice) = XFin initialPrice.
Proof.
  unfold calculatePrice, calculateLinearPrice, calculateExponentialPrice,
    calculateLogarithmicPrice.
  destruct (String.eqb curveType "linear").
  { xreal_ops. cbn [XReal.mul XReal.add]. f_equal. lra. }
  destruct (String.eqb curveType "exponential").
  { xreal_ops. rewrite !Q2R_whole. rewrite div_fin by lra.
    cbn [XReal.add]. unfold XReal.pow. rewrite (cmp_Eq (0 / 1000000000) 0) by lra.
    cbn [XReal.mul]. f_equal. lra. }
  destruct (String.eqb curveType "logarithmic"); [| reflexivity].
  xreal_ops. rewrite !Q2R_whole. rewrite div_fin by lra. cbn [XReal.add].
  rewrite log_fin by lra. cbn [XReal.mul XReal.add]. f_equal.
  replace (1 + 0 / 1000000000)%R with 1%R by lra. rewrite ln_1. lra.
Qed.

(** X25.  For a curve parameter [k] and an initial price that are not
    negative, [calculatePrice] does not fall as the supply grows from 0,
    on any curve type. *)
Theorem schema_price_does_not_fall (curveType : string)
    (k initialPrice supply1 supply2 : R) :
  (0 <= k)%R -> (0 <= initialPrice)%R -> (0 <= supply1 <= supply2)%R ->
  exists price1 price2,
    calculatePrice (XFin supply1) curveType (XFin k) (XFin initialPrice) = XFin price1
    /\ calculatePrice (XFin supply2) curveType (XFin k) (XFin initialPrice) = XFin price2
    /\ (initialPrice <= price1 <= price2)%R.
Proof.
  intros Hk Hi [H1 H12].
  unfold calculatePrice, calculateLinearPrice, calculateExponentialPrice,
    calculateLogarithmicPrice.
  destruct (String.eqb curveType "linear").
  { xreal_ops. cbn [XReal.mul XReal.add]. eexists _, _.
    split; [reflexivity |]. split; [reflexivity |]. nra. }
  destruct (String.eqb curveType "exponential").
  { xreal_ops. rewrite !Q2R_whole. rewrite !div_fin by lra.
    cbn [XReal.add]. rewrite !pow_fin by lra. cbn [XReal.mul].
    eexists _, _. split; [reflexivity |]. split; [reflexivity |].
    assert (Hone : (1 <= Rpower (1 + k) (supply1 / 1000000000))%R).
    { replace 1%R with (Rpower (1 + k) 0) at 1 by (apply Rpower_O; lra).
      apply Rle_Rpower; [lra |]. apply Rmult_le_pos; [lra |].
      apply Rlt_le, Rinv_0_lt_compat. lra. }
    assert (Hmono : (Rpower (1 + k) (supply1 / 1000000000)
                     <= Rpower (1 + k) (supply2 / 1000000000))%R).
    { apply Rle_Rpower; [lra |]. apply Rmult_le_compat_r; [| lra].
      apply Rlt_le, Rinv_0_lt_compat. lra. }
    split; nra. }
  destruct (String.eqb curveType "logarithmic").
  { xreal_ops. rewrite !Q2R_whole. rewrite !div_fin by lra. cbn [XReal.add].
    assert (Hs1 : (0 <= supply1 / 1000000000)%R)
      by (apply Rmult_le_pos; [lra | apply Rlt_le, Rinv_0_lt_compat; lra]).
    assert (Hs12 : (supply1 / 1000000000 <= supply2 / 1000000000)%R)
      by (apply Rmult_le_compat_r; [apply Rlt_le, Rinv_0_lt_compat; lra | lra]).
    rewrite !log_fin by lra. cbn [XReal.mul XReal.add].
    eexists _, _. split; [reflexivity |]. split; [reflexivity |].
    assert (Hl1 : (0 <= ln (1 + supply1 / 1000000000))%R).
    { rewrite <- ln_1. destruct (Rle_lt_or_eq_dec _ _ Hs1) as [Hlt | <-].
      - apply Rlt_le, ln_increasing; lra.
      - replace (1 + 0)%R with 1%R by lra. lra. }
    assert (Hl12 : (ln (1 + supply1 / 1000000000) <= ln (1 + supply2 / 1000000000))%R).
    { destruct (Rle_lt_or_eq_dec _ _ Hs12) as [Hlt | ->]; [| lra].
      apply Rlt_le, ln_increasing; lra. }
    split; nra. }
  eexists _, _. split; [reflexivity |]. split; [reflexivity |]. lra.
Qed.

Lemma schema_price_does_not_fall_witness :
  exists price1 price2,
    calculatePrice (XFin 0) "exponential" (XFin 2) (XFin 0.0000000292) = XFin price1
    /\ calculatePrice (XFin 500000000) "exponential" (XFin 2) (XFin 0.0000000292)
       = XFin price2
    /\ (0.0000000292 <= price1 <= price2)%R.
Proof.
  apply (schema_price_does_not_fall "exponential" 2 0.0000000292 0 500000000); lra.
Defined.

(** ** What a valid verification guarantees *)

Section VerifierSoundness.
Context {num : Type} `{Number num}.
Variable getParsedTransaction :
  string -> Completion (option (ParsedTransaction num)).
Variable getAssociatedTokenAddressSync : string -> string -> Completion string.


End VerifierSoundness.



(** ** The confirmation handlers, again *)

(** X27.  A confirmation that is answered with an error writes nothing:
    whenever [confirmBuy] or [confirmSell] answers with a failure, the
    table is the one it was given. *)
Theorem failed_confirmation_writes_nothing {num} `{Number num}
    (getParsedTransaction : string -> Completion (option (ParsedTransaction num)))
    (getAssociatedTokenAddressSync : string -> string -> Completion string)
    (isValidSolanaAddress : string -> bool)
    (db : gmap string (TokenLaunch.t num)) (id : string)
    (txSignature : option string) (walletAddress : string) (a b : num) :
  let bought :=
    confirmBuy getParsedTransaction getAssociatedTokenAddressSync isValidSolanaAddress
      db id txSignature walletAddress a b in
  let sold :=
    confirmSell getParsedTransaction getAssociatedTokenAddressSync isValidSolanaAddress
      db id txSignature walletAddress a b in
  match fst bought with
  | Failure _ _ _ => snd bought = db
  | BuyConfirmed _ _ _ _ updated => updated = snd bought !! id /\ is_Some updated
  | SellConfirmed _ _ _ _ => False
  end
  /\ match fst sold with
     | Failure _ _ _ => snd sold = db
     | SellConfirmed _ _ _ updated => updated = snd sold !! id /\ is_Some updated
     | BuyConfirmed _ _ _ _ _ => False
     end.
Proof.
  cbv zeta. split.
  - unfold confirmBuy, getLaunchById, updateLaunch.
    destruct txSignature as [s |]; [| reflexivity].
    destruct (String.eqb s ""); [reflexivity |].
    destruct (negb (isValidSolanaAddress walletAddress)); [reflexivity |].
    destruct (negb (isFinite a) || (a <=? lit 0)%js); [reflexivity |].
    destruct (negb (isFinite b) || (b <=? lit 0)%js); [reflexivity |].
    destruct (db !! id) as [launch |] eqn:Hl; [| reflexivity].
    destruct (negb _); [reflexivity |].
    destruct (negb _); [reflexivity |].
    destruct (accepted _); [| reflexivity].
    cbn [fst snd]. split; [reflexivity |].
    rewrite lookup_alter_eq, Hl. cbn. eexists; reflexivity.
  - unfold confirmSell, getLaunchById, updateLaunch.
    destruct txSignature as [s |]; [| reflexivity].
    destruct (String.eqb s ""); [reflexivity |].
    destruct (negb (isValidSolanaAddress walletAddress)); [reflexivity |].
    destruct (negb (isFinite a) || (a <=? lit 0)%js); [reflexivity |].
    destruct (negb (isFinite b) || (b <=? lit 0)%js); [reflexivity |].
    destruct (db !! id) as [launch |] eqn:Hl; [| reflexivity].
    destruct (negb _); [reflexivity |].
    destruct (accepted _); [| reflexivity].
    cbn [fst snd]. split; [reflexivity |].
    rewrite lookup_alter_eq, Hl. cbn. eexists; reflexivity.
Qed.

Lemma confirmBuys_keep_inactive_witness :
  let tx := Sample.trade (lit 5000000000) (lit 4000000000) (lit 0) (lit 34000000) in
  let db := Sample.table "graduated" (lit 85) in
  let request : BuyRequest float :=
    {| req_id := "launch-1"; req_txSignature := Some "5VERv8"%string;
       req_walletAddress := Sample.wallet; req_solAmount := lit 1;
       req_tokensReceived := lit 34000000 |} in
  confirmBuys (Sample.node tx) Sample.tokenAccountOf Sample.anyAddress
    [request; request] db !! "launch-1"%string
  = Some (Sample.launch "graduated" (lit 85)).
Proof.
  intros tx db request.
  apply (confirmBuys_keep_inactive (Sample.node tx) Sample.tokenAccountOf
           Sample.anyAddress [request; request] db "launch-1"
           (Sample.launch "graduated" (lit 85)));
    vm_compute; reflexivity.
Defined.
